(** * python-fcm: the Firebase Cloud Messaging client of [fcm/firebase_messaging.py]

    A shallow embedding of the client ([FirebaseMessaging]), of its payload
    classes ([Payload], [JsonPayload], [PlainTextPayload]) and of its
    exception classes, followed by the properties of the payload builder, of
    the transport's status mapping and of the response reconciliation.

    Conventions of the embedding:
    - Python values are the terms of [PyVal]; [str] and [bytes] are both
      [string] (ASCII), numbers are [Z], dictionaries with [str] keys
      (keyword arguments, instance dictionaries, decoded JSON objects) are
      [gmap string PyVal], so that two dictionaries are equal exactly when
      they bind the same keys to the same values, whatever the order; the
      order in which such a dictionary yields its keys is the parameter
      [KeyOrder] of the code that iterates over one;
    - values are those a decoded JSON document is made of: [None], [bool],
      [int], [str], [list] and [dict] with [str] keys; floats, tuples and
      user objects are outside the embedding;
    - dictionaries keyed by arbitrary hashable values, whose order of
      insertion is observable (the groups built by [groupResponseResult]),
      are association lists kept in insertion order, the order a [dict]
      has since Python 3.7;
    - a raised exception is the [Raise] branch of [Result]; code that also
      logs or talks to the network lives in the state monad [Py] over a
      [World] that records the log lines and the HTTP requests issued;
    - [requests.post], [json.dumps] and [json.loads] are library code: they
      are parameters ([post], [dumps], [loads]) of the embedding; the module
      [Json] models the two codec functions on the values above. *)

From Stdlib Require Import ZArith Ascii String DecimalString DecimalPos DecimalFacts.
From stdpp Require Import gmap strings list fin_maps.

Set Warnings "-register-all".
Open Scope string_scope.
Open Scope Z_scope.

(** ** Python values *)

Inductive PyVal :=
| VNone
| VBool (b : bool)
| VInt (n : Z)
| VStr (s : string)
| VList (l : list PyVal)
| VDict (d : gmap string PyVal).

(** Truth value of an object, as tested by [if], [and], [or] and [not]. *)
Definition truthy (v : PyVal) : bool :=
  match v with
  | VNone => false
  | VBool b => b
  | VInt n => negb (n =? 0)
  | VStr s => negb (String.eqb s "")
  | VList l => match l with [] => false | _ => true end
  | VDict d => negb (bool_decide (d = ∅))
  end.

(** Only immutable values can be dictionary keys. *)
Definition hashable (v : PyVal) : bool :=
  match v with
  | VList _ | VDict _ => false
  | _ => true
  end.

(** [==] between hashable values; [True == 1] and [False == 0] hold (and
    the hashes agree), so a [bool] and the matching [int] are one key. *)
Definition as_int (v : PyVal) : option Z :=
  match v with
  | VBool b => Some (if b then 1 else 0)
  | VInt n => Some n
  | _ => None
  end.

Definition key_eqb (a b : PyVal) : bool :=
  match a, b with
  | VNone, VNone => true
  | VStr s, VStr t => String.eqb s t
  | _, _ => match as_int a, as_int b with
            | Some m, Some n => m =? n
            | _, _ => false
            end
  end.

(** ** Exceptions and the two monads *)

Inductive Exception :=
| FCMTooManyRegIdsException (msg : string)
| FCMMalformedJsonException (msg : string)
| FCMAuthenticationException (msg : string)
| FCMInternalException (msg : string)
| TypeError
| KeyError (key : string)
| AttributeError
| ValueError.

(** The class of an exception object: what an [except] clause can tell. *)
Inductive ExceptionClass :=
| TooManyRegIds | MalformedJson | Authentication | Internal | Builtin.

Definition class_of (e : Exception) : ExceptionClass :=
  match e with
  | FCMTooManyRegIdsException _ => TooManyRegIds
  | FCMMalformedJsonException _ => MalformedJson
  | FCMAuthenticationException _ => Authentication
  | FCMInternalException _ => Internal
  | _ => Builtin
  end.

Inductive Result (A : Type) :=
| Return (a : A)
| Raise (e : Exception).
Arguments Return {A} a.
Arguments Raise {A} e.

#[global] Instance Result_ret : MRet Result := fun A a => Return a.
#[global] Instance Result_bind : MBind Result := fun A B f m =>
  match m with
  | Return a => f a
  | Raise e => Raise e
  end.

(** ** The outside world: HTTP and the debug log *)

Inductive Body :=
| JsonText (s : string)
| FormFields (d : gmap string PyVal).

Record Request := {
  req_url : string;
  req_data : Body;
  req_headers : gmap string string;
  req_timeout : option Z
}.

Record Response := {
  status_code : Z;
  content : string
}.

Record World := {
  posted : list Request;
  logged : list string
}.

Definition Py (A : Type) : Type := World -> Result A * World.

#[global] Instance Py_ret : MRet Py := fun A a w => (Return a, w).
#[global] Instance Py_bind : MBind Py := fun A B f m w =>
  match m w with
  | (Return a, w') => f a w'
  | (Raise e, w') => (Raise e, w')
  end.

Definition raise {A} (e : Exception) : Py A := fun w => (Raise e, w).

Definition lift {A} (r : Result A) : Py A := fun w => (r, w).

Definition FCM_SERVER : string := "https://fcm.googleapis.com/fcm/send".

(** [str(n)] for an [int]. *)
Definition str_of_int (n : Z) : string := NilZero.string_of_int (Z.to_int n).

(** ** class FirebaseMessaging: configuration, logging, transport *)

Record FirebaseMessaging := {
  url : string;
  api_key : string;
  timeout : option Z;
  logger : bool
}.

Definition FirebaseMessaging_init (api_key : string) (timeout : option Z)
    (debug : bool) : FirebaseMessaging :=
  {| url := FCM_SERVER; api_key := api_key; timeout := timeout;
     logger := debug |}.

(** None of the messages logged by this module contains a brace, so
    [message.format(data)] is the message. *)
Definition log (self : FirebaseMessaging) (message : string) : Py unit :=
  fun w =>
    if logger self
    then (Return tt, {| posted := posted w; logged := logged w ++ [message] |})
    else (Return tt, w).

Section Transport.

Variable post : Request -> Response.
Variable loads : string -> option PyVal.

Definition requests_post (url : string) (data : Body)
    (headers : gmap string string) (timeout : option Z) : Py Response :=
  fun w =>
    let req := {| req_url := url; req_data := data;
                  req_headers := headers; req_timeout := timeout |} in
    (Return (post req),
     {| posted := posted w ++ [req]; logged := logged w |}).

Definition response_json (response : Response) : Py PyVal :=
  match loads (content response) with
  | Some j => mret j
  | None => raise ValueError
  end.

Definition makeRequest (self : FirebaseMessaging) (payload : Body)
    (is_json : bool) : Py PyVal :=
  let headers : gmap string string :=
    {[ "Authorization" := "key=" +:+ api_key self;
       "Content-type" :=
         if is_json then "application/json"
         else "application/x-www-form-urlencoded;charset=UTF-8" ]} in
  response ← requests_post (url self) payload headers (timeout self);
  if status_code response =? 200 then
    log self "Request success : 200";;
    if is_json then response_json response
    else mret (VStr (content response))
  else if status_code response =? 400 then
    let msg := "Error 400: The request could not be parsed as JSON, or it contained invalid fields." in
    log self msg;;
    raise (FCMMalformedJsonException msg)
  else if status_code response =? 401 then
    let msg := "Error 401: There was an error authenticating the sender account." in
    log self msg;;
    raise (FCMAuthenticationException msg)
  else if status_code response =? 503 then
    let msg := "The Firebsase Messaging server is temporarily unavailable" in
    log self ("Error 503: " +:+ msg);;
    raise (FCMInternalException msg)
  else
    let msg := "There was an internal error in the FCM connection server while trying to process the request" in
    log self ("Error " +:+ str_of_int (status_code response) +:+ ": " +:+ msg);;
    raise (FCMInternalException msg).

End Transport.

(** ** Python built-ins used by the module *)

(** [len(v)]. *)
Definition py_len (v : PyVal) : Result nat :=
  match v with
  | VStr s => Return (String.length s)
  | VList l => Return (length l)
  | VDict d => Return (size d)
  | _ => Raise TypeError
  end.

(** [v[key]] for a [str] key: only a dictionary can be indexed by one. *)
Definition getitem (v : PyVal) (key : string) : Result PyVal :=
  match v with
  | VDict d =>
      match d !! key with
      | Some x => Return x
      | None => Raise (KeyError key)
      end
  | _ => Raise TypeError
  end.

Fixpoint is_substring (s t : string) : bool :=
  String.prefix s t ||
  match t with
  | EmptyString => false
  | String _ t' => is_substring s t'
  end.

(** [key in v] for a [str] key: key of a dictionary, substring of a string,
    element of a list. *)
Definition contains (key : string) (v : PyVal) : Result bool :=
  match v with
  | VDict d => Return (bool_decide (is_Some (d !! key)))
  | VStr s => Return (is_substring key s)
  | VList l =>
      Return (existsb (fun x => match x with
                                | VStr t => String.eqb key t
                                | _ => false
                                end) l)
  | _ => Raise TypeError
  end.

(** The order in which a dictionary yields its keys when it is iterated.
    Python yields them in the order of insertion, which a [gmap] does not
    record: the order is a parameter of the embedding, and every property
    of the reconciliation below holds whatever the order is. It is
    observable only when a dictionary is given where a sequence is meant
    (as [registration_ids], or as the [results] of a response). *)
Class KeyOrder := iter_keys : gmap string PyVal -> list string.

(** The order of [map_to_list], for the examples. *)
#[global] Instance keys_of_map : KeyOrder :=
  fun d => map fst (map_to_list d).

(** The elements produced by iterating over [v]. *)
Definition py_iter `{KeyOrder} (v : PyVal) : Result (list PyVal) :=
  match v with
  | VList l => Return l
  | VStr s => Return (map (fun c => VStr (String c EmptyString))
                          (list_ascii_of_string s))
  | VDict d => Return (map VStr (iter_keys d))
  | _ => Raise TypeError
  end.

(** [zip(a, b)]: stops at the shorter of the two. *)
Definition py_zip `{KeyOrder} (a b : PyVal) : Result (list (PyVal * PyVal)) :=
  xs ← py_iter a;
  ys ← py_iter b;
  mret (zip xs ys).

(** [d.pop(key)], [d.pop(key, default)] and [d.get(key, default)]. *)
Definition dict_pop (key : string) (d : gmap string PyVal)
    : Result (PyVal * gmap string PyVal) :=
  match d !! key with
  | Some v => Return (v, delete key d)
  | None => Raise (KeyError key)
  end.

Definition dict_pop_default (key : string) (dflt : PyVal)
    (d : gmap string PyVal) : PyVal * gmap string PyVal :=
  match d !! key with
  | Some v => (v, delete key d)
  | None => (dflt, d)
  end.

Definition dict_get (key : string) (dflt : PyVal) (d : gmap string PyVal)
    : PyVal :=
  default dflt (d !! key).

(** [d.update(other)]: the bindings of [other] win. *)
Definition dict_update (d other : gmap string PyVal) : gmap string PyVal :=
  other ∪ d.

(** ** class Payload and its two subclasses *)

Record Payload := { __dict__ : gmap string PyVal }.

Definition validate_registration_ids (registration_ids : PyVal)
    : Result unit :=
  n ← py_len registration_ids;
  if 1000 <? Z.of_nat n
  then Raise (FCMTooManyRegIdsException
                "Exceded number of reigstration ids. Only 1000 per request allowed")
  else mret tt.

(** [getattr(self, 'validate_%s' % key, None)]: the class has one method
    whose name starts with [validate_]. *)
Definition validate_method (key : string) : option (PyVal -> Result unit) :=
  if String.eqb ("validate_" +:+ key) "validate_registration_ids"
  then Some validate_registration_ids
  else None.

Definition validate (options : gmap string PyVal) : Result unit :=
  foldr (fun '(key, value) rest =>
           match validate_method key with
           | Some m => m value;; rest
           | None => rest
           end)
        (mret tt) (map_to_list options).

Definition Payload_init (kwargs : gmap string PyVal) : Result Payload :=
  validate kwargs;;
  mret {| __dict__ := dict_update ∅ kwargs |}.

Definition JsonPayload := Payload_init.
Definition PlainTextPayload := Payload_init.

Section Serialization.

Variable dumps : PyVal -> string.

Definition JsonPayload_body (self : Payload) : Result Body :=
  mret (JsonText (dumps (VDict (__dict__ self)))).

(** [data.items()] exists only on a dictionary. *)
Definition py_items (v : PyVal) : Result (list (string * PyVal)) :=
  match v with
  | VDict d => Return (map_to_list d)
  | _ => Raise AttributeError
  end.

Definition PlainTextPayload_body (self : Payload) : Result Body :=
  let d := __dict__ self in
  let d :=
    if bool_decide (is_Some (d !! "registration_ids")) then d
    else
      let '(v, d') := dict_pop_default "registration_ids" VNone d in
      <["registration_ids" := v]> d' in
  '(data, d) ← dict_pop "data" d;
  items ← py_items data;
  mret (FormFields
          (foldl (fun acc '(key, value) => <["data." +:+ key := value]> acc)
                 d items)).

Definition createPayLoad (kwargs : gmap string PyVal) : Result Body :=
  let '(is_json, kwargs) :=
    dict_pop_default "is_json" (VBool true) kwargs in
  if truthy is_json
  then payloadObj ← JsonPayload kwargs; JsonPayload_body payloadObj
  else payloadObj ← PlainTextPayload kwargs; PlainTextPayload_body payloadObj.

End Serialization.

(** ** Reconciliation of the provider's response *)

(** A group of the reconciled result: [Items], what [grouping.items()]
    returns for the [defaultdict] built for ['error'], a sequence of pairs
    (reason, recipients) and no dictionary; or [Mapping], the [dict] built
    for ['registration_id'] and ['message_id'], of pairs (recipient,
    value). Both are kept in insertion order. *)
Inductive Group :=
| Items (g : list (PyVal * list PyVal))
| Mapping (d : list (PyVal * PyVal)).

Definition group_nonempty (g : Group) : bool :=
  match g with
  | Items [] | Mapping [] => false
  | _ => true
  end.

(** The generator [((reg_id, res[key]) for reg_id, res in mapping if key in
    res)]. It is consumed lazily by the code; every step that can fail,
    here or in the consumer, fails with a [TypeError] and nothing else is
    observable, so the pairs are produced first. *)
Fixpoint filtered (key : string) (mapping : list (PyVal * PyVal))
    : Result (list (PyVal * PyVal)) :=
  match mapping with
  | [] => mret []
  | (reg_id, res) :: mapping' =>
      b ← contains key res;
      if b : bool then
        v ← getitem res key;
        rest ← filtered key mapping';
        mret ((reg_id, v) :: rest)
      else filtered key mapping'
  end.

(** [d[k] = v] on an insertion-ordered dictionary: an equal key keeps its
    place (and the key object first inserted). *)
Fixpoint dict_set (k v : PyVal) (d : list (PyVal * PyVal))
    : list (PyVal * PyVal) :=
  match d with
  | [] => [(k, v)]
  | (k', v') :: d' =>
      if key_eqb k' k then (k', v) :: d' else (k', v') :: dict_set k v d'
  end.

(** [dict(pairs)]. *)
Fixpoint dict_of (pairs : list (PyVal * PyVal)) (acc : list (PyVal * PyVal))
    : Result (list (PyVal * PyVal)) :=
  match pairs with
  | [] => mret acc
  | (k, v) :: pairs' =>
      if hashable k then dict_of pairs' (dict_set k v acc)
      else Raise TypeError
  end.

(** [grouping[v].append(k)] on a [defaultdict(list)]. *)
Fixpoint grouping_append (v k : PyVal) (g : list (PyVal * list PyVal))
    : list (PyVal * list PyVal) :=
  match g with
  | [] => [(v, [k])]
  | (v', ks) :: g' =>
      if key_eqb v' v then (v', (ks ++ [k])%list) :: g'
      else (v', ks) :: grouping_append v k g'
  end.

(** [for k, v in filtered: grouping[v].append(k)]. *)
Fixpoint group_by_value (pairs : list (PyVal * PyVal))
    (grouping : list (PyVal * list PyVal))
    : Result (list (PyVal * list PyVal)) :=
  match pairs with
  | [] => mret grouping
  | (k, v) :: pairs' =>
      if hashable v then group_by_value pairs' (grouping_append v k grouping)
      else Raise TypeError
  end.

(** [grouping or None]. *)
Definition or_None (g : Group) : option Group :=
  if group_nonempty g then Some g else None.

Definition groupResponseResult `{KeyOrder}
    (response reg_ids : PyVal) (key : string)
    : Result (option Group) :=
  results ← getitem response "results";
  mapping ← py_zip reg_ids results;
  pairs ← filtered key mapping;
  if bool_decide (key ∈ ["registration_id"; "message_id"]) then
    grouping ← dict_of pairs [];
    mret (or_None (Mapping grouping))
  else
    grouping ← group_by_value pairs [];
    mret (or_None (Items grouping)).

(** [if grouping: result.update({name: grouping})]. *)
Definition update_if (name : string) (grouping : option Group)
    (result : gmap string Group) : gmap string Group :=
  match grouping with
  | Some g => if group_nonempty g then <[name := g]> result else result
  | None => result
  end.

Definition handleJSONResponse `{KeyOrder} (response : PyVal)
    (kwargs : gmap string PyVal) : Result (gmap string Group) :=
  let reg_ids := dict_get "registration_ids" VNone kwargs in
  let to := dict_get "to" VNone kwargs in
  let reg_ids :=
    if truthy to && negb (truthy reg_ids) then VList [to] else reg_ids in
  errors ← groupResponseResult response reg_ids "error";
  canonical ← groupResponseResult response reg_ids "registration_id";
  success ← groupResponseResult response reg_ids "message_id";
  let result : gmap string Group := ∅ in
  let result := update_if "errors" errors result in
  let result := update_if "canonical" canonical result in
  let result := update_if "success" success result in
  mret result.

(** ** The three send operations *)

Section Client.

Variable post : Request -> Response.
Variable dumps : PyVal -> string.
Variable loads : string -> option PyVal.

(** [self.createPayLoad(is_json=False, **kwargs)]: a keyword given twice
    is a [TypeError] of the call. *)
Definition sendPlainText (self : FirebaseMessaging)
    (kwargs : gmap string PyVal) : Py PyVal :=
  payload ← (if bool_decide (is_Some (kwargs !! "is_json"))
             then raise TypeError
             else lift (createPayLoad dumps
                          (<["is_json" := VBool false]> kwargs)));
  makeRequest post loads self payload false;;
  mret VNone.

(** [self.handleJSONResponse(response, **kwargs)]: an option named
    [response] gives that parameter twice, a [TypeError] of the call,
    raised once the request has been made. *)
Definition sendData `{KeyOrder} (self : FirebaseMessaging)
    (kwargs : gmap string PyVal) : Py (gmap string Group) :=
  log self "Sending data to devices";;
  payload ← lift (createPayLoad dumps kwargs);
  response ← makeRequest post loads self payload true;
  if bool_decide (is_Some (kwargs !! "response")) then raise TypeError
  else lift (handleJSONResponse response kwargs).

Definition sendNotification `{KeyOrder} (self : FirebaseMessaging)
    (kwargs : gmap string PyVal) : Py (gmap string Group) :=
  sendData self kwargs.

End Client.

(** ** The JSON codec

    [json.dumps] and [json.loads] are library code and parameters of the
    embedding. This module is their model on the values of the embedding,
    the one the examples and the round trip of the JSON payload instantiate
    the parameters with.

    The encoder writes what [json.dumps] writes with its defaults: the
    separators [", "] and [": "], [null], [true], [false], integers in
    decimal, and strings between quotes with [ensure_ascii] on (the quote
    and the backslash escaped, the short escapes of backspace, tab, newline,
    form feed and carriage return, and [\u00xx] for every other character
    outside the printable ASCII range). A [gmap] does not record the order
    in which its keys were inserted, the order in which [json.dumps] writes
    them: the encoder takes the order as a parameter [arrange], applied to
    the entries of each object.

    The decoder reads the JSON grammar on the values of the embedding:
    white space between the tokens, the three literals, integers, strings
    with their escapes, arrays and objects, a repeated key of an object
    keeping its last value as in [dict]. A number with a fraction or an
    exponent and an escape [\uxxxx] above 255 denote values outside the
    embedding and are not decoded. *)

Module Json.

Definition quote_char : ascii := "034"%char.
Definition backslash : ascii := "092"%char.

(** A hexadecimal digit, in lower case as ['{0:04x}'.format] writes it. *)
Definition hex_digit (n : N) : ascii :=
  match n with
  | 0 => "0" | 1 => "1" | 2 => "2" | 3 => "3" | 4 => "4" | 5 => "5"
  | 6 => "6" | 7 => "7" | 8 => "8" | 9 => "9" | 10 => "a" | 11 => "b"
  | 12 => "c" | 13 => "d" | 14 => "e" | _ => "f"
  end%N%char.

(** What the encoder writes for one character of a string. *)
Definition escape_char (c : ascii) : list ascii :=
  let n := N_of_ascii c in
  if Ascii.eqb c quote_char then [backslash; quote_char]
  else if Ascii.eqb c backslash then [backslash; backslash]
  else if (n =? 8)%N then [backslash; "b"%char]
  else if (n =? 9)%N then [backslash; "t"%char]
  else if (n =? 10)%N then [backslash; "n"%char]
  else if (n =? 12)%N then [backslash; "f"%char]
  else if (n =? 13)%N then [backslash; "r"%char]
  else if (n <? 32)%N || (126 <? n)%N then
    [backslash; "u"%char; "0"%char; "0"%char;
     hex_digit (n / 16); hex_digit (n mod 16)]
  else [c].

Fixpoint escape (s : string) : list ascii :=
  match s with
  | EmptyString => []
  | String c s' => escape_char c ++ escape s'
  end.

Definition quoted (s : string) : list ascii :=
  quote_char :: escape s ++ [quote_char].

Fixpoint join (sep : list ascii) (l : list (list ascii)) : list ascii :=
  match l with
  | [] => []
  | s :: l' =>
      match l' with
      | [] => s
      | _ => s ++ sep ++ join sep l'
      end
  end.

Definition comma : list ascii := list_ascii_of_string ", ".
Definition colon : list ascii := list_ascii_of_string ": ".

(** An entry [key: value] of an object, from the key and the text of the
    value. *)
Definition member (p : string * list ascii) : list ascii :=
  quoted p.1 ++ colon ++ p.2.

Fixpoint encode
    (arrange : list (string * list ascii) -> list (string * list ascii))
    (v : PyVal) : list ascii :=
  match v with
  | VNone => list_ascii_of_string "null"
  | VBool b => list_ascii_of_string (if b then "true" else "false")
  | VInt n => list_ascii_of_string (str_of_int n)
  | VStr s => quoted s
  | VList l => "["%char :: join comma (map (encode arrange) l) ++ ["]"%char]
  | VDict d =>
      "{"%char ::
      join comma (map member (arrange (map_to_list (encode arrange <$> d))))
      ++ ["}"%char]
  end.

(** [json.dumps], the keys of each object in the order given by
    [arrange]. *)
Definition dumps_in
    (arrange : list (string * list ascii) -> list (string * list ascii))
    (v : PyVal) : string :=
  string_of_list_ascii (encode arrange v).

(** [json.dumps], the keys of each object in the order of [map_to_list]. *)
Definition dumps (v : PyVal) : string := dumps_in (fun entries => entries) v.

Definition is_space (c : ascii) : bool :=
  Ascii.eqb c " " || Ascii.eqb c "010" || Ascii.eqb c "009" || Ascii.eqb c "013".

Fixpoint skip (cs : list ascii) : list ascii :=
  match cs with
  | c :: cs' => if is_space c then skip cs' else cs
  | [] => []
  end.

Definition digit (c : ascii) : option Z :=
  let n := Z.of_N (N_of_ascii c) in
  if (48 <=? n) && (n <=? 57) then Some (n - 48) else None.

Fixpoint digits (acc : Z) (cs : list ascii) : Z * list ascii :=
  match cs with
  | c :: cs' =>
      match digit c with
      | Some d => digits (10 * acc + d) cs'
      | None => (acc, cs)
      end
  | [] => (acc, [])
  end.

(** An integer without sign: a zero, or digits that start with another
    digit. *)
Definition number (cs : list ascii) : option (Z * list ascii) :=
  match cs with
  | c :: cs' =>
      match digit c with
      | Some 0 => Some (0, cs')
      | Some _ => Some (digits 0 cs)
      | None => None
      end
  | [] => None
  end.

Definition hex_value (c : ascii) : option N :=
  let n := N_of_ascii c in
  if (48 <=? n)%N && (n <=? 57)%N then Some (n - 48)%N
  else if (97 <=? n)%N && (n <=? 102)%N then Some (n - 87)%N
  else if (65 <=? n)%N && (n <=? 70)%N then Some (n - 55)%N
  else None.

(** The character of the escape [\uxxxx], when it is one of the strings
    of the embedding. *)
Definition hex4 (h1 h2 h3 h4 : ascii) : option ascii :=
  n1 ← hex_value h1; n2 ← hex_value h2;
  n3 ← hex_value h3; n4 ← hex_value h4;
  let n := (((n1 * 16 + n2) * 16 + n3) * 16 + n4)%N in
  if (n <? 256)%N then Some (ascii_of_N n) else None.

(** The character of a short escape. *)
Definition unescape (e : ascii) : option ascii :=
  if Ascii.eqb e quote_char then Some quote_char
  else if Ascii.eqb e backslash then Some backslash
  else if Ascii.eqb e "/" then Some "/"%char
  else if Ascii.eqb e "b" then Some "008"%char
  else if Ascii.eqb e "f" then Some "012"%char
  else if Ascii.eqb e "n" then Some "010"%char
  else if Ascii.eqb e "r" then Some "013"%char
  else if Ascii.eqb e "t" then Some "009"%char
  else None.

(** The characters of a string up to its closing quote; a control
    character is not allowed unescaped. *)
Fixpoint chars (cs : list ascii) : option (string * list ascii) :=
  match cs with
  | [] => None
  | c :: cs' =>
      if Ascii.eqb c quote_char then Some (EmptyString, cs')
      else if Ascii.eqb c backslash then
        match cs' with
        | e :: cs'' =>
            if Ascii.eqb e "u" then
              match cs'' with
              | h1 :: h2 :: h3 :: h4 :: cs3 =>
                  c' ← hex4 h1 h2 h3 h4;
                  '(s, rest) ← chars cs3; Some (String c' s, rest)
              | _ => None
              end
            else
              c' ← unescape e;
              '(s, rest) ← chars cs''; Some (String c' s, rest)
        | [] => None
        end
      else if (N_of_ascii c <? 32)%N then None
      else '(s, rest) ← chars cs'; Some (String c s, rest)
  end.

Definition literal (word : string) (v : PyVal) (cs : list ascii)
    : option (PyVal * list ascii) :=
  let w := list_ascii_of_string word in
  if bool_decide (take (length w) cs = w)
  then Some (v, drop (length w) cs) else None.

Fixpoint value (fuel : nat) (cs : list ascii) : option (PyVal * list ascii) :=
  match fuel with
  | O => None
  | S fuel =>
      match skip cs with
      | [] => None
      | c :: cs' =>
          if Ascii.eqb c "n" then literal "null" VNone (c :: cs')
          else if Ascii.eqb c "t" then literal "true" (VBool true) (c :: cs')
          else if Ascii.eqb c "f" then literal "false" (VBool false) (c :: cs')
          else if Ascii.eqb c quote_char then
            '(s, rest) ← chars cs'; Some (VStr s, rest)
          else if Ascii.eqb c "-" then
            '(n, rest) ← number cs'; Some (VInt (- n), rest)
          else if Ascii.eqb c "[" then
            match skip cs' with
            | c' :: rest =>
                if Ascii.eqb c' "]" then Some (VList [], rest)
                else '(l, rest) ← elements fuel cs'; Some (VList l, rest)
            | [] => None
            end
          else if Ascii.eqb c "{" then
            match skip cs' with
            | c' :: rest =>
                if Ascii.eqb c' "}" then Some (VDict ∅, rest)
                else '(d, rest) ← members fuel ∅ cs'; Some (VDict d, rest)
            | [] => None
            end
          else '(n, rest) ← number (c :: cs'); Some (VInt n, rest)
      end
  end
with elements (fuel : nat) (cs : list ascii)
    : option (list PyVal * list ascii) :=
  match fuel with
  | O => None
  | S fuel =>
      '(v, rest) ← value fuel cs;
      match skip rest with
      | ","%char :: rest' =>
          '(l, rest'') ← elements fuel rest'; Some (v :: l, rest'')
      | "]"%char :: rest' => Some ([v], rest')
      | _ => None
      end
  end
with members (fuel : nat) (acc : gmap string PyVal) (cs : list ascii)
    : option (gmap string PyVal * list ascii) :=
  match fuel with
  | O => None
  | S fuel =>
      match skip cs with
      | c :: cs' =>
          if Ascii.eqb c quote_char then
            '(k, rest) ← chars cs';
            match skip rest with
            | ":"%char :: rest' =>
                '(v, rest'') ← value fuel rest';
                match skip rest'' with
                | ","%char :: rest3 => members fuel (<[k := v]> acc) rest3
                | "}"%char :: rest3 => Some (<[k := v]> acc, rest3)
                | _ => None
                end
            | _ => None
            end
          else None
      | [] => None
      end
  end.

(** [json.loads]: one value, and nothing but white space after it. *)
Definition loads (s : string) : option PyVal :=
  let cs := list_ascii_of_string s in
  match value (S (length cs)) cs with
  | Some (v, rest) => match skip rest with [] => Some v | _ => None end
  | None => None
  end.

End Json.

(** ** Vocabulary of the statements *)

(** A world in which nothing was sent or logged yet. *)
Definition fresh_world : World := {| posted := []; logged := [] |}.

(** The exception of [validate_registration_ids]. *)
Definition too_many_ids : Exception :=
  FCMTooManyRegIdsException
    "Exceded number of reigstration ids. Only 1000 per request allowed".

(** The loop of [PlainTextPayload.body] that writes the entries of [data]
    back under dotted keys. *)
Definition flatten (d : gmap string PyVal) (items : list (string * PyVal))
    : gmap string PyVal :=
  foldl (fun acc '(key, value) => <["data." +:+ key := value]> acc) d items.

(** A provider that answers every request with the same response. *)
Definition provider (status : Z) (body : string) : Request -> Response :=
  fun _ => {| status_code := status; content := body |}.

(** A client with logging enabled, for the examples. *)
Definition client : FirebaseMessaging :=
  FirebaseMessaging_init "AIzaSyD" None true.

(** [k in ks], for a list of keys. *)
Definition key_in (k : PyVal) (ks : list PyVal) : bool :=
  existsb (fun k' => key_eqb k' k) ks.

(** No two keys of the list are equal. *)
Fixpoint distinct_keys (ks : list PyVal) : Prop :=
  match ks with
  | [] => True
  | k :: ks' => key_in k ks' = false /\ distinct_keys ks'
  end.

(** The values of a sequence in the order in which each is seen first. *)
Fixpoint first_seen (l : list PyVal) : list PyVal :=
  match l with
  | [] => []
  | x :: l' => x :: List.filter (fun y => negb (key_eqb x y)) (first_seen l')
  end.

(** The recipients paired with [reason], in the order of the pairs. *)
Definition recipients_with (reason : PyVal) (pairs : list (PyVal * PyVal))
    : list PyVal :=
  map fst (List.filter (fun p => key_eqb reason p.2) pairs).

(** Grouping by reason, stated without a loop: one group per reason, in
    first-seen order, holding that reason's recipients in their order. *)
Definition grouped (pairs : list (PyVal * PyVal))
    : list (PyVal * list PyVal) :=
  map (fun r => (r, recipients_with r pairs)) (first_seen (map snd pairs)).

(** [d[k]] on an insertion-ordered dictionary, [None] for a missing key. *)
Fixpoint dict_lookup (k : PyVal) (d : list (PyVal * PyVal)) : option PyVal :=
  match d with
  | [] => None
  | (k', v) :: d' => if key_eqb k' k then Some v else dict_lookup k d'
  end.

(** The value under [key] of a result entry that is a dictionary. *)
Definition entry_get (key : string) (res : PyVal) : option PyVal :=
  match res with
  | VDict d => d !! key
  | _ => None
  end.

Definition is_dict (v : PyVal) : bool :=
  match v with
  | VDict _ => true
  | _ => false
  end.

(** The pairs (recipient, value under [key]) of the entries that have the
    key, when every entry is a dictionary. *)
Definition pairs_with (key : string) (mapping : list (PyVal * PyVal))
    : list (PyVal * PyVal) :=
  omap (fun p => pair p.1 <$> entry_get key p.2) mapping.

(** A provider response whose [results] are the given entries. *)
Definition response_of (other : gmap string PyVal) (entries : list PyVal)
    : PyVal :=
  VDict (<["results" := VList entries]> other).

(** A result entry as the provider sends it: a dictionary whose failure
    reason, if it has one, can be a dictionary key. *)
Definition entry_ok (res : PyVal) : bool :=
  match res with
  | VDict d => match d !! "error" with
               | Some reason => hashable reason
               | None => true
               end
  | _ => false
  end.

(** The writes of [dict(pairs)], one after the other. *)
Definition dict_writes (pairs acc : list (PyVal * PyVal))
    : list (PyVal * PyVal) :=
  foldl (fun d p => dict_set p.1 p.2 d) acc pairs.

(** Whether a result entry has the key [key]. *)
Definition carries (key : string) (res : PyVal) : bool :=
  bool_decide (is_Some (entry_get key res)).

(** A result entry that reports a delivery and nothing else. *)
Definition success_only (res : PyVal) : bool :=
  is_dict res && carries "message_id" res &&
  negb (carries "error" res) && negb (carries "registration_id" res).

(** The recipient sequence that [handleJSONResponse] reconciles against. *)
Definition recipients (kwargs : gmap string PyVal) : PyVal :=
  let reg_ids := dict_get "registration_ids" VNone kwargs in
  let to := dict_get "to" VNone kwargs in
  if truthy to && negb (truthy reg_ids) then VList [to] else reg_ids.

(** The reconciled result assembled from the three groupings. *)
Definition assemble (errors canonical success : option Group)
    : gmap string Group :=
  update_if "success" success
    (update_if "canonical" canonical (update_if "errors" errors ∅)).

(** What [if grouping:] lets through. *)
Definition kept (grouping : option Group) : option Group :=
  match grouping with
  | Some g => if group_nonempty g then Some g else None
  | None => None
  end.

(** Every request made through this transport fails with [e], and so does
    every send whose payload could be built. *)
Definition sends_fail_with `{KeyOrder} (post : Request -> Response)
    (dumps : PyVal -> string) (loads : string -> option PyVal)
    (self : FirebaseMessaging) (e : Exception) : Prop :=
  (forall payload is_json w,
     (makeRequest post loads self payload is_json w).1 = Raise e) /\
  (forall kwargs payload w,
     createPayLoad dumps kwargs = Return payload ->
     (sendData post dumps loads self kwargs w).1 = Raise e /\
     (sendNotification post dumps loads self kwargs w).1 = Raise e) /\
  (forall kwargs payload w,
     kwargs !! "is_json" = None ->
     createPayLoad dumps (<["is_json" := VBool false]> kwargs) =
       Return payload ->
     (sendPlainText post dumps loads self kwargs w).1 = Raise e).

(** The request that [makeRequest] hands to [requests.post]. *)
Definition request_of (self : FirebaseMessaging) (payload : Body)
    (is_json : bool) : Request :=
  {| req_url := url self;
     req_data := payload;
     req_headers :=
       {[ "Authorization" := "key=" +:+ api_key self;
          "Content-type" :=
            if is_json then "application/json"
            else "application/x-www-form-urlencoded;charset=UTF-8" ]};
     req_timeout := timeout self |}.

(** The same client with logging switched off. *)
Definition quiet (self : FirebaseMessaging) : FirebaseMessaging :=
  {| url := url self; api_key := api_key self; timeout := timeout self;
     logger := false |}.

(** Values that have a length. *)
Definition is_sized (v : PyVal) : bool :=
  match v with
  | VStr _ | VList _ | VDict _ => true
  | _ => false
  end.

(** Values on which neither [key in v] nor iteration is defined. *)
Definition is_scalar (v : PyVal) : bool :=
  match v with
  | VNone | VBool _ | VInt _ => true
  | _ => false
  end.

(** The one-character strings of a string, as iteration yields them. *)
Definition chars_of (s : string) : list PyVal :=
  map (fun c => VStr (String c EmptyString)) (list_ascii_of_string s).

(** The value a recipient is bound to in the [success] or [canonical]
    dictionary of a reconciled result, if the key and the binding exist. *)
Definition group_lookup (name : string) (result : gmap string Group)
    (r : PyVal) : option PyVal :=
  match result !! name with
  | Some (Mapping d) => dict_lookup r d
  | _ => None
  end.

(** The recipient is listed, in the [errors] of a reconciled result, in the
    group of a reason equal to [reason]. *)
Definition in_error_group (result : gmap string Group) (r reason : PyVal)
    : Prop :=
  exists groups reason' rs,
    result !! "errors" = Some (Items groups) /\
    In (reason', rs) groups /\
    key_eqb reason' reason = true /\
    In r rs.

(** The number that decimal digits denote when read after [acc]. *)
Fixpoint uint_value (acc : Z) (d : Decimal.uint) : Z :=
  match d with
  | Decimal.Nil => acc
  | Decimal.D0 d => uint_value (10 * acc + 0) d
  | Decimal.D1 d => uint_value (10 * acc + 1) d
  | Decimal.D2 d => uint_value (10 * acc + 2) d
  | Decimal.D3 d => uint_value (10 * acc + 3) d
  | Decimal.D4 d => uint_value (10 * acc + 4) d
  | Decimal.D5 d => uint_value (10 * acc + 5) d
  | Decimal.D6 d => uint_value (10 * acc + 6) d
  | Decimal.D7 d => uint_value (10 * acc + 7) d
  | Decimal.D8 d => uint_value (10 * acc + 8) d
  | Decimal.D9 d => uint_value (10 * acc + 9) d
  end.

(** A text that a number can be followed by: one that does not go on with
    a digit. *)
Definition closes (rest : list ascii) : Prop :=
  match rest with
  | [] => True
  | c :: _ => Json.digit c = None
  end.

(** The entry of an object that the encoder writes for a key and its
    value. *)
Definition entry_text
    (arrange : list (string * list ascii) -> list (string * list ascii))
    (p : string * PyVal) : string * list ascii :=
  (p.1, Json.encode arrange p.2).

(** The writes of the decoder for the entries of an object. *)
Definition bind_all (acc : gmap string PyVal) (kvs : list (string * PyVal))
    : gmap string PyVal :=
  foldl (fun m p => <[p.1 := p.2]> m) acc kvs.

(** The value [v] is decoded from its text by every call of the decoder
    that has fuel for it, whatever follows the text. *)
Definition decodes
    (arrange : list (string * list ascii) -> list (string * list ascii))
    (v : PyVal) : Prop :=
  forall (fuel : nat) rest,
    (length (Json.encode arrange v) < fuel)%nat -> closes rest ->
    Json.value fuel (Json.encode arrange v ++ rest) = Some (v, rest).

(** Proof steps of the codec lemmas: the value of a digit character, and
    the length of a text written by the encoder. *)
Ltac eval_digit :=
  repeat match goal with
  | |- context [Json.digit (Ascii ?a ?b ?c ?d ?e ?f ?g ?h)] =>
      let v := eval vm_compute in (Json.digit (Ascii a b c d e f g h)) in
      change (Json.digit (Ascii a b c d e f g h)) with v
  end.

Ltac text_length H :=
  cbn [length] in H; rewrite ?length_app in H; cbn [length] in H;
  change (length Json.comma) with 2%nat in H;
  change (length Json.colon) with 2%nat in H.


(** * Properties *)

(** ** Payload validation *)

Lemma validate_method_spec key :
  validate_method key =
    if String.eqb key "registration_ids" then Some validate_registration_ids
    else None.
Proof. reflexivity. Qed.

Lemma Result_bind_unit (m : Result unit) : (m;; mret tt) = m.
Proof. by destruct m as [[]|]. Qed.

Lemma validate_items (l : list (string * PyVal)) :
  NoDup l.*1 ->
  foldr (fun '(key, value) rest =>
           match validate_method key with
           | Some m => m value;; rest
           | None => rest
           end) (mret tt) l =
  match (list_to_map l : gmap string PyVal) !! "registration_ids" with
  | Some v => validate_registration_ids v
  | None => Return tt
  end.
Proof.
  induction l as [|[k v] l IH]; intros Hnd; [done|].
  inversion_clear Hnd as [|? ? Hk Hl]. cbn [foldr list_to_map].
  rewrite validate_method_spec.
  destruct (String.eqb_spec k "registration_ids") as [->|Hne].
  - rewrite lookup_insert_eq, (IH Hl).
    rewrite (not_elem_of_list_to_map_1 l "registration_ids") by done.
    apply Result_bind_unit.
  - rewrite lookup_insert_ne by done. by apply IH.
Qed.

(** The loop of [validate] runs the one validator there is. *)
Lemma validate_spec (options : gmap string PyVal) :
  validate options =
  match options !! "registration_ids" with
  | Some v => validate_registration_ids v
  | None => Return tt
  end.
Proof.
  unfold validate. rewrite validate_items by apply NoDup_fst_map_to_list.
  by rewrite list_to_map_to_list.
Qed.

Lemma validate_registration_ids_list (ids : list PyVal) :
  validate_registration_ids (VList ids) =
  if 1000 <? Z.of_nat (length ids) then Raise too_many_ids else Return tt.
Proof. reflexivity. Qed.

Lemma dict_update_empty (kwargs : gmap string PyVal) :
  dict_update ∅ kwargs = kwargs.
Proof. unfold dict_update. apply (right_id_L ∅ (∪)). Qed.

Lemma Payload_init_spec (kwargs : gmap string PyVal) :
  Payload_init kwargs =
  match validate kwargs with
  | Return _ => Return {| __dict__ := kwargs |}
  | Raise e => Raise e
  end.
Proof.
  unfold Payload_init. rewrite dict_update_empty.
  by destruct (validate kwargs).
Qed.

(** ** The transport *)

Section TransportFacts.

Variable loads : string -> option PyVal.

(** What [makeRequest] returns or raises, as a function of the response;
    the world only gains the request and the log line. *)
Lemma makeRequest_result self payload is_json response w :
  (makeRequest (fun _ => response) loads self payload is_json w).1 =
  if status_code response =? 200 then
    if is_json then
      match loads (content response) with
      | Some j => Return j
      | None => Raise ValueError
      end
    else Return (VStr (content response))
  else if status_code response =? 400 then
    Raise (FCMMalformedJsonException
      "Error 400: The request could not be parsed as JSON, or it contained invalid fields.")
  else if status_code response =? 401 then
    Raise (FCMAuthenticationException
      "Error 401: There was an error authenticating the sender account.")
  else if status_code response =? 503 then
    Raise (FCMInternalException
      "The Firebsase Messaging server is temporarily unavailable")
  else
    Raise (FCMInternalException
      "There was an internal error in the FCM connection server while trying to process the request").
Proof.
  unfold makeRequest, mbind, Py_bind, requests_post, log, raise,
    response_json.
  cbn -[String.append str_of_int].
  repeat (destruct (_ =? _)); destruct (logger self); try done;
    destruct is_json; try done; by destruct (loads _).
Qed.

Lemma other_status_eqb (status : Z) :
  status ∉ [200; 400; 401; 503] ->
  (status =? 200) = false /\ (status =? 400) = false /\
  (status =? 401) = false /\ (status =? 503) = false.
Proof.
  intros Hout. repeat split; apply Z.eqb_neq; intros Heq; apply Hout;
    rewrite Heq; repeat constructor.
Qed.

(** For a status the code does not single out, the status code goes to
    the log line and nowhere else. *)
Lemma makeRequest_other_status self payload is_json response w :
  status_code response ∉ [200; 400; 401; 503] ->
  logged (makeRequest (fun _ => response) loads self payload is_json w).2 =
    (logged w ++
     if logger self
     then ["Error " +:+ str_of_int (status_code response) +:+
           ": There was an internal error in the FCM connection server while trying to process the request"]
     else [])%list.
Proof.
  intros Hout.
  unfold makeRequest, mbind, Py_bind, requests_post, log, raise.
  cbn -[String.append str_of_int].
  destruct (other_status_eqb _ Hout) as (H200 & H400 & H401 & H503).
  rewrite H200, H400, H401, H503.
  destruct (logger self); cbn -[String.append str_of_int]; [done|].
  by rewrite app_nil_r.
Qed.

Variable dumps : PyVal -> string.

Lemma sendData_result `{KeyOrder} post self kwargs payload w :
  createPayLoad dumps kwargs = Return payload ->
  (sendData post dumps loads self kwargs w).1 =
  match (makeRequest post loads self payload true
           (log self "Sending data to devices" w).2).1 with
  | Return j =>
      if bool_decide (is_Some (kwargs !! "response")) then Raise TypeError
      else handleJSONResponse j kwargs
  | Raise e => Raise e
  end.
Proof.
  intros Hp. unfold sendData, mbind, Py_bind, lift, raise. rewrite Hp.
  destruct (log self _ w) as [[[]|e] w1] eqn:Hlog;
    [|by unfold log in Hlog; destruct (logger self)].
  cbn [snd]. destruct (makeRequest _ _ _ _ _ _) as [[j|e] w2]; [|done].
  by case_bool_decide.
Qed.

Lemma sendPlainText_result post self kwargs payload w :
  kwargs !! "is_json" = None ->
  createPayLoad dumps (<["is_json" := VBool false]> kwargs) =
    Return payload ->
  (sendPlainText post dumps loads self kwargs w).1 =
  match (makeRequest post loads self payload false w).1 with
  | Return _ => Return VNone
  | Raise e => Raise e
  end.
Proof.
  intros Hj Hp. unfold sendPlainText, mbind, Py_bind, lift.
  rewrite bool_decide_false by (rewrite Hj; by intros [? [=]]).
  rewrite Hp. by destruct (makeRequest _ _ _ _ _ _) as [[r|e] w2].
Qed.

(** A failure of the transport is the failure of the send. *)
Lemma sends_fail_with_intro `{KeyOrder} self response e :
  (forall payload is_json w,
     (makeRequest (fun _ => response) loads self payload is_json w).1 =
       Raise e) ->
  sends_fail_with (fun _ => response) dumps loads self e.
Proof.
  intros Hreq. split; [exact Hreq|split].
  - intros kwargs payload w Hp. unfold sendNotification.
    by rewrite (sendData_result _ _ _ payload), Hreq.
  - intros kwargs payload w Hj Hp.
    by rewrite (sendPlainText_result _ _ _ payload), Hreq.
Qed.

(** C1, as amended: whatever the body of the response, status 401 makes
    the request, and with it the send operation, fail with
    [FCMAuthenticationException]; status 503 makes it fail with
    [FCMInternalException] and the message about the server being
    unavailable; every status outside 200, 400, 401 and 503 makes it fail
    with [FCMInternalException] and one fixed message, the status code
    going to the debug log line only (when logging is enabled), not into
    the exception. *)
Theorem makeRequest_status_mapping `{KeyOrder} (self : FirebaseMessaging)
    (response : Response) :
  (status_code response = 401 ->
     sends_fail_with (fun _ => response) dumps loads self
       (FCMAuthenticationException
          "Error 401: There was an error authenticating the sender account.")) /\
  (status_code response = 503 ->
     sends_fail_with (fun _ => response) dumps loads self
       (FCMInternalException
          "The Firebsase Messaging server is temporarily unavailable")) /\
  (status_code response ∉ [200; 400; 401; 503] ->
     sends_fail_with (fun _ => response) dumps loads self
       (FCMInternalException
          "There was an internal error in the FCM connection server while trying to process the request") /\
     forall payload is_json w,
       logged (makeRequest (fun _ => response) loads self payload
                 is_json w).2 =
         (logged w ++
          if logger self
          then ["Error " +:+ str_of_int (status_code response) +:+
                ": There was an internal error in the FCM connection server while trying to process the request"]
          else [])%list).
Proof.
  split; [|split].
  - intros Hs. apply sends_fail_with_intro. intros payload is_json w.
    by rewrite makeRequest_result, Hs.
  - intros Hs. apply sends_fail_with_intro. intros payload is_json w.
    by rewrite makeRequest_result, Hs.
  - intros Hout. split.
    + apply sends_fail_with_intro. intros payload is_json w.
      destruct (other_status_eqb _ Hout) as (H200 & H400 & H401 & H503).
      by rewrite makeRequest_result, H200, H400, H401, H503.
    + intros payload is_json w. by apply makeRequest_other_status.
Qed.

End TransportFacts.

Lemma makeRequest_status_mapping_witness :
  let run code :=
    sendData (provider code "Unauthorized") Json.dumps Json.loads client
      {[ "to" := VStr "R1"; "data" := VDict {[ "k" := VStr "v" ]} ]}
      fresh_world in
  (run 401).1 =
    Raise (FCMAuthenticationException
      "Error 401: There was an error authenticating the sender account.") /\
  (run 503).1 =
    Raise (FCMInternalException
      "The Firebsase Messaging server is temporarily unavailable") /\
  (run 500).1 =
    Raise (FCMInternalException
      "There was an internal error in the FCM connection server while trying to process the request") /\
  logged (makeRequest (provider 500 "Unauthorized") Json.loads client
            (JsonText "{}") true fresh_world).2 =
    ["Error 500: There was an internal error in the FCM connection server while trying to process the request"].
Proof.
  intros run.
  assert (Hp : createPayLoad Json.dumps
                 {[ "to" := VStr "R1"; "data" := VDict {[ "k" := VStr "v" ]} ]} =
               Return (JsonText (Json.dumps (VDict
                 {[ "to" := VStr "R1";
                    "data" := VDict {[ "k" := VStr "v" ]} ]}))))
    by reflexivity.
  split; [|split; [|split]].
  - destruct (makeRequest_status_mapping Json.loads Json.dumps client
                {| status_code := 401; content := "Unauthorized" |})
      as ((_ & Hsend & _)%(fun H => H eq_refl) & _).
    exact (proj1 (Hsend _ _ fresh_world Hp)).
  - destruct (makeRequest_status_mapping Json.loads Json.dumps client
                {| status_code := 503; content := "Unauthorized" |})
      as (_ & (_ & Hsend & _)%(fun H => H eq_refl) & _).
    exact (proj1 (Hsend _ _ fresh_world Hp)).
  - destruct (makeRequest_status_mapping Json.loads Json.dumps client
                {| status_code := 500; content := "Unauthorized" |})
      as (_ & _ & Hother).
    destruct Hother as ((_ & Hsend & _) & _).
    { cbn. intros Hin.
      repeat (apply elem_of_cons in Hin as [Hin|Hin]; [discriminate Hin|]).
      by apply elem_of_nil in Hin. }
    exact (proj1 (Hsend _ _ fresh_world Hp)).
  - destruct (makeRequest_status_mapping Json.loads Json.dumps client
                {| status_code := 500; content := "Unauthorized" |})
      as (_ & _ & Hother).
    destruct Hother as (_ & Hlog).
    { cbn. intros Hin.
      repeat (apply elem_of_cons in Hin as [Hin|Hin]; [discriminate Hin|]).
      by apply elem_of_nil in Hin. }
    exact (Hlog (JsonText "{}") true fresh_world).
Defined.

(** C1, as stated, fails: the exception raised for status 503 has the very
    class of the one raised for status 500 (there is no separate class for
    an unavailable provider), and the exceptions raised for 500 and for 502
    are one and the same value, so no status code can be read off them. *)
Lemma makeRequest_503_same_class_and_code_lost :
  let run code :=
    (makeRequest (provider code "") Json.loads client (JsonText "{}") true
       fresh_world).1 in
  exists e503 e500 e502,
    run 503 = Raise e503 /\ run 500 = Raise e500 /\ run 502 = Raise e502 /\
    class_of e503 = class_of e500 /\ e500 = e502.
Proof. intros run. do 3 eexists. repeat split; reflexivity. Qed.

(** ** The payload builder *)

Section PayloadFacts.

Variable dumps : PyVal -> string.

Lemma createPayLoad_json (kwargs : gmap string PyVal) :
  truthy (dict_get "is_json" (VBool true) kwargs) = true ->
  createPayLoad dumps kwargs =
  match validate (delete "is_json" kwargs) with
  | Return _ => Return (JsonText (dumps (VDict (delete "is_json" kwargs))))
  | Raise e => Raise e
  end.
Proof.
  unfold createPayLoad, dict_pop_default, dict_get, JsonPayload.
  destruct (kwargs !! "is_json") as [v|] eqn:Hv; cbn; intros Ht.
  - rewrite Ht, Payload_init_spec. by destruct (validate _).
  - rewrite Payload_init_spec. rewrite (delete_id kwargs "is_json") by done.
    by destruct (validate _).
Qed.

Lemma createPayLoad_plain (kwargs : gmap string PyVal) :
  truthy (dict_get "is_json" (VBool true) kwargs) = false ->
  createPayLoad dumps kwargs =
  match validate (delete "is_json" kwargs) with
  | Return _ =>
      PlainTextPayload_body {| __dict__ := delete "is_json" kwargs |}
  | Raise e => Raise e
  end.
Proof.
  unfold createPayLoad, dict_pop_default, dict_get, PlainTextPayload.
  destruct (kwargs !! "is_json") as [v|] eqn:Hv; cbn; intros Ht; [|done].
  rewrite Ht, Payload_init_spec. by destruct (validate _).
Qed.

Lemma flatten_cons d k v (items : list (string * PyVal)) :
  flatten d ((k, v) :: items) = flatten (<["data." +:+ k := v]> d) items.
Proof. reflexivity. Qed.

Lemma dotted_inj (k k' : string) : "data." +:+ k = "data." +:+ k' -> k = k'.
Proof. intros [= Heq]. exact Heq. Qed.

Lemma flatten_other (items : list (string * PyVal)) d key :
  (forall k, k ∈ items.*1 -> key ≠ "data." +:+ k) ->
  flatten d items !! key = d !! key.
Proof.
  revert d. induction items as [|[k v] items IH]; intros d Hkey; [done|].
  rewrite flatten_cons, IH.
  - apply lookup_insert_ne. intros Heq. apply (Hkey k); [|done].
    rewrite fmap_cons. apply list_elem_of_here.
  - intros k' Hk'. apply Hkey. rewrite fmap_cons.
    by apply list_elem_of_further.
Qed.

Lemma flatten_entry (items : list (string * PyVal)) d k v :
  NoDup items.*1 -> (k, v) ∈ items ->
  flatten d items !! ("data." +:+ k) = Some v.
Proof.
  revert d. induction items as [|[k' v'] items IH]; intros d Hnd Hin.
  { by apply elem_of_nil in Hin. }
  rewrite fmap_cons in Hnd. apply NoDup_cons in Hnd as [Hk' Hnd].
  rewrite flatten_cons.
  apply elem_of_cons in Hin as [[= -> ->]|Hin]; [|by apply IH].
  rewrite flatten_other; [apply lookup_insert_eq|].
  intros k2 Hk2 Heq%dotted_inj. by subst k2.
Qed.

Lemma PlainTextPayload_body_spec (self : Payload) :
  PlainTextPayload_body self =
  let d := __dict__ self in
  let d := match d !! "registration_ids" with
           | Some _ => d
           | None => <["registration_ids" := VNone]> d
           end in
  match d !! "data" with
  | None => Raise (KeyError "data")
  | Some (VDict data) =>
      Return (FormFields (flatten (delete "data" d) (map_to_list data)))
  | Some _ => Raise AttributeError
  end.
Proof.
  unfold PlainTextPayload_body, dict_pop_default, dict_pop.
  case_bool_decide as Hreg.
  - destruct Hreg as [r Hr]. rewrite Hr. cbn.
    destruct (__dict__ self !! "data") as [[]|]; done.
  - apply eq_None_not_Some in Hreg. rewrite Hreg. cbn.
    destruct (_ !! "data") as [[]|]; done.
Qed.

Lemma PlainTextPayload_body_data (fields data : gmap string PyVal) :
  fields !! "data" = Some (VDict data) ->
  PlainTextPayload_body {| __dict__ := fields |} =
  Return (FormFields
            (flatten (delete "data"
                        (match fields !! "registration_ids" with
                         | Some _ => fields
                         | None => <["registration_ids" := VNone]> fields
                         end))
                     (map_to_list data))).
Proof.
  intros Hdata. rewrite PlainTextPayload_body_spec. cbn.
  destruct (fields !! "registration_ids").
  - by rewrite Hdata.
  - by rewrite lookup_insert_ne, Hdata.
Qed.

Lemma PlainTextPayload_body_no_data (fields : gmap string PyVal) :
  fields !! "data" = None ->
  PlainTextPayload_body {| __dict__ := fields |} = Raise (KeyError "data").
Proof.
  intros Hdata. rewrite PlainTextPayload_body_spec. cbn.
  destruct (fields !! "registration_ids").
  - by rewrite Hdata.
  - by rewrite lookup_insert_ne, Hdata.
Qed.

End PayloadFacts.

Section BuilderClaims.

Variable dumps : PyVal -> string.

(** C7, as amended: for every field set that binds [data] to a mapping,
    the body of the plain-text payload is a mapping in which each entry
    (k, v) of [data] is found under the key [data.k], the key [data] is
    gone, every other field is kept as it was, and the key
    [registration_ids] is present: with the value it had, or bound to
    [None] when the field set did not have it. *)
Theorem PlainTextPayload_body_flattens (fields data : gmap string PyVal) :
  fields !! "data" = Some (VDict data) ->
  exists body,
    PlainTextPayload_body {| __dict__ := fields |} =
      Return (FormFields body) /\
    (forall obj, PlainTextPayload fields = Return obj ->
       PlainTextPayload_body obj = Return (FormFields body)) /\
    (forall k v, data !! k = Some v -> body !! ("data." +:+ k) = Some v) /\
    body !! "data" = None /\
    (fields !! "registration_ids" = None ->
       body !! "registration_ids" = Some VNone) /\
    (forall ids, fields !! "registration_ids" = Some ids ->
       body !! "registration_ids" = Some ids) /\
    (forall key, key ≠ "data" -> key ≠ "registration_ids" ->
       (forall k, is_Some (data !! k) -> key ≠ "data." +:+ k) ->
       body !! key = fields !! key).
Proof.
  intros Hdata.
  set (d := match fields !! "registration_ids" with
            | Some _ => fields
            | None => <["registration_ids" := VNone]> fields
            end).
  assert (Hother : forall key,
    (forall k, is_Some (data !! k) -> key ≠ "data." +:+ k) ->
    flatten (delete "data" d) (map_to_list data) !! key =
      delete "data" d !! key).
  { intros key Hkey. apply flatten_other. intros k Hk. apply Hkey.
    apply list_elem_of_fmap in Hk as [[k' v'] [-> Hin]].
    apply elem_of_map_to_list in Hin. by eexists. }
  assert (Hbody : PlainTextPayload_body {| __dict__ := fields |} =
    Return (FormFields (flatten (delete "data" d) (map_to_list data))))
    by (by apply PlainTextPayload_body_data).
  eexists. split; [exact Hbody|]. repeat split.
  - intros obj. unfold PlainTextPayload. rewrite Payload_init_spec.
    destruct (validate fields); [|done]. by intros [= <-].
  - intros k v Hkv. apply flatten_entry.
    + apply NoDup_fst_map_to_list.
    + by apply elem_of_map_to_list.
  - rewrite Hother; [apply lookup_delete_eq|]. by intros k _ [=].
  - intros Hreg. rewrite Hother by (by intros k _ [=]).
    rewrite lookup_delete_ne by done. subst d. rewrite Hreg.
    apply lookup_insert_eq.
  - intros ids Hreg. rewrite Hother by (by intros k _ [=]).
    rewrite lookup_delete_ne by done. subst d. by rewrite Hreg.
  - intros key Hk1 Hk2 Hk3. rewrite Hother by done.
    rewrite lookup_delete_ne by done. subst d.
    destruct (fields !! "registration_ids"); [done|].
    by rewrite lookup_insert_ne.
Qed.

End BuilderClaims.

Lemma PlainTextPayload_body_flattens_witness :
  exists body,
    PlainTextPayload_body
      {| __dict__ := {[ "to" := VStr "R1";
                        "data" := VDict {[ "k" := VStr "v" ]} ]} |} =
      Return (FormFields body) /\
    body !! "data.k" = Some (VStr "v") /\
    body !! "data" = None /\
    body !! "registration_ids" = Some VNone /\
    body !! "to" = Some (VStr "R1").
Proof.
  assert (Hdata : ({[ "to" := VStr "R1";
                      "data" := VDict {[ "k" := VStr "v" ]} ]}
                   : gmap string PyVal) !! "data" =
                  Some (VDict {[ "k" := VStr "v" ]})) by reflexivity.
  destruct (PlainTextPayload_body_flattens _ _ Hdata)
    as (body & Hbody & _ & Hentry & Hgone & Hreg & _ & Hother).
  exists body. split; [exact Hbody|]. split; [|split; [|split]].
  - apply Hentry. reflexivity.
  - exact Hgone.
  - apply Hreg. reflexivity.
  - rewrite (Hother "to"); [reflexivity|discriminate|discriminate|].
    intros k _. discriminate.
Defined.

(** C7, as stated, fails: a field set without [registration_ids] comes out
    of the plain-text builder with the key [registration_ids] present (bound
    to [None]), not removed. *)
Lemma PlainTextPayload_body_adds_registration_ids :
  createPayLoad Json.dumps
    {[ "is_json" := VBool false; "data" := VDict {[ "k" := VStr "v" ]} ]} =
  Return (FormFields {[ "registration_ids" := VNone; "data.k" := VStr "v" ]}).
Proof. vm_compute. reflexivity. Qed.

(** ** The send operations *)

Section SendFacts.

Variable post : Request -> Response.
Variable dumps : PyVal -> string.
Variable loads : string -> option PyVal.

(** A payload that cannot be built ends [sendData] after its first log
    line, with nothing posted. *)
Lemma sendData_payload_error `{KeyOrder} self kwargs e w :
  createPayLoad dumps kwargs = Raise e ->
  sendData post dumps loads self kwargs w =
    (Raise e, (log self "Sending data to devices" w).2) /\
  posted (log self "Sending data to devices" w).2 = posted w.
Proof.
  intros He. unfold sendData, mbind, Py_bind, lift, log. rewrite He.
  by destruct (logger self).
Qed.

(** Nor does [sendPlainText] touch the world in that case. *)
Lemma sendPlainText_payload_error self kwargs e w :
  kwargs !! "is_json" = None ->
  createPayLoad dumps (<["is_json" := VBool false]> kwargs) = Raise e ->
  sendPlainText post dumps loads self kwargs w = (Raise e, w).
Proof.
  intros Hj He. unfold sendPlainText, mbind, Py_bind, lift.
  rewrite bool_decide_false by (rewrite Hj; by intros [? [=]]).
  by rewrite He.
Qed.

Lemma sendPlainText_keyword_clash self kwargs w :
  is_Some (kwargs !! "is_json") ->
  sendPlainText post dumps loads self kwargs w = (Raise TypeError, w).
Proof.
  intros Hj. unfold sendPlainText, mbind, Py_bind.
  by rewrite bool_decide_true.
Qed.

(** Whatever it is given, [sendPlainText] returns [None] when it
    returns. *)
Lemma sendPlainText_returns_None self kwargs w v w' :
  sendPlainText post dumps loads self kwargs w = (Return v, w') ->
  v = VNone.
Proof.
  unfold sendPlainText, mbind, Py_bind.
  destruct (_ w) as [[payload|e] w1]; [|done].
  destruct (makeRequest _ _ _ _ _ _) as [[r|e] w2]; [|done].
  by intros [= <- _].
Qed.

Lemma makeRequest_200_raw self payload response w :
  status_code response = 200 ->
  (makeRequest (fun _ => response) loads self payload false w).1 =
    Return (VStr (content response)).
Proof.
  intros Hs. unfold makeRequest, mbind, Py_bind, requests_post, log.
  cbn -[String.append]. rewrite Hs. by destruct (logger self).
Qed.

(** A plain-text send that is answered with status 200 returns [None],
    whatever the body of the response. *)
Lemma sendPlainText_200 self kwargs payload response w :
  kwargs !! "is_json" = None ->
  createPayLoad dumps (<["is_json" := VBool false]> kwargs) =
    Return payload ->
  status_code response = 200 ->
  (sendPlainText (fun _ => response) dumps loads self kwargs w).1 =
    Return VNone.
Proof.
  intros Hj Hp Hs. unfold sendPlainText, mbind, Py_bind, lift.
  rewrite bool_decide_false by (rewrite Hj; by intros [? [=]]).
  rewrite Hp.
  pose proof (makeRequest_200_raw self payload response w Hs) as Hreq.
  by destruct (makeRequest _ _ _ _ _ _) as [[r|e] w2].
Qed.

(** C3, as amended: for every send call that supplies a list as
    [registration_ids]: if the list has at most 1000 entries, the payload
    object is constructed, the JSON payload (the mode of [sendData] and
    [sendNotification]) is built, and the plain-text payload is built
    provided the options bind [data] to a mapping; if the list has more
    than 1000 entries, the constructor of the payload raises
    [FCMTooManyRegIdsException], so nothing is serialized, and the send
    operation fails with that exception without posting any request. *)
Theorem registration_ids_limit `{KeyOrder} (kwargs : gmap string PyVal)
    (ids : list PyVal) :
  kwargs !! "registration_ids" = Some (VList ids) ->
  ((length ids <= 1000)%nat ->
     Payload_init (delete "is_json" kwargs) =
       Return {| __dict__ := delete "is_json" kwargs |} /\
     (truthy (dict_get "is_json" (VBool true) kwargs) = true ->
        createPayLoad dumps kwargs =
          Return (JsonText (dumps (VDict (delete "is_json" kwargs))))) /\
     (truthy (dict_get "is_json" (VBool true) kwargs) = false ->
        forall data, kwargs !! "data" = Some (VDict data) ->
        exists fields,
          createPayLoad dumps kwargs = Return (FormFields fields))) /\
  ((1000 < length ids)%nat ->
     Payload_init (delete "is_json" kwargs) = Raise too_many_ids /\
     createPayLoad dumps kwargs = Raise too_many_ids /\
     forall self w,
       (exists w',
          sendData post dumps loads self kwargs w =
            (Raise too_many_ids, w') /\
          posted w' = posted w) /\
       (exists w',
          sendNotification post dumps loads self kwargs w =
            (Raise too_many_ids, w') /\
          posted w' = posted w) /\
       (kwargs !! "is_json" = None ->
          sendPlainText post dumps loads self kwargs w =
            (Raise too_many_ids, w))).
Proof.
  intros Hids.
  assert (Hval : validate (delete "is_json" kwargs) =
    if 1000 <? Z.of_nat (length ids) then Raise too_many_ids
    else Return tt).
  { rewrite validate_spec, lookup_delete_ne by done. by rewrite Hids. }
  split; intros Hlen.
  - assert ((1000 <? Z.of_nat (length ids)) = false) as Hle
      by (apply Z.ltb_ge; lia).
    rewrite Hle in Hval. split; [|split].
    + by rewrite Payload_init_spec, Hval.
    + intros Hj. by rewrite createPayLoad_json, Hval.
    + intros Hj data Hdata. rewrite createPayLoad_plain, Hval by done.
      rewrite (PlainTextPayload_body_data _ data)
        by (by rewrite lookup_delete_ne).
      by eexists.
  - assert ((1000 <? Z.of_nat (length ids)) = true) as Hgt
      by (apply Z.ltb_lt; lia).
    rewrite Hgt in Hval.
    assert (Hcreate : forall kw, delete "is_json" kw = delete "is_json" kwargs ->
              createPayLoad dumps kw = Raise too_many_ids).
    { intros kw Hkw.
      destruct (truthy (dict_get "is_json" (VBool true) kw)) eqn:Hj.
      - by rewrite createPayLoad_json, Hkw, Hval.
      - by rewrite createPayLoad_plain, Hkw, Hval. }
    split; [|split].
    + by rewrite Payload_init_spec, Hval.
    + by apply Hcreate.
    + intros self w. split; [|split].
      * eexists. by apply sendData_payload_error, Hcreate.
      * eexists. by apply sendData_payload_error, Hcreate.
      * intros Hj. apply sendPlainText_payload_error; [done|].
        apply Hcreate. by rewrite delete_insert_eq.
Qed.

End SendFacts.

Lemma registration_ids_limit_witness :
  createPayLoad Json.dumps
    {[ "registration_ids" := VList [VStr "R1"; VStr "R2"] ]} =
    Return (JsonText
      (Json.dumps (VDict {[ "registration_ids" :=
                              VList [VStr "R1"; VStr "R2"] ]}))) /\
  (exists w',
     sendData (provider 200 "{}") Json.dumps Json.loads client
       {[ "registration_ids" := VList (replicate 1001 (VStr "R")) ]}
       fresh_world = (Raise too_many_ids, w') /\
     posted w' = posted fresh_world).
Proof.
  split.
  - assert (Hids : ({[ "registration_ids" := VList [VStr "R1"; VStr "R2"] ]}
                    : gmap string PyVal) !! "registration_ids" =
                   Some (VList [VStr "R1"; VStr "R2"])) by reflexivity.
    destruct (registration_ids_limit (provider 200 "{}") Json.dumps
                Json.loads _ _ Hids) as [Hsmall _].
    destruct Hsmall as (_ & Hjson & _); [cbn; lia|].
    rewrite Hjson; reflexivity.
  - assert (Hids : ({[ "registration_ids" :=
                         VList (replicate 1001 (VStr "R")) ]}
                    : gmap string PyVal) !! "registration_ids" =
                   Some (VList (replicate 1001 (VStr "R")))) by reflexivity.
    destruct (registration_ids_limit (provider 200 "{}") Json.dumps
                Json.loads _ _ Hids) as [_ Hbig].
    destruct Hbig as (_ & _ & Hsend); [rewrite length_replicate; lia|].
    exact (proj1 (Hsend client fresh_world)).
Defined.

(** C3, as stated, fails: a plain-text send with a one-element list of
    recipients and no [data] field does not get its payload built. *)
Lemma registration_ids_within_limit_no_payload :
  createPayLoad Json.dumps
    {[ "is_json" := VBool false; "registration_ids" := VList [VStr "R1"] ]} =
    Raise (KeyError "data") /\
  sendPlainText (provider 200 "id=0:1") Json.dumps Json.loads client
    {[ "registration_ids" := VList [VStr "R1"] ]} fresh_world =
    (Raise (KeyError "data"), fresh_world).
Proof. split; vm_compute; reflexivity. Qed.

(** ** The JSON codec: decoding an encoded value *)

Lemma escape_char_chars c tail :
  Json.chars (Json.escape_char c ++ tail) =
  '(s, rest) ← Json.chars tail; Some (String c s, rest).
Proof. destruct c as [[] [] [] [] [] [] [] []]; reflexivity. Qed.

Lemma chars_escape s rest :
  Json.chars (Json.escape s ++ Json.quote_char :: rest) = Some (s, rest).
Proof.
  induction s as [|c s IH]; [done|].
  cbn [Json.escape]. by rewrite <- app_assoc, escape_char_chars, IH.
Qed.

Lemma value_S fuel cs :
  Json.value (S fuel) cs =
  match Json.skip cs with
  | [] => None
  | c :: cs' =>
      if Ascii.eqb c "n" then Json.literal "null" VNone (c :: cs')
      else if Ascii.eqb c "t" then Json.literal "true" (VBool true) (c :: cs')
      else if Ascii.eqb c "f" then Json.literal "false" (VBool false) (c :: cs')
      else if Ascii.eqb c Json.quote_char then
        '(s, rest) ← Json.chars cs'; Some (VStr s, rest)
      else if Ascii.eqb c "-" then
        '(n, rest) ← Json.number cs'; Some (VInt (- n), rest)
      else if Ascii.eqb c "[" then
        match Json.skip cs' with
        | c' :: rest =>
            if Ascii.eqb c' "]" then Some (VList [], rest)
            else '(l, rest) ← Json.elements fuel cs'; Some (VList l, rest)
        | [] => None
        end
      else if Ascii.eqb c "{" then
        match Json.skip cs' with
        | c' :: rest =>
            if Ascii.eqb c' "}" then Some (VDict ∅, rest)
            else '(d, rest) ← Json.members fuel ∅ cs'; Some (VDict d, rest)
        | [] => None
        end
      else '(n, rest) ← Json.number (c :: cs'); Some (VInt n, rest)
  end.
Proof. reflexivity. Qed.

Lemma elements_S fuel cs :
  Json.elements (S fuel) cs =
  '(v, rest) ← Json.value fuel cs;
  match Json.skip rest with
  | ","%char :: rest' =>
      '(l, rest'') ← Json.elements fuel rest'; Some (v :: l, rest'')
  | "]"%char :: rest' => Some ([v], rest')
  | _ => None
  end.
Proof. reflexivity. Qed.

Lemma members_S fuel acc cs :
  Json.members (S fuel) acc cs =
  match Json.skip cs with
  | c :: cs' =>
      if Ascii.eqb c Json.quote_char then
        '(k, rest) ← Json.chars cs';
        match Json.skip rest with
        | ":"%char :: rest' =>
            '(v, rest'') ← Json.value fuel rest';
            match Json.skip rest'' with
            | ","%char :: rest3 => Json.members fuel (<[k := v]> acc) rest3
            | "}"%char :: rest3 => Some (<[k := v]> acc, rest3)
            | _ => None
            end
        | _ => None
        end
      else None
  | [] => None
  end.
Proof. reflexivity. Qed.

(** White space before a value is skipped. *)
Lemma value_space fuel cs :
  Json.value fuel (" "%char :: cs) = Json.value fuel cs.
Proof. destruct fuel; [done|]. by rewrite !value_S. Qed.

Lemma elements_space fuel cs :
  Json.elements fuel (" "%char :: cs) = Json.elements fuel cs.
Proof. destruct fuel; [done|]. by rewrite !elements_S, value_space. Qed.

Lemma members_space fuel acc cs :
  Json.members fuel acc (" "%char :: cs) = Json.members fuel acc cs.
Proof. destruct fuel; [done|]. by rewrite !members_S. Qed.

(** *** Integers *)

Lemma of_uint_acc_value d : forall p,
  Z.pos (Pos.of_uint_acc d p) = uint_value (Z.pos p) d.
Proof.
  induction d as [|d IH|d IH|d IH|d IH|d IH|d IH|d IH|d IH|d IH|d IH];
    intros p; cbn [Pos.of_uint_acc uint_value]; [done|..];
    rewrite IH; f_equal; lia.
Qed.

Lemma of_uint_value d : Z.of_N (Pos.of_uint d) = uint_value 0 d.
Proof.
  induction d as [|d IH|d IH|d IH|d IH|d IH|d IH|d IH|d IH|d IH|d IH];
    cbn [Pos.of_uint uint_value Z.of_N]; [done|done|..];
    by rewrite of_uint_acc_value.
Qed.

Lemma to_uint_value p : uint_value 0 (Pos.to_uint p) = Z.pos p.
Proof. by rewrite <- of_uint_value, DecimalPos.Unsigned.of_to. Qed.

(** The decimal digits of a positive number do not start with a zero. *)
Lemma to_uint_head p d : Pos.to_uint p <> Decimal.D0 d.
Proof.
  intros E.
  assert (Hnorm : Decimal.unorm (Pos.to_uint p) = Pos.to_uint p).
  { rewrite <- DecimalPos.Unsigned.to_of.
    by rewrite DecimalPos.Unsigned.of_to. }
  rewrite E in Hnorm. unfold Decimal.unorm in Hnorm.
  destruct (Decimal.nzhead (Decimal.D0 d)) as [|u|u|u|u|u|u|u|u|u|u] eqn:Hz;
    try discriminate Hnorm.
  - injection Hnorm as <-.
    pose proof (DecimalPos.Unsigned.of_to p) as Hp. by rewrite E in Hp.
  - by apply (nzhead_nonzero (Decimal.D0 d) u).
Qed.

Lemma digits_uint d : forall acc rest,
  closes rest ->
  Json.digits acc
    (list_ascii_of_string (NilEmpty.string_of_uint d) ++ rest) =
  (uint_value acc d, rest).
Proof.
  induction d as [|d IH|d IH|d IH|d IH|d IH|d IH|d IH|d IH|d IH|d IH];
    intros acc rest Hrest;
    cbn [NilEmpty.string_of_uint list_ascii_of_string app uint_value];
    try (by apply IH).
  destruct rest as [|c rest]; [done|]. cbn in Hrest. cbn [Json.digits].
  by rewrite Hrest.
Qed.

Lemma value_number fuel (p : positive) rest :
  closes rest ->
  Json.value (S fuel)
    (list_ascii_of_string (NilZero.string_of_uint (Pos.to_uint p)) ++ rest) =
    Some (VInt (Z.pos p), rest) /\
  Json.number
    (list_ascii_of_string (NilZero.string_of_uint (Pos.to_uint p)) ++ rest) =
    Some (Z.pos p, rest).
Proof.
  intros Hrest. pose proof (to_uint_value p) as Hval.
  pose proof (to_uint_head p) as Hhead.
  pose proof (Unsigned.to_uint_nonnil p) as Hnil.
  destruct (Pos.to_uint p) as [|d|d|d|d|d|d|d|d|d|d];
    [done|by destruct (Hhead d)|..];
    rewrite value_S;
    cbn [NilZero.string_of_uint NilEmpty.string_of_uint list_ascii_of_string
         app Json.skip Json.is_space Ascii.eqb Bool.eqb orb
         Json.quote_char Json.number];
    cbn [uint_value] in Hval;
    eval_digit; cbv beta iota; cbn [Json.digits]; eval_digit; cbv beta iota;
    rewrite (digits_uint d _ rest Hrest), Hval; done.
Qed.

(** An integer is decoded from its decimal text. *)
Lemma value_int arrange n : decodes arrange (VInt n).
Proof.
  intros [|fuel] rest Hfuel Hrest; [lia|]. cbn [Json.encode].
  destruct n as [|p|p].
  - rewrite value_S. reflexivity.
  - by apply value_number.
  - rewrite value_S. unfold str_of_int.
    cbn [Z.to_int NilZero.string_of_int list_ascii_of_string app Json.skip
         Json.is_space Ascii.eqb Bool.eqb orb Json.quote_char].
    by rewrite (proj2 (value_number fuel p rest Hrest)).
Qed.

Lemma value_atoms arrange :
  decodes arrange VNone /\ (forall b, decodes arrange (VBool b)) /\
  forall s, decodes arrange (VStr s).
Proof.
  split; [|split].
  - intros [|fuel] rest Hfuel Hrest; [cbn in Hfuel; lia|]. reflexivity.
  - intros [] [|fuel] rest Hfuel Hrest; try (cbn in Hfuel; lia); reflexivity.
  - intros s [|fuel] rest Hfuel Hrest; [lia|].
    cbn [Json.encode Json.quoted app]. rewrite value_S.
    cbn [Json.skip Json.is_space Ascii.eqb Bool.eqb orb Json.quote_char].
    rewrite <- app_assoc. cbn [app].
    by rewrite (chars_escape s rest).
Qed.

(** *** Arrays and objects *)

(** The text of a value starts with a character that is neither white
    space nor the end of an array. *)
Lemma encode_head arrange v :
  exists c cs, Json.encode arrange v = c :: cs /\
    Json.is_space c = false /\ Ascii.eqb c "]" = false.
Proof.
  destruct v as [|[]|n|s|l|d]; try (by eexists _, _).
  destruct n as [|p|p]; [by eexists _, _| |by eexists _, _].
  cbn [Json.encode str_of_int Z.to_int NilZero.string_of_int].
  destruct (Pos.to_uint p); by eexists _, _.
Qed.

Lemma join_cons sep s l :
  l <> [] -> Json.join sep (s :: l) = (s ++ sep ++ Json.join sep l)%list.
Proof. by destruct l. Qed.

Lemma join_elem_length sep l x :
  x ∈ l -> (length x <= length (Json.join sep l))%nat.
Proof.
  induction l as [|s l IH]; [by intros ?%elem_of_nil|].
  destruct l as [|s' l].
  - intros ->%list_elem_of_singleton. done.
  - rewrite join_cons by done. rewrite !length_app.
    intros [->|Hin%IH]%elem_of_cons; lia.
Qed.

Lemma elements_join arrange l :
  l <> [] -> (forall x, x ∈ l -> decodes arrange x) ->
  forall (fuel : nat) rest,
    (length (Json.join Json.comma (map (Json.encode arrange) l)) + 1 < fuel)%nat ->
    Json.elements fuel
      (Json.join Json.comma (map (Json.encode arrange) l) ++
       "]"%char :: rest) = Some (l, rest).
Proof.
  induction l as [|x l IH]; [done|]. intros _ Hdec fuel rest Hfuel.
  destruct fuel as [|fuel]; [lia|]. rewrite elements_S.
  destruct l as [|y l].
  - cbn [map Json.join] in *.
    rewrite (Hdec x); [|by left|lia|done]. reflexivity.
  - cbn [map] in *. rewrite join_cons in * by done.
    text_length Hfuel. rewrite <- !app_assoc.
    rewrite (Hdec x); [|by left|lia|done].
    cbn [mbind option_bind Json.comma list_ascii_of_string app Json.skip
         Json.is_space Ascii.eqb Bool.eqb orb].
    rewrite elements_space, IH; [done|done| |lia].
    intros z Hz. apply Hdec. by right.
Qed.

Lemma members_join arrange kvs :
  kvs <> [] -> (forall p, p ∈ kvs -> decodes arrange p.2) ->
  forall (fuel : nat) acc rest,
    (length (Json.join Json.comma
               (map Json.member (map (entry_text arrange) kvs))) + 1
     < fuel)%nat ->
    Json.members fuel acc
      (Json.join Json.comma (map Json.member (map (entry_text arrange) kvs))
       ++ "}"%char :: rest) = Some (bind_all acc kvs, rest).
Proof.
  induction kvs as [|[k v] kvs IH]; [done|]. intros _ Hdec fuel acc rest Hfuel.
  destruct fuel as [|fuel]; [lia|]. rewrite members_S.
  assert (Hv : decodes arrange v) by (apply (Hdec (k, v)); by left).
  destruct kvs as [|q kvs].
  - cbn [map Json.join entry_text Json.member Json.quoted fst snd app] in *.
    cbn [Json.skip Json.is_space Ascii.eqb Bool.eqb orb Json.quote_char].
    text_length Hfuel.
    rewrite <- !app_assoc. cbn [app].
    rewrite chars_escape.
    cbn [mbind option_bind Json.colon list_ascii_of_string app Json.skip
         Json.is_space Ascii.eqb Bool.eqb orb].
    rewrite value_space, Hv; [done|lia|done].
  - remember (q :: kvs) as kvs' eqn:E.
    assert (Hne : kvs' <> []) by (by subst).
    assert (Hne' : map Json.member (map (entry_text arrange) kvs') <> [])
      by (by subst).
    cbn [map] in Hfuel |- *. rewrite join_cons in Hfuel |- * by done.
    cbn [entry_text Json.member Json.quoted fst snd app] in Hfuel |- *.
    cbn [Json.skip Json.is_space Ascii.eqb Bool.eqb orb Json.quote_char].
    text_length Hfuel.
    rewrite <- !app_assoc. cbn [app].
    rewrite chars_escape.
    cbn [mbind option_bind Json.colon list_ascii_of_string app Json.skip
         Json.is_space Ascii.eqb Bool.eqb orb].
    rewrite value_space, Hv; [|lia|done].
    cbn [mbind option_bind Json.comma list_ascii_of_string app Json.skip
         Json.is_space Ascii.eqb Bool.eqb orb].
    rewrite members_space, IH; [done|done| |lia].
    intros z Hz. apply Hdec. by right.
Qed.

Lemma skip_head c t : Json.is_space c = false -> Json.skip (c :: t) = c :: t.
Proof. intros Hc. cbn [Json.skip]. by rewrite Hc. Qed.

Lemma join_head sep s l rest c cs :
  s = c :: cs -> exists t, (Json.join sep (s :: l) ++ rest)%list = c :: t.
Proof. intros ->. destruct l; by eexists. Qed.

(** The writes of the decoder rebuild a dictionary from entries that are
    its bindings and that cover its keys. *)
Lemma bind_all_sub (d : gmap string PyVal) kvs : forall acc,
  acc ⊆ d -> Forall (fun p => d !! p.1 = Some p.2) kvs ->
  bind_all acc kvs ⊆ d.
Proof.
  induction kvs as [|[k v] kvs IH]; intros acc Hacc Hall; [done|].
  apply Forall_cons in Hall as [Hkv Hall]. cbn [bind_all foldl fst snd].
  apply IH; [|done]. by apply insert_subseteq_l.
Qed.

Lemma bind_all_is_Some kvs : forall (acc : gmap string PyVal) i,
  i ∈ kvs.*1 \/ is_Some (acc !! i) -> is_Some (bind_all acc kvs !! i).
Proof.
  induction kvs as [|[k v] kvs IH]; intros acc i [Hin|Hs];
    cbn [bind_all foldl fst snd].
  - by apply elem_of_nil in Hin.
  - done.
  - apply IH. cbn [fmap list_fmap fst] in Hin.
    apply elem_of_cons in Hin as [->|Hin]; [right|by left].
    by rewrite lookup_insert_eq.
  - apply IH. right. destruct (decide (k = i)) as [->|Hne].
    + by rewrite lookup_insert_eq.
    + by rewrite lookup_insert_ne.
Qed.

Lemma bind_all_eq (d : gmap string PyVal) kvs :
  Forall (fun p => d !! p.1 = Some p.2) kvs ->
  (forall i, is_Some (d !! i) -> i ∈ kvs.*1) ->
  bind_all ∅ kvs = d.
Proof.
  intros Hall Hcov.
  assert (Hsub : bind_all ∅ kvs ⊆ d)
    by (apply bind_all_sub; [apply map_empty_subseteq|done]).
  apply map_eq. intros i. destruct (d !! i) as [v|] eqn:Hi.
  - destruct (bind_all_is_Some kvs ∅ i) as [v' Hv']; [left; by apply Hcov|].
    rewrite Hv'. f_equal.
    pose proof (lookup_weaken _ _ _ _ Hv' Hsub) as Hd. congruence.
  - destruct (bind_all ∅ kvs !! i) as [v'|] eqn:Hv'; [|done].
    pose proof (lookup_weaken _ _ _ _ Hv' Hsub) as Hd. congruence.
Qed.

Lemma entries_of arrange (d : gmap string PyVal) L :
  (forall p, p ∈ L -> p ∈ map_to_list (Json.encode arrange <$> d)) ->
  exists kvs, map (entry_text arrange) kvs = L /\
    Forall (fun p => d !! p.1 = Some p.2) kvs.
Proof.
  induction L as [|[k t] L IH]; intros HL; [by exists []|].
  destruct IH as (kvs & <- & Hall); [intros p Hp; apply HL; by right|].
  assert (Hkt : (k, t) ∈ map_to_list (Json.encode arrange <$> d))
    by (apply HL; by left).
  apply elem_of_map_to_list in Hkt.
  apply lookup_fmap_Some in Hkt as (v & <- & Hv).
  exists ((k, v) :: kvs). split; [done|]. by apply Forall_cons.
Qed.

(** Every value is decoded from its text, whatever the order in which the
    keys of the objects are written. *)
Lemma value_encode arrange :
  (forall l, arrange l ≡ₚ l) ->
  forall (n : nat) v, (length (Json.encode arrange v) <= n)%nat ->
    decodes arrange v.
Proof.
  intros Harr n. induction n as [n IH] using lt_wf_ind. intros v Hn.
  destruct v as [|b|z|s|l|d].
  - apply value_atoms.
  - apply value_atoms.
  - apply value_int.
  - apply value_atoms.
  - intros fuel rest Hfuel Hrest. destruct fuel as [|fuel]; [lia|].
    cbn [Json.encode] in *. rewrite value_S.
    cbn [app Json.skip Json.is_space Ascii.eqb Bool.eqb orb Json.quote_char].
    rewrite <- app_assoc. cbn [app].
    destruct l as [|x l]; [reflexivity|].
    destruct (encode_head arrange x) as (c & cs & Hx & Hsp & Hbr).
    destruct (join_head Json.comma (Json.encode arrange x)
                (map (Json.encode arrange) l) ("]"%char :: rest) c cs Hx)
      as [t Ht].
    cbn [map]. rewrite Ht at 1. rewrite skip_head, Hbr by done.
    text_length Hfuel. text_length Hn.
    change (Json.encode arrange x :: map (Json.encode arrange) l)
      with (map (Json.encode arrange) (x :: l)) in *.
    rewrite elements_join; [done|done| |lia].
    intros y Hy. apply (IH (length (Json.encode arrange y))); [|done].
    pose proof (join_elem_length Json.comma
                  (map (Json.encode arrange) (x :: l))
                  (Json.encode arrange y)) as Hle.
    assert (Hin : Json.encode arrange y ∈ map (Json.encode arrange) (x :: l))
      by (apply list_elem_of_fmap; by exists y).
    specialize (Hle Hin). lia.
  - intros fuel rest Hfuel Hrest. destruct fuel as [|fuel]; [lia|].
    cbn [Json.encode] in *. rewrite value_S.
    cbn [app Json.skip Json.is_space Ascii.eqb Bool.eqb orb Json.quote_char].
    rewrite <- app_assoc. cbn [app].
    set (L := arrange (map_to_list (Json.encode arrange <$> d))) in *.
    destruct (entries_of arrange d L) as (kvs & HL & Hall).
    { intros p Hp. unfold L in Hp. by rewrite Harr in Hp. }
    assert (Hcov : forall i, is_Some (d !! i) -> i ∈ kvs.*1).
    { intros i [v Hv].
      assert (Hin : (i, Json.encode arrange v) ∈ L).
      { unfold L. rewrite Harr. apply elem_of_map_to_list.
        by rewrite lookup_fmap, Hv. }
      rewrite <- HL in Hin. apply list_elem_of_fmap in Hin as (p & Hp & Hin).
      apply list_elem_of_fmap. exists p. split; [|done].
      by injection Hp as -> _. }
    pose proof (bind_all_eq d kvs Hall Hcov) as Hd.
    clearbody L. subst L. clear Hall Hcov.
    destruct kvs as [|p kvs]; [by rewrite <- Hd|].
    destruct (join_head Json.comma (Json.member (entry_text arrange p))
                (map Json.member (map (entry_text arrange) kvs))
                ("}"%char :: rest) Json.quote_char
                (Json.escape p.1 ++ [Json.quote_char] ++ Json.colon ++
                 Json.encode arrange p.2)%list) as [t Ht].
    { unfold Json.member, Json.quoted. cbn [entry_text fst snd app].
      by rewrite <- !app_assoc. }
    cbn [map]. rewrite Ht at 1. rewrite skip_head by done.
    cbn [Ascii.eqb Bool.eqb Json.quote_char].
    text_length Hfuel. text_length Hn.
    change (Json.member (entry_text arrange p) ::
            map Json.member (map (entry_text arrange) kvs))
      with (map Json.member (map (entry_text arrange) (p :: kvs))) in *.
    rewrite members_join; [by rewrite Hd|done| |lia].
    intros q Hq. apply (IH (length (Json.encode arrange q.2))); [|done].
    pose proof (join_elem_length Json.comma
                  (map Json.member (map (entry_text arrange) (p :: kvs)))
                  (Json.member (entry_text arrange q))) as Hle.
    assert (Hin : Json.member (entry_text arrange q) ∈
                  map Json.member (map (entry_text arrange) (p :: kvs))).
    { apply list_elem_of_fmap. exists (entry_text arrange q).
      split; [done|]. apply list_elem_of_fmap. by exists q. }
    specialize (Hle Hin). unfold Json.member in Hle at 1.
    cbn [entry_text fst snd] in Hle. rewrite !length_app in Hle. lia.
Qed.

(** Decoding the text of a value gives the value back. *)
Lemma loads_dumps_in arrange v :
  (forall l, arrange l ≡ₚ l) ->
  Json.loads (Json.dumps_in arrange v) = Some v.
Proof.
  intros Harr. unfold Json.loads, Json.dumps_in.
  rewrite list_ascii_of_string_of_list_ascii.
  pose proof (value_encode arrange Harr _ v (Nat.le_refl _)
                (S (length (Json.encode arrange v))) []) as Hv.
  rewrite app_nil_r in Hv. by rewrite Hv by (done || lia).
Qed.

Lemma loads_dumps v : Json.loads (Json.dumps v) = Some v.
Proof. by apply loads_dumps_in. Qed.

Section SendClaims.

Variable post : Request -> Response.
Variable dumps : PyVal -> string.
Variable loads : string -> option PyVal.

(** C10, as amended: for every [sendPlainText] call whose options do not
    include [data], the body of the plain-text payload raises [KeyError]
    for the key [data], and the call fails before any network I/O (the
    world is left as it was); the exception of the call is that
    [KeyError] whenever the options have no [is_json] keyword and pass
    validation. *)
Theorem sendPlainText_without_data (self : FirebaseMessaging)
    (kwargs : gmap string PyVal) (w : World) :
  kwargs !! "data" = None ->
  PlainTextPayload_body {| __dict__ := kwargs |} = Raise (KeyError "data") /\
  exists e,
    sendPlainText post dumps loads self kwargs w = (Raise e, w) /\
    (kwargs !! "is_json" = None -> validate kwargs = Return tt ->
       e = KeyError "data").
Proof.
  intros Hdata. split; [by apply PlainTextPayload_body_no_data|].
  destruct (kwargs !! "is_json") as [j|] eqn:Hj.
  { exists TypeError. split; [|done].
    apply sendPlainText_keyword_clash. by rewrite Hj. }
  assert (Hcreate : createPayLoad dumps (<["is_json" := VBool false]> kwargs) =
    match validate kwargs with
    | Return _ => Raise (KeyError "data")
    | Raise e => Raise e
    end).
  { rewrite createPayLoad_plain
      by (unfold dict_get; by rewrite lookup_insert_eq).
    rewrite delete_insert_eq, delete_id by done.
    destruct (validate kwargs); [|done].
    by apply PlainTextPayload_body_no_data. }
  destruct (validate kwargs) as [[]|e] eqn:Hval.
  - exists (KeyError "data"). split; [|done].
    by apply sendPlainText_payload_error.
  - exists e. split; [|done]. by apply sendPlainText_payload_error.
Qed.

End SendClaims.


Lemma sendPlainText_without_data_witness :
  PlainTextPayload_body {| __dict__ := {[ "to" := VStr "R1" ]} |} =
    Raise (KeyError "data") /\
  sendPlainText (provider 200 "id=0:1") Json.dumps Json.loads client
    {[ "to" := VStr "R1" ]} fresh_world = (Raise (KeyError "data"), fresh_world).
Proof.
  assert (Hdata : ({[ "to" := VStr "R1" ]} : gmap string PyVal) !! "data" =
                  None) by reflexivity.
  destruct (sendPlainText_without_data (provider 200 "id=0:1") Json.dumps
              Json.loads client _ fresh_world Hdata) as (Hbody & e & Hsend & He).
  split; [exact Hbody|].
  rewrite Hsend, He; reflexivity.
Defined.

(** C10, as stated, fails: without [data] but with 1001 recipients the
    call fails in validation, with [FCMTooManyRegIdsException] and not with
    a key-lookup error. *)
Lemma sendPlainText_without_data_too_many :
  sendPlainText (provider 200 "id=0:1") Json.dumps Json.loads client
    {[ "registration_ids" := VList (replicate 1001 (VStr "R")) ]}
    fresh_world = (Raise too_many_ids, fresh_world).
Proof. vm_compute. reflexivity. Qed.


(** C2: the code at a plain-text send answered with status 200: the body
    of the response is dropped and the call returns [None]. *)
Lemma sendPlainText_discards_body :
  (sendPlainText (provider 200 "id=0:1376") Json.dumps Json.loads client
     {[ "to" := VStr "R1"; "data" := VDict {[ "k" := VStr "v" ]} ]}
     fresh_world).1 = Return VNone.
Proof. vm_compute. reflexivity. Qed.

(** ** Keys of the reconciliation dictionaries *)

Lemma key_eqb_sym a b : key_eqb a b = key_eqb b a.
Proof.
  destruct a as [|[]| | | |], b as [|[]| | | |]; cbn -[Z.eqb];
    auto using String.eqb_sym, Z.eqb_sym.
Qed.

Lemma key_eqb_trans a b c :
  key_eqb a b = true -> key_eqb b c = true -> key_eqb a c = true.
Proof.
  destruct a as [|[]| | | |], b as [|[]| | | |], c as [|[]| | | |];
    cbn -[Z.eqb]; try done;
    rewrite ?String.eqb_eq, ?Z.eqb_eq; intros; subst; try done; lia.
Qed.

Lemma key_eqb_refl a : hashable a = true -> key_eqb a a = true.
Proof.
  destruct a as [|[]| | | |]; cbn -[Z.eqb]; try done; intros _.
  - apply Z.eqb_refl.
  - apply String.eqb_refl.
Qed.

(** Equal keys compare alike with any third key. *)
Lemma key_eqb_congr a b c :
  key_eqb a b = true -> key_eqb a c = key_eqb b c.
Proof.
  intros Hab. destruct (key_eqb b c) eqn:Hbc.
  - by apply key_eqb_trans with b.
  - destruct (key_eqb a c) eqn:Hac; [|done].
    rewrite <- Hbc. symmetry. apply key_eqb_trans with a; [|done].
    by rewrite key_eqb_sym.
Qed.

Lemma key_in_cons k k0 ks :
  key_in k (k0 :: ks) = key_eqb k0 k || key_in k ks.
Proof. reflexivity. Qed.

Lemma key_in_app k ks1 ks2 :
  key_in k (ks1 ++ ks2) = key_in k ks1 || key_in k ks2.
Proof. apply existsb_app. Qed.

Lemma key_in_false k ks :
  key_in k ks = false <-> forall k', In k' ks -> key_eqb k' k = false.
Proof.
  unfold key_in. induction ks as [|k0 ks IH]; cbn.
  - split; [intros _ k' []|done].
  - rewrite orb_false_iff, IH. split.
    + intros [H0 Hks] k' [<-|Hin]; auto.
    + intros Hall. split; [|intros k' Hin]; apply Hall; auto.
Qed.

Lemma key_in_congr a b ks :
  key_eqb a b = true -> key_in a ks = key_in b ks.
Proof.
  intros Hab. unfold key_in. induction ks as [|k ks IH]; cbn; [done|].
  rewrite IH. f_equal. rewrite !(key_eqb_sym k). by apply key_eqb_congr.
Qed.

Lemma distinct_keys_snoc ks k :
  distinct_keys ks -> key_in k ks = false -> distinct_keys (ks ++ [k]).
Proof.
  induction ks as [|k0 ks IH]; cbn; [done|].
  intros [H0 Hks] [Hk0 Hk]%orb_false_iff. split; [|by apply IH].
  rewrite key_in_app, H0. cbn. by rewrite key_eqb_sym, Hk0.
Qed.

Lemma filter_filter {A} (f g : A -> bool) (l : list A) :
  List.filter f (List.filter g l) = List.filter (fun x => g x && f x) l.
Proof.
  induction l as [|x l IH]; cbn; [done|].
  destruct (g x); cbn; [|done]. destruct (f x); by rewrite IH.
Qed.

(** ** Grouping the failures by reason *)

Example first_seen_order :
  first_seen [VStr "Unavailable"; VStr "NotRegistered"; VStr "Unavailable";
              VInt 1; VBool true; VStr "NotRegistered"] =
  [VStr "Unavailable"; VStr "NotRegistered"; VInt 1].
Proof. reflexivity. Qed.

Lemma recipients_with_nil r : recipients_with r [] = [].
Proof. reflexivity. Qed.

Lemma recipients_with_cons r k v pairs :
  recipients_with r ((k, v) :: pairs) =
  if key_eqb r v then k :: recipients_with r pairs
  else recipients_with r pairs.
Proof. unfold recipients_with. cbn. by destruct (key_eqb r v). Qed.

Lemma grouping_append_spec v k g :
  distinct_keys (map fst g) ->
  grouping_append v k g =
    if key_in v (map fst g)
    then map (fun p => (p.1, if key_eqb p.1 v then (p.2 ++ [k])%list
                             else p.2)) g
    else (g ++ [(v, [k])])%list.
Proof.
  induction g as [|[r ks] g IH]; [done|].
  cbn [map fst distinct_keys grouping_append]. rewrite key_in_cons.
  intros [Hr Hd]. destruct (key_eqb r v) eqn:E; cbn [orb map fst snd].
  - f_equal. rewrite <- (List.map_id g) at 1. apply map_ext_in.
    intros [r' ks'] Hin. cbn.
    assert (Hf : key_eqb r' v = false); [|by rewrite Hf].
    rewrite key_eqb_sym, <- (key_eqb_congr r v r' E), key_eqb_sym.
    apply (proj1 (key_in_false r (map fst g)) Hr).
    by apply (in_map fst) in Hin.
  - rewrite (IH Hd). by destruct (key_in v (map fst g)).
Qed.

Lemma grouping_append_keys v k g :
  distinct_keys (map fst g) ->
  map fst (grouping_append v k g) =
    if key_in v (map fst g) then map fst g else (map fst g ++ [v])%list.
Proof.
  intros Hd. rewrite grouping_append_spec by done.
  destruct (key_in v (map fst g)).
  - rewrite map_map. by apply map_ext.
  - by rewrite map_app.
Qed.

Lemma grouping_append_distinct v k g :
  distinct_keys (map fst g) -> distinct_keys (map fst (grouping_append v k g)).
Proof.
  intros Hd. rewrite grouping_append_keys by done.
  destruct (key_in v (map fst g)) eqn:Hin; [done|].
  by apply distinct_keys_snoc.
Qed.

(** The loop over the pairs, started from any grouping with distinct keys:
    the groups already there receive their further recipients, and the
    reasons not yet there are appended as they are first seen. *)
Lemma group_by_value_acc pairs : forall acc,
  forallb hashable (map snd pairs) = true ->
  distinct_keys (map fst acc) ->
  group_by_value pairs acc =
  Return (map (fun p => (p.1, (p.2 ++ recipients_with p.1 pairs)%list)) acc ++
          map (fun r => (r, recipients_with r pairs))
              (List.filter (fun y => negb (key_in y (map fst acc)))
                           (first_seen (map snd pairs))))%list.
Proof.
  induction pairs as [|[k v] pairs IH]; intros acc Hh Hd.
  - cbn. rewrite app_nil_r. f_equal.
    rewrite <- (List.map_id acc) at 1. apply map_ext.
    intros [r ks]. cbn. by rewrite app_nil_r.
  - cbn in Hh. apply andb_prop in Hh as [Hv Hh].
    cbn [group_by_value]. rewrite Hv.
    rewrite IH by auto using grouping_append_distinct.
    rewrite grouping_append_keys by done.
    rewrite grouping_append_spec by done.
    f_equal. cbn [map first_seen snd List.filter].
    destruct (key_in v (map fst acc)) eqn:Hin; cbn [negb].
    + f_equal.
      * rewrite map_map. apply map_ext. intros [r ks]. cbn [fst snd].
        rewrite recipients_with_cons.
        destruct (key_eqb r v); by rewrite <- ?app_assoc.
      * rewrite filter_filter.
        assert (Hv' : forall x, negb (key_in x (map fst acc)) = true ->
                                key_eqb v x = false).
        { intros x Hx. destruct (key_eqb v x) eqn:Hvx; [|done].
          by rewrite <- (key_in_congr v x _ Hvx), Hin in Hx. }
        erewrite (filter_ext_in
                    (fun x => negb (key_eqb v x) &&
                              negb (key_in x (map fst acc)))
                    (fun y => negb (key_in y (map fst acc)))).
        2:{ intros x _. destruct (negb (key_in x _)) eqn:Hx.
            - by rewrite (Hv' x Hx).
            - apply andb_false_r. }
        apply map_ext_in. intros x [_ Hx]%filter_In.
        rewrite recipients_with_cons.
        by rewrite key_eqb_sym, (Hv' x Hx).
    + rewrite map_app, <- app_assoc. f_equal.
      * apply map_ext_in. intros [r ks] Hr. cbn [fst snd].
        rewrite recipients_with_cons.
        assert (Hf : key_eqb r v = false); [|by rewrite Hf].
        apply (proj1 (key_in_false v (map fst acc)) Hin).
        by apply (in_map fst) in Hr.
      * cbn [map app fst snd]. rewrite recipients_with_cons.
        rewrite key_eqb_refl by done. f_equal.
        rewrite filter_filter.
        erewrite (filter_ext
                    (fun y => negb (key_in y (map fst acc ++ [v])))
                    (fun x => negb (key_eqb v x) &&
                              negb (key_in x (map fst acc)))).
        2:{ intros x. rewrite key_in_app. cbn.
            destruct (key_in x (map fst acc)), (key_eqb v x); done. }
        apply map_ext_in. intros x [_ Hx]%filter_In.
        apply andb_prop in Hx as [Hx _].
        rewrite recipients_with_cons.
        rewrite key_eqb_sym. by destruct (key_eqb v x).
Qed.

(** The loop of [groupResponseResult] for ['error'] computes [grouped]. *)
Lemma group_by_value_grouped pairs :
  forallb hashable (map snd pairs) = true ->
  group_by_value pairs [] = Return (grouped pairs).
Proof.
  intros Hh. rewrite group_by_value_acc by done. unfold grouped.
  cbn [map app]. do 2 f_equal.
  induction (first_seen _) as [|x l IH]; [done|].
  cbn [List.filter]. change (key_in x []) with false. cbn [negb].
  by rewrite IH.
Qed.

(** ** Pairing recipients with result entries *)

Lemma filtered_dicts key mapping :
  forallb (fun p => is_dict p.2) mapping = true ->
  filtered key mapping = Return (pairs_with key mapping).
Proof.
  induction mapping as [|[reg_id res] mapping IH]; [done|].
  cbn [forallb snd]. intros [Hres Hrest]%andb_prop.
  destruct res as [| | | | |d]; try done.
  cbn [filtered contains getitem mbind Result_bind].
  unfold pairs_with. cbn [omap list_omap fst snd entry_get].
  fold (pairs_with key mapping). case_bool_decide as Hkey.
  - destruct Hkey as [v Hv]. rewrite Hv, (IH Hrest). reflexivity.
  - apply eq_None_not_Some in Hkey. rewrite Hkey. by apply IH.
Qed.

Lemma pairs_with_keys key ids entries k :
  In k (map fst (pairs_with key (zip ids entries))) -> In k ids.
Proof.
  revert entries. induction ids as [|r ids IH]; intros [|e entries]; try done.
  unfold pairs_with. cbn [zip zip_with omap list_omap fst snd].
  fold (zip ids entries). fold (pairs_with key (zip ids entries)).
  destruct (entry_get key e); cbn; [intros [<-|Hin]|intros Hin]; eauto.
Qed.

Lemma pairs_with_hashable_keys key ids entries :
  forallb hashable ids = true ->
  forallb hashable (map fst (pairs_with key (zip ids entries))) = true.
Proof.
  rewrite !forallb_forall. eauto using pairs_with_keys.
Qed.

Lemma pairs_with_error_hashable ids entries :
  forallb entry_ok entries = true ->
  forallb hashable (map snd (pairs_with "error" (zip ids entries))) = true.
Proof.
  revert entries. induction ids as [|r ids IH]; intros [|e entries]; try done.
  cbn [forallb]. intros [He Hrest]%andb_prop.
  unfold pairs_with. cbn [zip zip_with omap list_omap fst snd].
  fold (zip ids entries). fold (pairs_with "error" (zip ids entries)).
  destruct e as [| | | | |d]; try done. cbn [entry_get entry_ok] in *.
  destruct (d !! "error"); cbn; [rewrite He|]; by apply IH.
Qed.

Lemma entry_ok_is_dict entries :
  forallb entry_ok entries = true -> forallb is_dict entries = true.
Proof.
  rewrite !forallb_forall. intros Hok e He. specialize (Hok e He).
  by destruct e.
Qed.

Lemma zip_is_dict (ids entries : list PyVal) :
  forallb is_dict entries = true ->
  forallb (fun p => is_dict p.2) (zip ids entries) = true.
Proof.
  revert entries. induction ids as [|r ids IH]; intros [|e entries]; try done.
  cbn. intros [-> Hrest]%andb_prop. by apply IH.
Qed.

(** [zip] stops at the shorter of the two sequences. *)
Lemma zip_truncate {A B} (xs : list A) (ys : list B) :
  zip xs ys =
  zip (take (min (length xs) (length ys)) xs)
      (take (min (length xs) (length ys)) ys).
Proof.
  revert ys. induction xs as [|x xs IH]; intros [|y ys]; try done.
  cbn. f_equal. apply IH.
Qed.

(** ** The dictionaries of canonical ids and of message ids *)

Lemma dict_of_hashable pairs : forall acc,
  forallb hashable (map fst pairs) = true ->
  dict_of pairs acc = Return (dict_writes pairs acc).
Proof.
  induction pairs as [|[k v] pairs IH]; intros acc; [done|].
  cbn. intros [-> Hrest]%andb_prop. by apply IH.
Qed.

Lemma dict_lookup_set k k' v d :
  dict_lookup k (dict_set k' v d) =
  if key_eqb k' k then Some v else dict_lookup k d.
Proof.
  induction d as [|[k0 v0] d IH]; cbn; [done|].
  destruct (key_eqb k0 k') eqn:E0; cbn.
  - rewrite (key_eqb_congr k0 k' k E0). by destruct (key_eqb k' k).
  - rewrite IH. destruct (key_eqb k0 k) eqn:E1; [|done].
    destruct (key_eqb k' k) eqn:E2; [|done].
    assert (key_eqb k0 k' = true); [|congruence].
    apply key_eqb_trans with k; [done|]. by rewrite key_eqb_sym.
Qed.

(** Once written, a key stays; so every key of the pairs is bound. *)
Lemma dict_writes_covers r pairs : forall acc,
  is_Some (dict_lookup r acc) \/ key_in r (map fst pairs) = true ->
  is_Some (dict_lookup r (dict_writes pairs acc)).
Proof.
  induction pairs as [|[k v] pairs IH]; intros acc.
  - cbn. by intros [?|?].
  - intros Hr. cbn [dict_writes foldl fst snd].
    fold (dict_writes pairs (dict_set k v acc)). apply IH.
    rewrite dict_lookup_set. cbn [map fst] in Hr. rewrite key_in_cons in Hr.
    destruct (key_eqb k r); [by left; eexists|]. cbn in Hr.
    destruct Hr as [?|?]; auto.
Qed.

Lemma distinct_keys_middle ks1 k ks2 :
  distinct_keys (ks1 ++ k :: ks2) -> key_in k ks1 = false.
Proof.
  induction ks1 as [|x ks1 IH]; [done|].
  cbn [app distinct_keys]. intros [Hx Hd]. rewrite key_in_cons.
  rewrite key_in_app, key_in_cons in Hx.
  apply orb_false_iff in Hx as [_ [Hx _]%orb_false_iff].
  by rewrite key_eqb_sym, Hx, (IH Hd).
Qed.

Lemma dict_set_fresh k v d :
  key_in k (map fst d) = false -> dict_set k v d = (d ++ [(k, v)])%list.
Proof.
  induction d as [|[k0 v0] d IH]; [done|].
  cbn [map fst]. rewrite key_in_cons. intros [E Hd]%orb_false_iff.
  cbn. by rewrite E, IH.
Qed.

(** With recipients that are all different, the dictionary is the list of
    the pairs. *)
Lemma dict_writes_distinct pairs : forall acc,
  distinct_keys (map fst (acc ++ pairs)) ->
  dict_writes pairs acc = (acc ++ pairs)%list.
Proof.
  induction pairs as [|[k v] pairs IH]; intros acc Hd.
  - by rewrite app_nil_r.
  - cbn [dict_writes foldl fst snd].
    fold (dict_writes pairs (dict_set k v acc)).
    rewrite map_app in Hd. cbn [map fst] in Hd.
    rewrite dict_set_fresh by eauto using distinct_keys_middle.
    rewrite IH; rewrite <- app_assoc; [done|].
    by rewrite map_app.
Qed.

(** ** Reconciliation *)

Lemma handleJSONResponse_unfold `{KeyOrder} response kwargs :
  handleJSONResponse response kwargs =
  errors ← groupResponseResult response (recipients kwargs) "error";
  canonical ← groupResponseResult response (recipients kwargs) "registration_id";
  success ← groupResponseResult response (recipients kwargs) "message_id";
  mret (assemble errors canonical success).
Proof. reflexivity. Qed.

Lemma recipients_list kwargs ids :
  kwargs !! "registration_ids" = Some (VList ids) -> ids ≠ [] ->
  recipients kwargs = VList ids.
Proof.
  intros Hids Hne. unfold recipients, dict_get. rewrite Hids. cbn.
  destruct ids; [done|]. cbn. by rewrite andb_false_r.
Qed.

Lemma recipients_no_to kwargs :
  kwargs !! "to" = None ->
  recipients kwargs = dict_get "registration_ids" VNone kwargs.
Proof. intros Hto. unfold recipients, dict_get. by rewrite Hto. Qed.

Lemma recipients_given kwargs reg_ids :
  kwargs !! "registration_ids" = Some reg_ids -> kwargs !! "to" = None ->
  recipients kwargs = reg_ids.
Proof.
  intros Hids Hto. rewrite recipients_no_to by done.
  unfold dict_get. by rewrite Hids.
Qed.

Lemma kept_or_None g : kept (or_None g) = or_None g.
Proof. unfold or_None. destruct (group_nonempty g) eqn:E; cbn; by rewrite ?E. Qed.

Lemma update_if_lookup name grouping result key :
  update_if name grouping result !! key =
  if decide (name = key)
  then match kept grouping with
       | Some g => Some g
       | None => result !! key
       end
  else result !! key.
Proof.
  unfold update_if, kept. destruct grouping as [g|].
  - destruct (group_nonempty g); case_decide; subst;
      by rewrite ?lookup_insert_eq, ?lookup_insert_ne.
  - by case_decide.
Qed.

Lemma assemble_lookup errors canonical success :
  assemble errors canonical success !! "errors" = kept errors /\
  assemble errors canonical success !! "canonical" = kept canonical /\
  assemble errors canonical success !! "success" = kept success /\
  forall name, name ∉ ["errors"; "canonical"; "success"] ->
    assemble errors canonical success !! name = None.
Proof.
  unfold assemble. repeat split.
  - rewrite !update_if_lookup. cbn. by destruct (kept errors).
  - rewrite !update_if_lookup. cbn. by destruct (kept canonical).
  - rewrite !update_if_lookup. cbn. by destruct (kept success).
  - intros name Hname. rewrite !update_if_lookup.
    repeat case_decide; subst; try done;
      exfalso; apply Hname; repeat constructor.
Qed.

Lemma kept_nonempty grouping g :
  kept grouping = Some g -> group_nonempty g = true.
Proof.
  unfold kept. destruct grouping as [g'|]; [|done].
  destruct (group_nonempty g') eqn:E; [|done]. by intros [= <-].
Qed.

Lemma groupResponseResult_lists `{KeyOrder} other entries ids key :
  groupResponseResult (response_of other entries) (VList ids) key =
  pairs ← filtered key (zip ids entries);
  if bool_decide (key ∈ ["registration_id"; "message_id"]) then
    grouping ← dict_of pairs [];
    mret (or_None (Mapping grouping))
  else
    grouping ← group_by_value pairs [];
    mret (or_None (Items grouping)).
Proof.
  unfold groupResponseResult, response_of, getitem.
  by rewrite lookup_insert_eq.
Qed.

Lemma groupResponseResult_error `{KeyOrder} other entries ids :
  forallb is_dict entries = true ->
  forallb hashable
    (map snd (pairs_with "error" (zip ids entries))) = true ->
  groupResponseResult (response_of other entries) (VList ids) "error" =
  Return (or_None (Items (grouped (pairs_with "error" (zip ids entries))))).
Proof.
  intros Hd Hh. rewrite groupResponseResult_lists.
  rewrite filtered_dicts by (by apply zip_is_dict).
  cbn [mbind Result_bind]. rewrite bool_decide_false.
  - by rewrite group_by_value_grouped.
  - intros Hin. repeat (apply elem_of_cons in Hin as [[=]|Hin]).
    by apply elem_of_nil in Hin.
Qed.

Lemma groupResponseResult_mapping `{KeyOrder} other entries ids key :
  key ∈ ["registration_id"; "message_id"] ->
  forallb is_dict entries = true ->
  forallb hashable ids = true ->
  groupResponseResult (response_of other entries) (VList ids) key =
  Return (or_None (Mapping (dict_writes (pairs_with key (zip ids entries)) []))).
Proof.
  intros Hkey Hd Hh. rewrite groupResponseResult_lists.
  rewrite filtered_dicts by (by apply zip_is_dict).
  cbn [mbind Result_bind]. rewrite bool_decide_true by done.
  by rewrite dict_of_hashable by (by apply pairs_with_hashable_keys).
Qed.

Lemma pairs_with_none key ids entries :
  forallb (fun e => negb (carries key e)) entries = true ->
  pairs_with key (zip ids entries) = [].
Proof.
  revert entries. induction ids as [|r ids IH]; intros [|e entries]; try done.
  cbn [forallb]. intros [He Hrest]%andb_prop.
  unfold pairs_with. cbn [zip zip_with omap list_omap fst snd].
  fold (zip ids entries). fold (pairs_with key (zip ids entries)).
  unfold carries in He. apply negb_true_iff, bool_decide_eq_false in He.
  apply eq_None_not_Some in He. rewrite He. by apply IH.
Qed.

Lemma pairs_with_all key ids entries :
  length entries = length ids ->
  forallb (carries key) entries = true ->
  map fst (pairs_with key (zip ids entries)) = ids.
Proof.
  revert entries. induction ids as [|r ids IH]; intros [|e entries]; try done.
  cbn [forallb length]. intros [= Hlen] [He Hrest]%andb_prop.
  unfold pairs_with. cbn [zip zip_with omap list_omap fst snd].
  fold (zip ids entries). fold (pairs_with key (zip ids entries)).
  unfold carries in He. apply bool_decide_eq_true in He as [v Hv].
  rewrite Hv. cbn. by rewrite IH.
Qed.

Lemma key_in_self r ids :
  forallb hashable ids = true -> In r ids -> key_in r ids = true.
Proof.
  intros Hh Hin. unfold key_in. apply existsb_exists. exists r.
  split; [done|]. apply key_eqb_refl.
  by apply (proj1 (forallb_forall _ _) Hh).
Qed.

Lemma pairs_with_key_in key ids entries k :
  key_in k ids = false ->
  key_in k (map fst (pairs_with key (zip ids entries))) = false.
Proof.
  rewrite !key_in_false. eauto using pairs_with_keys.
Qed.

Lemma pairs_with_cons key r ids e entries :
  pairs_with key (zip (r :: ids) (e :: entries)) =
  match entry_get key e with
  | Some v => (r, v) :: pairs_with key (zip ids entries)
  | None => pairs_with key (zip ids entries)
  end.
Proof.
  unfold pairs_with. cbn [zip zip_with omap list_omap fst snd].
  by destruct (entry_get key e).
Qed.

Lemma pairs_with_distinct key ids entries :
  distinct_keys ids ->
  distinct_keys (map fst (pairs_with key (zip ids entries))).
Proof.
  revert entries. induction ids as [|r ids IH]; intros [|e entries]; try done.
  intros [Hr Hd]. rewrite pairs_with_cons.
  destruct (entry_get key e); [|by apply IH].
  cbn [map fst distinct_keys]. split; [|by apply IH].
  by apply pairs_with_key_in.
Qed.

Lemma pairs_with_values key ids entries e v :
  length entries = length ids ->
  In e entries -> entry_get key e = Some v ->
  In v (map snd (pairs_with key (zip ids entries))).
Proof.
  revert entries. induction ids as [|r ids IH]; intros [|e0 entries]; try done.
  cbn [length]. intros [= Hlen] [->|Hin] Hv; rewrite pairs_with_cons.
  - rewrite Hv. by left.
  - destruct (entry_get key e0); [right|]; by apply IH.
Qed.

(** The pairs are those of a recipient and the entry at its position. *)
Lemma pairs_with_In key ids entries r v :
  In (r, v) (pairs_with key (zip ids entries)) <->
  exists i e, ids !! i = Some r /\ entries !! i = Some e /\
              entry_get key e = Some v.
Proof.
  revert entries. induction ids as [|r0 ids IH]; intros [|e0 entries].
  - split; [done|]. by intros (i & e & Hi & _).
  - split; [done|]. by intros (i & e & Hi & _).
  - split; [done|]. intros (i & e & _ & Hi & _). by destruct i.
  - rewrite pairs_with_cons. split.
    + destruct (entry_get key e0) eqn:He0.
      * intros [[= <- <-]|Hin].
        -- by exists 0%nat, e0.
        -- apply IH in Hin as (i & e & Hi & He & Hv). by exists (S i), e.
      * intros Hin. apply IH in Hin as (i & e & Hi & He & Hv).
        by exists (S i), e.
    + intros ([|i] & e & Hi & He & Hv); cbn in Hi, He.
      * injection Hi as ->. injection He as ->. rewrite Hv. by left.
      * assert (In (r, v) (pairs_with key (zip ids entries)))
          by (apply IH; by exists i, e).
        destruct (entry_get key e0); [by right|done].
Qed.

Lemma dict_lookup_not_in k d :
  key_in k (map fst d) = false -> dict_lookup k d = None.
Proof.
  induction d as [|[k0 v0] d IH]; [done|].
  cbn [map fst]. rewrite key_in_cons. intros [E Hd]%orb_false_iff.
  cbn. rewrite E. by apply IH.
Qed.

(** Equal recipients of a sequence without repetition sit at one
    position. *)
Lemma distinct_lookup_inj ids i j r :
  distinct_keys ids -> forallb hashable ids = true ->
  ids !! i = Some r -> ids !! j = Some r -> i = j.
Proof.
  revert i j. induction ids as [|x ids IH]; intros i j; [done|].
  cbn [distinct_keys forallb]. intros [Hx Hd] [Hhx Hh]%andb_prop.
  assert (Hnot : forall n, ids !! n = Some x -> False).
  { intros n Hn. apply list_elem_of_lookup_2, list_elem_of_In in Hn.
    rewrite (key_in_self x ids Hh Hn) in Hx. done. }
  destruct i as [|i], j as [|j]; cbn; try done.
  - intros [= ->] Hj. by destruct (Hnot j).
  - intros Hi [= ->]. by destruct (Hnot i).
  - intros Hi Hj. f_equal. by apply IH.
Qed.

(** With recipients that are all different, a recipient is bound to what
    the entry at its position carries. *)
Lemma dict_lookup_pairs_with key ids entries i r :
  distinct_keys ids -> forallb hashable ids = true ->
  ids !! i = Some r ->
  dict_lookup r (pairs_with key (zip ids entries)) =
    entries !! i ≫= entry_get key.
Proof.
  revert entries i. induction ids as [|r0 ids IH]; intros entries i; [done|].
  cbn [distinct_keys forallb]. intros [Hr0 Hd] [Hh0 Hh]%andb_prop Hi.
  destruct entries as [|e0 entries]; [by destruct i|].
  rewrite pairs_with_cons. destruct i as [|i]; cbn in Hi.
  - injection Hi as ->. change ((e0 :: entries) !! 0%nat) with (Some e0).
    cbn [mbind option_bind].
    destruct (entry_get key e0) as [v|] eqn:He0; cbn.
    + by rewrite key_eqb_refl.
    + apply dict_lookup_not_in. by apply pairs_with_key_in.
  - change ((e0 :: entries) !! S i) with (entries !! i).
    rewrite <- (IH entries i Hd Hh Hi).
    destruct (entry_get key e0) as [v|]; [|done]. cbn.
    assert (key_eqb r0 r = false) as ->; [|done].
    rewrite key_eqb_sym.
    apply (proj1 (key_in_false r0 ids) Hr0).
    by apply list_elem_of_lookup_2, list_elem_of_In in Hi.
Qed.

Lemma first_seen_In l r : In r (first_seen l) -> In r l.
Proof.
  induction l as [|x l IH]; [done|]. cbn.
  intros [->|Hin]; [by left|]. right. apply IH.
  by apply filter_In in Hin as [Hin _].
Qed.

(** Every hashable value of a sequence has an equal one among those seen
    first. *)
Lemma first_seen_covers l r :
  In r l -> hashable r = true ->
  exists r', In r' (first_seen l) /\ key_eqb r' r = true.
Proof.
  induction l as [|x l IH]; [done|]. intros [->|Hin] Hh.
  - exists r. split; [by left|by apply key_eqb_refl].
  - destruct (IH Hin Hh) as (r' & Hr' & Heq).
    destruct (key_eqb x r) eqn:Hx.
    + exists x. split; [by left|done].
    + exists r'. split; [|done]. right. apply filter_In. split; [done|].
      destruct (key_eqb x r') eqn:Hx'; [|done].
      by rewrite (key_eqb_trans x r' r Hx' Heq) in Hx.
Qed.

Lemma recipients_with_In reason pairs r :
  In r (recipients_with reason pairs) <->
  exists v, In (r, v) pairs /\ key_eqb reason v = true.
Proof.
  unfold recipients_with. rewrite in_map_iff. split.
  - intros ([r0 v] & <- & [Hin Heq]%filter_In). by exists v.
  - intros (v & Hin & Heq). exists (r, v). split; [done|].
    by apply filter_In.
Qed.

Lemma group_lookup_or_None name (result : gmap string Group) d r :
  result !! name = or_None (Mapping d) ->
  group_lookup name result r = dict_lookup r d.
Proof.
  intros Hres. unfold group_lookup. rewrite Hres. by destruct d.
Qed.


(** A binding of a dictionary comes from one of its pairs. *)
Lemma dict_lookup_In r d v :
  dict_lookup r d = Some v ->
  exists r0, In (r0, v) d /\ key_eqb r0 r = true.
Proof.
  induction d as [|[k0 v0] d IH]; [done|]. cbn.
  destruct (key_eqb k0 r) eqn:E.
  - intros [= ->]. exists k0. split; [by left|done].
  - intros (r0 & Hin & Heq)%IH. exists r0. split; [by right|done].
Qed.

(** The groups of [grouped] are those of the reasons; a recipient is in the
    group of a reason exactly when one of its pairs has an equal reason. *)
Lemma grouped_In pairs reason rs :
  In (reason, rs) (grouped pairs) <->
  In reason (first_seen (map snd pairs)) /\
  rs = recipients_with reason pairs.
Proof.
  unfold grouped. rewrite in_map_iff. split.
  - by intros (r & [= <- <-] & Hin).
  - intros [Hin ->]. by exists reason.
Qed.

Lemma or_None_Items_In groups (p : PyVal * list PyVal) :
  In p groups -> or_None (Items groups) = Some (Items groups).
Proof. by destruct groups. Qed.

Lemma or_None_Some g g' : or_None g = Some g' -> g' = g.
Proof.
  unfold or_None. destruct (group_nonempty g); [|done]. by intros [= <-].
Qed.

Lemma dict_lookup_app k d1 d2 :
  dict_lookup k (d1 ++ d2) =
  match dict_lookup k d1 with
  | Some v => Some v
  | None => dict_lookup k d2
  end.
Proof.
  induction d1 as [|[k0 v0] d1 IH]; [done|].
  cbn. by destruct (key_eqb k0 k).
Qed.

Lemma dict_writes_lookup k pairs : forall acc,
  dict_lookup k (dict_writes pairs acc) =
  match dict_lookup k (rev pairs) with
  | Some v => Some v
  | None => dict_lookup k acc
  end.
Proof.
  induction pairs as [|[k0 v0] pairs IH]; intros acc; [done|].
  cbn [dict_writes foldl fst snd rev].
  fold (dict_writes pairs (dict_set k0 v0 acc)).
  rewrite IH, dict_lookup_app, dict_lookup_set.
  destruct (dict_lookup k (rev pairs)); [done|]. cbn.
  by destruct (key_eqb k0 k).
Qed.

Lemma groupResponseResult_no_entries `{KeyOrder} other ids key :
  groupResponseResult (response_of other []) (VList ids) key = Return None.
Proof.
  rewrite groupResponseResult_lists.
  replace (zip ids []) with (@nil (PyVal * PyVal)) by (by destruct ids).
  cbn. by case_bool_decide.
Qed.

Lemma or_None_bound r succ :
  is_Some (dict_lookup r succ) ->
  or_None (Mapping succ) = Some (Mapping succ).
Proof. destruct succ; [by intros [? [=]]|done]. Qed.

Lemma success_only_parts entries :
  forallb success_only entries = true ->
  forallb is_dict entries = true /\
  forallb (carries "message_id") entries = true /\
  forallb (fun e => negb (carries "error" e)) entries = true /\
  forallb (fun e => negb (carries "registration_id" e)) entries = true.
Proof.
  rewrite !forallb_forall. intros Hall.
  repeat split; intros e He; specialize (Hall e He); unfold success_only in Hall;
    repeat (apply andb_prop in Hall as [Hall ?]); done.
Qed.

(** C5: when the results are as many as the recipients and every entry
    carries a [message_id] and neither [error] nor [registration_id], the
    reconciled result has no [errors] key and no [canonical] key, and its
    [success] mapping binds every recipient (it is the list of the pairs
    recipient, message id when the recipients are all different). In
    general, a key of the reconciled result is one of [errors],
    [canonical] and [success], and is bound to a group that is not empty. *)
Theorem reconcile_all_success `{KeyOrder} :
  (forall (kwargs other : gmap string PyVal) (ids entries : list PyVal),
     kwargs !! "registration_ids" = Some (VList ids) ->
     forallb hashable ids = true ->
     length entries = length ids ->
     forallb success_only entries = true ->
     exists result,
       handleJSONResponse (response_of other entries) kwargs = Return result /\
       result !! "errors" = None /\
       result !! "canonical" = None /\
       (forall r, In r ids ->
          exists succ, result !! "success" = Some (Mapping succ) /\
                       is_Some (dict_lookup r succ)) /\
       (distinct_keys ids -> ids ≠ [] ->
          result !! "success" =
            Some (Mapping (pairs_with "message_id" (zip ids entries))))) /\
  (forall response (kwargs : gmap string PyVal) result name g,
     handleJSONResponse response kwargs = Return result ->
     result !! name = Some g ->
     group_nonempty g = true /\ name ∈ ["errors"; "canonical"; "success"]).
Proof.
  split.
  - intros kwargs other ids entries Hids Hh Hlen Hall.
    apply success_only_parts in Hall as (Hd & Hmsg & Herr & Hreg).
    rewrite handleJSONResponse_unfold.
    destruct (decide (ids = [])) as [->|Hne].
    { destruct entries; [|done].
      assert (exists l, recipients kwargs = VList l) as [l ->].
      { unfold recipients, dict_get. rewrite Hids.
        destruct (truthy _ && _); eauto. }
      rewrite !groupResponseResult_no_entries. eexists.
      split; [reflexivity|]. by repeat split. }
    rewrite (recipients_list kwargs ids) by done.
    rewrite groupResponseResult_error;
      [|done|by rewrite pairs_with_none].
    rewrite !groupResponseResult_mapping by first [done | repeat constructor].
    rewrite (pairs_with_none "error"), (pairs_with_none "registration_id")
      by done.
    set (pairs := pairs_with "message_id" (zip ids entries)).
    assert (Hkeys : map fst pairs = ids) by (by apply pairs_with_all).
    assert (Hcover : forall r, In r ids ->
              is_Some (dict_lookup r (dict_writes pairs []))).
    { intros r Hr. apply dict_writes_covers. right.
      rewrite Hkeys. by apply key_in_self. }
    eexists. split; [reflexivity|].
    destruct (assemble_lookup (or_None (Items (grouped [])))
                (or_None (Mapping (dict_writes [] [])))
                (or_None (Mapping (dict_writes pairs []))))
      as (He & Hc & Hs & _).
    rewrite He, Hc, Hs, !kept_or_None. repeat split.
    + intros r Hr. specialize (Hcover r Hr). eexists.
      split; [|exact Hcover]. by apply (or_None_bound r).
    + intros Hdist Hne'.
      rewrite dict_writes_distinct by (cbn [app]; by rewrite Hkeys).
      cbn [app]. destruct pairs; [|done]. by destruct ids.
  - intros response kwargs result name g.
    rewrite handleJSONResponse_unfold.
    destruct (groupResponseResult _ _ "error") as [errors|]; [|done].
    destruct (groupResponseResult _ _ "registration_id") as [canonical|];
      [|done].
    destruct (groupResponseResult _ _ "message_id") as [success|]; [|done].
    cbn. intros [= <-] Hname.
    destruct (assemble_lookup errors canonical success)
      as (He & Hc & Hs & Hother).
    destruct (decide (name ∈ ["errors"; "canonical"; "success"]))
      as [Hin|Hout]; [|by rewrite Hother in Hname].
    split; [|done].
    repeat (apply elem_of_cons in Hin as [->|Hin]).
    + rewrite He in Hname. by apply kept_nonempty in Hname.
    + rewrite Hc in Hname. by apply kept_nonempty in Hname.
    + rewrite Hs in Hname. by apply kept_nonempty in Hname.
    + by apply elem_of_nil in Hin.
Qed.

Lemma reconcile_all_success_witness :
  exists result,
    handleJSONResponse
      (response_of ∅ [VDict {[ "message_id" := VStr "0:a" ]};
                      VDict {[ "message_id" := VStr "0:b" ]}])
      {[ "registration_ids" := VList [VStr "R1"; VStr "R2"] ]} =
      Return result /\
    result !! "errors" = None /\
    result !! "canonical" = None /\
    result !! "success" =
      Some (Mapping [(VStr "R1", VStr "0:a"); (VStr "R2", VStr "0:b")]).
Proof.
  destruct (proj1 reconcile_all_success
              {[ "registration_ids" := VList [VStr "R1"; VStr "R2"] ]} ∅
              [VStr "R1"; VStr "R2"]
              [VDict {[ "message_id" := VStr "0:a" ]};
               VDict {[ "message_id" := VStr "0:b" ]}])
    as (result & Hres & He & Hc & _ & Hs); try reflexivity.
  exists result. split; [exact Hres|]. split; [exact He|].
  split; [exact Hc|]. apply Hs; [|discriminate].
  cbn. repeat split; reflexivity.
Defined.

(** C4, as amended: with recipients A, B, C and results that carry the
    reason "NotRegistered" for A and for C and a [message_id] for B, the
    reconciled result binds [errors] to the items of the grouping by
    reason, the sequence whose one pair is ("NotRegistered", [A; C]), and
    [success] to the dictionary that maps B to its message id. In general
    the pairs of ['error'] are: one per reason, in the order in which the
    reasons are first seen, each holding the recipients that have this
    reason, in the order of the recipient sequence. *)
Theorem reconcile_errors_grouped `{KeyOrder} :
  (forall (kwargs other rA rB rC : gmap string PyVal) (A B C m : PyVal),
     kwargs !! "registration_ids" = Some (VList [A; B; C]) ->
     forallb hashable [A; B; C] = true ->
     rA !! "error" = Some (VStr "NotRegistered") ->
     rA !! "message_id" = None ->
     rB !! "error" = None ->
     rB !! "message_id" = Some m ->
     rC !! "error" = Some (VStr "NotRegistered") ->
     rC !! "message_id" = None ->
     exists result,
       handleJSONResponse
         (response_of other [VDict rA; VDict rB; VDict rC]) kwargs =
         Return result /\
       result !! "errors" =
         Some (Items [(VStr "NotRegistered", [A; C])]) /\
       result !! "success" = Some (Mapping [(B, m)])) /\
  (forall (other : gmap string PyVal) (ids entries : list PyVal),
     forallb entry_ok entries = true ->
     let pairs := pairs_with "error" (zip ids entries) in
     exists groups,
       groupResponseResult (response_of other entries) (VList ids) "error" =
         Return (or_None (Items groups)) /\
       map fst groups = first_seen (map snd pairs) /\
       forall reason rs, In (reason, rs) groups ->
         rs = recipients_with reason pairs).
Proof.
  split.
  - intros kwargs other rA rB rC A B C m Hids Hh HA HAm HB HBm HC HCm.
    rewrite handleJSONResponse_unfold.
    rewrite (recipients_list kwargs [A; B; C]) by done.
    assert (Herr : pairs_with "error"
                     (zip [A; B; C] [VDict rA; VDict rB; VDict rC]) =
                   [(A, VStr "NotRegistered"); (C, VStr "NotRegistered")]).
    { unfold pairs_with. cbn. by rewrite HA, HB, HC. }
    assert (Hmsg : pairs_with "message_id"
                     (zip [A; B; C] [VDict rA; VDict rB; VDict rC]) =
                   [(B, m)]).
    { unfold pairs_with. cbn. by rewrite HAm, HBm, HCm. }
    rewrite groupResponseResult_error; [|done|by rewrite Herr].
    rewrite !groupResponseResult_mapping by first [done | repeat constructor].
    rewrite Herr, Hmsg. eexists. split; [reflexivity|].
    match goal with
    | |- context [assemble ?e ?c ?s] =>
        destruct (assemble_lookup e c s) as (He & _ & Hs & _)
    end.
    by rewrite He, Hs, !kept_or_None.
  - intros other ids entries Hok pairs. exists (grouped pairs). split; [|split].
    + apply groupResponseResult_error.
      * by apply entry_ok_is_dict.
      * by apply pairs_with_error_hashable.
    + unfold grouped. rewrite map_map. cbn. apply List.map_id.
    + unfold grouped. intros reason rs Hin.
      apply in_map_iff in Hin as (r & [= <- <-] & _). done.
Qed.

Lemma reconcile_errors_grouped_witness :
  (exists result,
     handleJSONResponse
       (response_of ∅
          [VDict {[ "error" := VStr "NotRegistered" ]};
           VDict {[ "message_id" := VStr "0:b" ]};
           VDict {[ "error" := VStr "NotRegistered" ]}])
       {[ "registration_ids" := VList [VStr "A"; VStr "B"; VStr "C"] ]} =
       Return result /\
     result !! "errors" =
       Some (Items [(VStr "NotRegistered", [VStr "A"; VStr "C"])]) /\
     result !! "success" = Some (Mapping [(VStr "B", VStr "0:b")])) /\
  groupResponseResult
    (response_of ∅
       [VDict {[ "error" := VStr "Unavailable" ]};
        VDict {[ "error" := VStr "NotRegistered" ]};
        VDict {[ "message_id" := VStr "0:c" ]};
        VDict {[ "error" := VStr "Unavailable" ]}])
    (VList [VStr "A"; VStr "B"; VStr "C"; VStr "D"]) "error" =
    Return (Some (Items [(VStr "Unavailable", [VStr "A"; VStr "D"]);
                         (VStr "NotRegistered", [VStr "B"])])).
Proof.
  split.
  - apply (proj1 reconcile_errors_grouped
             {[ "registration_ids" := VList [VStr "A"; VStr "B"; VStr "C"] ]}
             ∅ {[ "error" := VStr "NotRegistered" ]}
             {[ "message_id" := VStr "0:b" ]}
             {[ "error" := VStr "NotRegistered" ]}); reflexivity.
  - destruct (proj2 reconcile_errors_grouped ∅
                [VStr "A"; VStr "B"; VStr "C"; VStr "D"]
                [VDict {[ "error" := VStr "Unavailable" ]};
                 VDict {[ "error" := VStr "NotRegistered" ]};
                 VDict {[ "message_id" := VStr "0:c" ]};
                 VDict {[ "error" := VStr "Unavailable" ]}])
      as (groups & -> & Hkeys & Hgroups); [reflexivity|].
    vm_compute in Hkeys.
    destruct groups as [|[r1 g1] [|[r2 g2] [|]]]; try discriminate Hkeys.
    injection Hkeys as Hr1 Hr2. subst r1 r2.
    rewrite (Hgroups _ g1) by (left; reflexivity).
    rewrite (Hgroups _ g2) by (right; left; reflexivity).
    reflexivity.
Defined.

(** C4, as stated, fails: at the recipients A, B, C of the claim the
    [errors] of the reconciled result are what [grouping.items()] returns,
    a sequence of pairs, and no dictionary: neither the dictionary that
    maps "NotRegistered" to the list [A, C] nor any other. *)
Lemma reconcile_errors_not_a_mapping :
  exists result,
    handleJSONResponse
      (response_of ∅
         [VDict {[ "error" := VStr "NotRegistered" ]};
          VDict {[ "message_id" := VStr "0:b" ]};
          VDict {[ "error" := VStr "NotRegistered" ]}])
      {[ "registration_ids" := VList [VStr "A"; VStr "B"; VStr "C"] ]} =
      Return result /\
    result !! "errors" =
      Some (Items [(VStr "NotRegistered", [VStr "A"; VStr "C"])]) /\
    result !! "errors" <>
      Some (Mapping [(VStr "NotRegistered", VList [VStr "A"; VStr "C"])]) /\
    forall d, result !! "errors" <> Some (Mapping d).
Proof.
  exists {[ "errors" := Items [(VStr "NotRegistered", [VStr "A"; VStr "C"])];
            "success" := Mapping [(VStr "B", VStr "0:b")] ]}.
  split; [vm_compute; reflexivity|].
  assert (Herr : ({[ "errors" :=
                       Items [(VStr "NotRegistered", [VStr "A"; VStr "C"])];
                     "success" := Mapping [(VStr "B", VStr "0:b")] ]}
                  : gmap string Group) !! "errors" =
                 Some (Items [(VStr "NotRegistered", [VStr "A"; VStr "C"])]))
    by reflexivity.
  rewrite Herr. split; [done|]. split; [discriminate|]. intros d. discriminate.
Qed.
(** C6: the recipients and the result entries are paired by position up
    to the length of the shorter sequence.  Whatever the two lengths, and
    in particular when they differ, each grouping, and the whole reconciled
    result of a send addressed by [registration_ids], is the one obtained
    from the two sequences cut to that length; no error is raised on
    account of the lengths: with hashable recipients and well-formed
    entries the reconciliation returns a result.  The pairing is the one by
    position. A recipient is listed under a reason exactly when it stands
    at a position whose entry carries an equal reason. Every binding of
    [success] and of [canonical] comes from a recipient and the entry at
    one same position, and every recipient whose entry carries the value is
    bound. With recipients that are all different, the recipient at
    position [i] is bound to what the entry at position [i] carries, and to
    nothing when that entry carries none or when there is no entry at this
    position. So a recipient without an entry at its position and an entry
    without a recipient at its position leave no trace in the result. *)
Theorem reconcile_truncates `{KeyOrder} :
  (forall (other : gmap string PyVal) (ids entries : list PyVal) key,
     let n := min (length ids) (length entries) in
     groupResponseResult (response_of other entries) (VList ids) key =
     groupResponseResult (response_of other (take n entries))
       (VList (take n ids)) key) /\
  (forall (kwargs other : gmap string PyVal) (ids entries : list PyVal),
     kwargs !! "registration_ids" = Some (VList ids) ->
     kwargs !! "to" = None ->
     let n := min (length ids) (length entries) in
     handleJSONResponse (response_of other entries) kwargs =
     handleJSONResponse (response_of other (take n entries))
       (<["registration_ids" := VList (take n ids)]> kwargs)) /\
  (forall (kwargs other : gmap string PyVal) (ids entries : list PyVal),
     kwargs !! "registration_ids" = Some (VList ids) ->
     kwargs !! "to" = None ->
     forallb hashable ids = true ->
     forallb entry_ok entries = true ->
     exists result,
       handleJSONResponse (response_of other entries) kwargs =
         Return result) /\
  (forall (kwargs other : gmap string PyVal) (ids entries : list PyVal),
     kwargs !! "registration_ids" = Some (VList ids) ->
     kwargs !! "to" = None ->
     forallb hashable ids = true ->
     forallb entry_ok entries = true ->
     exists result,
       handleJSONResponse (response_of other entries) kwargs =
         Return result /\
       (forall r reason,
          in_error_group result r reason <->
          exists i e reason0,
            ids !! i = Some r /\ entries !! i = Some e /\
            entry_get "error" e = Some reason0 /\
            key_eqb reason0 reason = true) /\
       forall name key,
         (name, key) ∈ [("success", "message_id");
                        ("canonical", "registration_id")] ->
         (forall r v, group_lookup name result r = Some v ->
            exists i r0 e,
              ids !! i = Some r0 /\ key_eqb r0 r = true /\
              entries !! i = Some e /\ entry_get key e = Some v) /\
         (forall i r e v,
            ids !! i = Some r -> entries !! i = Some e ->
            entry_get key e = Some v ->
            is_Some (group_lookup name result r)) /\
         (distinct_keys ids ->
          forall i r, ids !! i = Some r ->
            group_lookup name result r = entries !! i ≫= entry_get key)).
Proof.
  assert (Hgroup : forall (other : gmap string PyVal) ids entries key,
    groupResponseResult (response_of other entries) (VList ids) key =
    groupResponseResult
      (response_of other (take (min (length ids) (length entries)) entries))
      (VList (take (min (length ids) (length entries)) ids)) key).
  { intros other ids entries key. rewrite !groupResponseResult_lists.
    by rewrite (zip_truncate ids entries) at 1. }
  split; [exact Hgroup|split; [|split]].
  - intros kwargs other ids entries Hids Hto n.
    rewrite !handleJSONResponse_unfold.
    rewrite (recipients_given kwargs (VList ids)) by done.
    rewrite (recipients_given _ (VList (take n ids)))
      by (by rewrite ?lookup_insert_eq, ?lookup_insert_ne).
    by rewrite !(Hgroup other ids entries).
  - intros kwargs other ids entries Hids Hto Hh Hok.
    rewrite handleJSONResponse_unfold.
    rewrite (recipients_given kwargs (VList ids)) by done.
    rewrite groupResponseResult_error
      by auto using entry_ok_is_dict, pairs_with_error_hashable.
    rewrite !groupResponseResult_mapping
      by first [done | by apply entry_ok_is_dict | repeat constructor].
    by eexists.
  - intros kwargs other ids entries Hids Hto Hh Hok.
    rewrite handleJSONResponse_unfold.
    rewrite (recipients_given kwargs (VList ids)) by done.
    set (pairs := pairs_with "error" (zip ids entries)).
    assert (Hhash : forallb hashable (map snd pairs) = true)
      by (by apply pairs_with_error_hashable).
    rewrite groupResponseResult_error by auto using entry_ok_is_dict.
    rewrite !groupResponseResult_mapping
      by first [done | by apply entry_ok_is_dict | repeat constructor].
    fold pairs. eexists. split; [reflexivity|].
    match goal with
    | |- context [assemble ?e ?c ?s] =>
        destruct (assemble_lookup e c s) as (He & Hc & Hs & _);
        set (result := assemble e c s) in *
    end.
    rewrite kept_or_None in He, Hc, Hs. split.
    + intros r reason. split.
      * intros (groups & reason' & rs & Hg & Hin & Heq & Hr).
        rewrite He in Hg. apply or_None_Some in Hg as [= ->].
        apply grouped_In in Hin as [_ ->].
        apply recipients_with_In in Hr as (v & Hv & Hrv).
        apply pairs_with_In in Hv as (i & e & Hi & He' & Hget).
        exists i, e, v. repeat split; try done.
        apply (key_eqb_trans v reason' reason); [|done].
        by rewrite key_eqb_sym.
      * intros (i & e & reason0 & Hi & He' & Hget & Heq).
        assert (Hpair : In (r, reason0) pairs)
          by (apply pairs_with_In; by exists i, e).
        assert (Hr0 : In reason0 (map snd pairs))
          by (apply in_map_iff; by exists (r, reason0)).
        destruct (first_seen_covers (map snd pairs) reason0 Hr0)
          as (reason' & Hin' & Heq').
        { by apply (proj1 (forallb_forall _ _) Hhash). }
        assert (Hgin : In (reason', recipients_with reason' pairs)
                         (grouped pairs)) by (by apply grouped_In).
        exists (grouped pairs), reason', (recipients_with reason' pairs).
        repeat split.
        -- rewrite He. by apply (or_None_Items_In _ _ Hgin).
        -- done.
        -- by apply (key_eqb_trans reason' reason0 reason).
        -- apply recipients_with_In. by exists reason0.
    + assert (Hmap : forall name key,
        result !! name =
          or_None (Mapping
            (dict_writes (pairs_with key (zip ids entries)) [])) ->
        (forall r v, group_lookup name result r = Some v ->
           exists i r0 e,
             ids !! i = Some r0 /\ key_eqb r0 r = true /\
             entries !! i = Some e /\ entry_get key e = Some v) /\
        (forall i r e v,
           ids !! i = Some r -> entries !! i = Some e ->
           entry_get key e = Some v ->
           is_Some (group_lookup name result r)) /\
        (distinct_keys ids ->
         forall i r, ids !! i = Some r ->
           group_lookup name result r = entries !! i ≫= entry_get key)).
      { intros name key Hname. split; [|split].
        - intros r v Hl. rewrite (group_lookup_or_None _ _ _ _ Hname) in Hl.
          rewrite dict_writes_lookup in Hl.
          destruct (dict_lookup r (rev (pairs_with key (zip ids entries))))
            as [v0|] eqn:Hrev; [|done].
          injection Hl as ->.
          apply dict_lookup_In in Hrev as (r0 & Hin & Heq).
          apply in_rev, pairs_with_In in Hin as (i & e & Hi & He' & Hget).
          by exists i, r0, e.
        - intros i r e v Hi He' Hget.
          rewrite (group_lookup_or_None _ _ _ _ Hname).
          apply dict_writes_covers. right.
          apply key_in_self; [by apply pairs_with_hashable_keys|].
          apply in_map_iff. exists (r, v). split; [done|].
          apply pairs_with_In. by exists i, e.
        - intros Hd i r Hi. rewrite (group_lookup_or_None _ _ _ _ Hname).
          rewrite dict_writes_distinct by (by apply pairs_with_distinct).
          by apply dict_lookup_pairs_with. }
      intros name key Hin.
      apply elem_of_cons in Hin as [[= -> ->]|Hin]; [by apply Hmap|].
      apply elem_of_cons in Hin as [[= -> ->]|Hin]; [by apply Hmap|].
      by apply elem_of_nil in Hin.
Qed.

Lemma reconcile_truncates_witness :
  handleJSONResponse
    (response_of ∅ [VDict {[ "message_id" := VStr "0:a" ]};
                    VDict {[ "message_id" := VStr "0:b" ]}])
    {[ "registration_ids" := VList [VStr "R1"; VStr "R2"; VStr "R3"] ]} =
  Return {[ "success" := Mapping [(VStr "R1", VStr "0:a");
                                  (VStr "R2", VStr "0:b")] ]} /\
  handleJSONResponse
    (response_of ∅ [VDict {[ "message_id" := VStr "0:a" ]};
                    VDict {[ "error" := VStr "NotRegistered" ]}])
    {[ "registration_ids" := VList [VStr "R1"] ]} =
  Return {[ "success" := Mapping [(VStr "R1", VStr "0:a")] ]} /\
  (exists result,
     handleJSONResponse
       (response_of ∅ [VDict {[ "error" := VStr "NotRegistered" ]}])
       {[ "registration_ids" := VList [VStr "R1"; VStr "R2"] ]} =
     Return result) /\
  exists result,
    handleJSONResponse
      (response_of ∅ [VDict {[ "message_id" := VStr "0:a" ]};
                      VDict {[ "error" := VStr "NotRegistered" ]};
                      VDict {[ "message_id" := VStr "0:c";
                               "registration_id" := VStr "N3" ]}])
      {[ "registration_ids" :=
           VList [VStr "R1"; VStr "R2"; VStr "R3"; VStr "R4"] ]} =
    Return result /\
    group_lookup "success" result (VStr "R1") = Some (VStr "0:a") /\
    group_lookup "success" result (VStr "R2") = None /\
    group_lookup "success" result (VStr "R3") = Some (VStr "0:c") /\
    group_lookup "success" result (VStr "R4") = None /\
    group_lookup "canonical" result (VStr "R1") = None /\
    group_lookup "canonical" result (VStr "R3") = Some (VStr "N3") /\
    in_error_group result (VStr "R2") (VStr "NotRegistered") /\
    ~ in_error_group result (VStr "R1") (VStr "NotRegistered") /\
    ~ in_error_group result (VStr "R4") (VStr "NotRegistered").
Proof.
  split; [|split; [|split]].
  - rewrite (proj1 (proj2 reconcile_truncates)
               {[ "registration_ids" := VList [VStr "R1"; VStr "R2"; VStr "R3"] ]}
               ∅ [VStr "R1"; VStr "R2"; VStr "R3"]
               [VDict {[ "message_id" := VStr "0:a" ]};
                VDict {[ "message_id" := VStr "0:b" ]}]); reflexivity.
  - rewrite (proj1 (proj2 reconcile_truncates)
               {[ "registration_ids" := VList [VStr "R1"] ]}
               ∅ [VStr "R1"]
               [VDict {[ "message_id" := VStr "0:a" ]};
                VDict {[ "error" := VStr "NotRegistered" ]}]); reflexivity.
  - apply (proj1 (proj2 (proj2 reconcile_truncates))
             {[ "registration_ids" := VList [VStr "R1"; VStr "R2"] ]}
             ∅ [VStr "R1"; VStr "R2"]); reflexivity.
  - destruct (proj2 (proj2 (proj2 reconcile_truncates))
                {[ "registration_ids" :=
                     VList [VStr "R1"; VStr "R2"; VStr "R3"; VStr "R4"] ]}
                ∅ [VStr "R1"; VStr "R2"; VStr "R3"; VStr "R4"]
                [VDict {[ "message_id" := VStr "0:a" ]};
                 VDict {[ "error" := VStr "NotRegistered" ]};
                 VDict {[ "message_id" := VStr "0:c";
                          "registration_id" := VStr "N3" ]}])
      as (result & Hres & Herr & Hmap);
      [reflexivity|reflexivity|reflexivity|reflexivity|].
    exists result. split; [exact Hres|].
    destruct (Hmap "success" "message_id") as (_ & _ & Hs);
      [repeat constructor|].
    destruct (Hmap "canonical" "registration_id") as (_ & _ & Hc);
      [repeat constructor|].
    assert (Hd : distinct_keys [VStr "R1"; VStr "R2"; VStr "R3"; VStr "R4"])
      by (cbn; by repeat split).
    repeat split.
    + exact (Hs Hd 0%nat (VStr "R1") eq_refl).
    + exact (Hs Hd 1%nat (VStr "R2") eq_refl).
    + exact (Hs Hd 2%nat (VStr "R3") eq_refl).
    + exact (Hs Hd 3%nat (VStr "R4") eq_refl).
    + exact (Hc Hd 0%nat (VStr "R1") eq_refl).
    + exact (Hc Hd 2%nat (VStr "R3") eq_refl).
    + apply Herr. exists 1%nat, (VDict {[ "error" := VStr "NotRegistered" ]}),
        (VStr "NotRegistered"). by repeat split.
    + intros (i & e & reason0 & Hi & He & Hget & _)%Herr.
      destruct i as [|[|[|[|i]]]]; try discriminate Hi.
      injection He as <-. discriminate Hget.
    + intros (i & e & reason0 & Hi & He & Hget & _)%Herr.
      destruct i as [|[|[|[|i]]]]; try discriminate Hi.
      discriminate He.
Defined.

(** ** Sends without recipients *)

Lemma groupResponseResult_no_recipients `{KeyOrder} response key :
  exists e,
    groupResponseResult response VNone key = Raise e /\
    (e = TypeError \/ e = KeyError "results").
Proof.
  unfold groupResponseResult, getitem.
  destruct response as [| | | | |d]; try (by eexists; split; eauto).
  destruct (d !! "results"); by eexists; split; eauto.
Qed.

Section NoRecipients.

Variable dumps : PyVal -> string.
Variable loads : string -> option PyVal.

Lemma createPayLoad_error_builtin (kwargs : gmap string PyVal) e :
  kwargs !! "registration_ids" = None ->
  createPayLoad dumps kwargs = Raise e -> class_of e = Builtin.
Proof.
  intros Hreg.
  assert (Hval : validate (delete "is_json" kwargs) = Return tt).
  { rewrite validate_spec, lookup_delete_ne by done. by rewrite Hreg. }
  destruct (truthy (dict_get "is_json" (VBool true) kwargs)) eqn:Hj.
  - by rewrite createPayLoad_json, Hval.
  - rewrite createPayLoad_plain, Hval, PlainTextPayload_body_spec by done.
    cbn. destruct (delete "is_json" kwargs !! "registration_ids");
      destruct (_ !! "data") as [[]|]; intros [= <-]; done.
Qed.

Lemma makeRequest_200_json self payload response j w :
  status_code response = 200 ->
  loads (content response) = Some j ->
  exists w',
    makeRequest (fun _ => response) loads self payload true w =
      (Return j, w') /\
    length (posted w') = S (length (posted w)).
Proof.
  intros Hs Hj. unfold makeRequest, mbind, Py_bind, requests_post, log.
  cbn -[String.append]. rewrite Hs. cbn -[String.append].
  unfold response_json. rewrite Hj.
  destruct (logger self); cbn; eexists; (split; [reflexivity|]);
    cbn; rewrite length_app; cbn; lia.
Qed.

Lemma handleJSONResponse_no_recipients `{KeyOrder}
    (kwargs : gmap string PyVal) j :
  kwargs !! "to" = None -> kwargs !! "registration_ids" = None ->
  exists e, handleJSONResponse j kwargs = Raise e /\
            (e = TypeError \/ e = KeyError "results").
Proof.
  intros Hto Hreg. rewrite handleJSONResponse_unfold.
  rewrite (recipients_no_to kwargs Hto). unfold dict_get.
  rewrite Hreg. change (default VNone None) with VNone.
  destruct (groupResponseResult_no_recipients j "error") as (e & He & Hk).
  exists e. split; [|done]. by rewrite He.
Qed.

(** With no recipients to pair, the groups are all empty. *)
Lemma handleJSONResponse_empty_list `{KeyOrder}
    (kwargs other : gmap string PyVal)
    entries :
  kwargs !! "registration_ids" = Some (VList []) ->
  truthy (dict_get "to" VNone kwargs) = false ->
  handleJSONResponse (response_of other entries) kwargs = Return ∅.
Proof.
  intros Hreg Hto. rewrite handleJSONResponse_unfold.
  assert (recipients kwargs = VList []) as ->.
  { unfold recipients. rewrite Hto. unfold dict_get. by rewrite Hreg. }
  rewrite !groupResponseResult_lists. cbn. reflexivity.
Qed.

(** The outcome of [sendData] once the payload is built and the answer
    has status 200 and decodes. *)
Lemma sendData_200_run `{KeyOrder}
    self (kwargs : gmap string PyVal) payload response
    j w :
  createPayLoad dumps kwargs = Return payload ->
  status_code response = 200 ->
  loads (content response) = Some j ->
  exists w',
    sendData (fun _ => response) dumps loads self kwargs w =
      (if bool_decide (is_Some (kwargs !! "response")) then Raise TypeError
       else handleJSONResponse j kwargs, w') /\
    length (posted w') = S (length (posted w)).
Proof.
  intros Hp Hs Hj. unfold sendData, mbind, Py_bind, lift, raise.
  rewrite Hp.
  destruct (makeRequest_200_json self payload response j
              (log self "Sending data to devices" w).2 Hs Hj)
    as (w' & Hreq & Hlen).
  exists w'. unfold log in *. destruct (logger self); cbn in *;
    rewrite Hreq; (split; [by case_bool_decide|done]).
Qed.

(** C9, as amended: for every [sendData] (or [sendNotification]) call
    whose options have neither a [to] field nor a [registration_ids]
    field, answered with status 200 and a body that decodes as JSON, the
    reconciliation raises [TypeError] (or [KeyError] when the decoded
    body has no [results]), so the call ends with an unhandled built-in
    exception instead of an empty result; when the payload was built, the
    exception comes after the request was posted. When
    [registration_ids] is the empty list (and [to] is absent or false)
    and the decoded body is an object whose [results] is a list, nothing
    is paired and the reconciliation, and with it the call, returns the
    empty result. *)
Theorem sendData_without_recipients `{KeyOrder} (self : FirebaseMessaging)
    (kwargs : gmap string PyVal) (response : Response) (j : PyVal)
    (w : World) (kwargs0 other : gmap string PyVal)
    (entries : list PyVal) :
  (kwargs !! "to" = None ->
   kwargs !! "registration_ids" = None ->
   status_code response = 200 ->
   loads (content response) = Some j ->
   (exists e,
      handleJSONResponse j kwargs = Raise e /\
      (e = TypeError \/ e = KeyError "results")) /\
   (exists e w',
      sendData (fun _ => response) dumps loads self kwargs w =
        (Raise e, w') /\
      sendNotification (fun _ => response) dumps loads self kwargs w =
        (Raise e, w') /\
      class_of e = Builtin) /\
   (forall payload, createPayLoad dumps kwargs = Return payload ->
      exists e w',
        sendData (fun _ => response) dumps loads self kwargs w =
          (Raise e, w') /\
        (e = TypeError \/ e = KeyError "results") /\
        length (posted w') = S (length (posted w)))) /\
  (kwargs0 !! "registration_ids" = Some (VList []) ->
   truthy (dict_get "to" VNone kwargs0) = false ->
   handleJSONResponse (response_of other entries) kwargs0 = Return ∅ /\
   (status_code response = 200 ->
    loads (content response) = Some (response_of other entries) ->
    kwargs0 !! "response" = None ->
    forall payload, createPayLoad dumps kwargs0 = Return payload ->
      (sendData (fun _ => response) dumps loads self kwargs0 w).1 =
        Return ∅)).
Proof.
  split.
  - intros Hto Hreg Hs Hj.
    pose proof (handleJSONResponse_no_recipients kwargs j Hto Hreg)
      as Hhandle.
    assert (Hbuilt : forall payload,
      createPayLoad dumps kwargs = Return payload ->
      exists e w',
        sendData (fun _ => response) dumps loads self kwargs w =
          (Raise e, w') /\
        (e = TypeError \/ e = KeyError "results") /\
        length (posted w') = S (length (posted w))).
    { intros payload Hp. destruct Hhandle as (e & He & Hk).
      destruct (sendData_200_run self kwargs payload response j w Hp Hs Hj)
        as (w' & Hrun & Hlen).
      rewrite Hrun, He. case_bool_decide.
      - exists TypeError, w'. by repeat split; auto.
      - by exists e, w'. }
    split; [exact Hhandle|split; [|exact Hbuilt]].
    destruct (createPayLoad dumps kwargs) as [payload|e] eqn:Hp.
    + destruct (Hbuilt payload eq_refl) as (e & w' & Hsend & He & _).
      exists e, w'. repeat split; [done|done|].
      by destruct He as [->| ->].
    + destruct (sendData_payload_error (fun _ => response) dumps loads
                  self kwargs e w Hp) as [Hsend _].
      eexists _, _. repeat split; [exact Hsend|exact Hsend|].
      by apply (createPayLoad_error_builtin kwargs).
  - intros Hreg Hto. split; [by apply handleJSONResponse_empty_list|].
    intros Hs Hj Hresp payload Hp.
    destruct (sendData_200_run self kwargs0 payload response _ w Hp Hs Hj)
      as (w' & -> & _).
    rewrite bool_decide_false by (rewrite Hresp; by intros [? [=]]).
    by apply handleJSONResponse_empty_list.
Qed.

End NoRecipients.

Lemma sendData_without_recipients_witness :
  (exists w',
     sendData (provider 200 (Json.dumps (response_of ∅ [])))
       Json.dumps Json.loads client
       {[ "data" := VDict {[ "k" := VStr "v" ]} ]} fresh_world =
       (Raise TypeError, w') /\
     length (posted w') = 1%nat) /\
  (sendData
     (provider 200
        (Json.dumps (response_of ∅ [VDict {[ "message_id" := VStr "0:a" ]}])))
     Json.dumps Json.loads client
     {[ "registration_ids" := VList [] ]} fresh_world).1 = Return ∅.
Proof.
  split.
  - destruct (sendData_without_recipients Json.dumps Json.loads client
                {[ "data" := VDict {[ "k" := VStr "v" ]} ]}
                {| status_code := 200;
                   content := Json.dumps (response_of ∅ []) |}
                (response_of ∅ []) fresh_world ∅ ∅ []) as [Hnone _].
    destruct Hnone as (_ & _ & Hbuilt); try reflexivity.
    destruct (Hbuilt (JsonText (Json.dumps
                        (VDict {[ "data" := VDict {[ "k" := VStr "v" ]} ]}))))
      as (e & w' & Hsend & He & Hlen); [reflexivity|].
    exists w'. split; [|exact Hlen].
    assert (Hrun : (sendData (provider 200 (Json.dumps (response_of ∅ [])))
                      Json.dumps Json.loads client
                      {[ "data" := VDict {[ "k" := VStr "v" ]} ]}
                      fresh_world).1 = Raise TypeError)
      by (vm_compute; reflexivity).
    unfold provider in *. rewrite Hsend in Hrun |- *. cbn in Hrun.
    by injection Hrun as ->.
  - destruct (sendData_without_recipients Json.dumps Json.loads client ∅
                {| status_code := 200;
                   content := Json.dumps (response_of ∅
                                [VDict {[ "message_id" := VStr "0:a" ]}]) |}
                VNone fresh_world {[ "registration_ids" := VList [] ]} ∅
                [VDict {[ "message_id" := VStr "0:a" ]}]) as [_ Hempty].
    destruct Hempty as [_ Hsend]; [reflexivity|reflexivity|].
    apply (Hsend eq_refl eq_refl eq_refl
             (JsonText (Json.dumps
                (VDict {[ "registration_ids" := VList [] ]})))).
    reflexivity.
Defined.

(** C9, as stated, fails: with [registration_ids] given as the empty list
    (and no [to]) nothing is paired and the call returns the empty
    reconciled result. *)
Lemma sendData_empty_registration_ids :
  (sendData (provider 200 (Json.dumps (response_of ∅ [])))
     Json.dumps Json.loads client
     {[ "registration_ids" := VList [] ]} fresh_world).1 = Return ∅.
Proof. vm_compute. reflexivity. Qed.

(** ** A complete send *)

(** [sendData(to="R1", data={"k": "v"})] against a provider that answers
    with one message id. *)
Example sendData_end_to_end :
  (sendData
     (provider 200
        (Json.dumps (response_of ∅ [VDict {[ "message_id" := VStr "0:abc" ]}])))
     Json.dumps Json.loads client
     {[ "to" := VStr "R1"; "data" := VDict {[ "k" := VStr "v" ]} ]}
     fresh_world).1 =
  Return {[ "success" := Mapping [(VStr "R1", VStr "0:abc")] ]}.
Proof. vm_compute. reflexivity. Qed.

(** * Further properties of the module *)

(** ** One request per call *)

Section RequestFacts.

Variable post : Request -> Response.
Variable loads : string -> option PyVal.

(** The world after [makeRequest]: the request is appended to what was
    posted, whatever the response. *)
Lemma makeRequest_posted self payload is_json w :
  posted (makeRequest post loads self payload is_json w).2 =
    (posted w ++ [request_of self payload is_json])%list.
Proof.
  unfold makeRequest, mbind, Py_bind, requests_post, log, raise,
    response_json, request_of.
  cbn -[String.append str_of_int].
  repeat (destruct (_ =? _)); destruct (logger self); try done;
    destruct is_json; try done; by destruct (loads _).
Qed.

(** The outcome of [makeRequest] is that of the constant transport that
    gives the same response. *)
Lemma makeRequest_outcome self payload is_json w :
  (makeRequest post loads self payload is_json w).1 =
  (makeRequest (fun _ => post (request_of self payload is_json)) loads
     self payload is_json w).1.
Proof. reflexivity. Qed.

(** The outcome does not depend on the world it starts from. *)
Lemma makeRequest_outcome_world self payload is_json w w' :
  (makeRequest post loads self payload is_json w).1 =
  (makeRequest post loads self payload is_json w').1.
Proof.
  rewrite (makeRequest_outcome _ _ _ w), (makeRequest_outcome _ _ _ w').
  by rewrite !makeRequest_result.
Qed.

(** Nor on whether the client logs. *)
Lemma makeRequest_outcome_quiet self payload is_json w :
  (makeRequest post loads (quiet self) payload is_json w).1 =
  (makeRequest post loads self payload is_json w).1.
Proof.
  rewrite (makeRequest_outcome (quiet self)), (makeRequest_outcome self).
  by rewrite !makeRequest_result.
Qed.

Lemma makeRequest_logged_quiet self payload is_json w :
  logged (makeRequest post loads (quiet self) payload is_json w).2 =
    logged w.
Proof.
  unfold makeRequest, mbind, Py_bind, requests_post, log, raise,
    response_json, quiet.
  cbn -[String.append str_of_int].
  repeat (destruct (_ =? _)); try done;
    destruct is_json; try done; by destruct (loads _).
Qed.

(** X1: [makeRequest] issues exactly one POST, whatever the status of the
    response (there is no retry): to the client's url, with the payload as
    data, the client's timeout, and exactly two headers, [Authorization]
    with the API key after [key=] and [Content-type] for JSON or for a
    form according to [is_json]. *)
Theorem makeRequest_posts_one_request self payload is_json w :
  exists req,
    posted (makeRequest post loads self payload is_json w).2 =
      (posted w ++ [req])%list /\
    req_url req = url self /\
    req_data req = payload /\
    req_timeout req = timeout self /\
    req_headers req !! "Authorization" = Some ("key=" +:+ api_key self) /\
    req_headers req !! "Content-type" =
      Some (if is_json then "application/json"
            else "application/x-www-form-urlencoded;charset=UTF-8") /\
    size (req_headers req) = 2%nat.
Proof.
  exists (request_of self payload is_json).
  split; [apply makeRequest_posted|].
  do 3 (split; [reflexivity|]). unfold request_of. cbn [req_headers].
  split; [apply lookup_insert_eq|]. split.
  - rewrite lookup_insert_ne by done. apply lookup_singleton_eq.
  - rewrite map_size_insert_None by (by rewrite lookup_singleton_ne).
    by rewrite map_size_singleton.
Qed.

End RequestFacts.

(** ** Sends, requests and the log *)

Section SendWorld.

Variable post : Request -> Response.
Variable dumps : PyVal -> string.
Variable loads : string -> option PyVal.

Lemma log_posted self message w :
  posted (log self message w).2 = posted w.
Proof. unfold log. by destruct (logger self). Qed.

Lemma log_quiet self message w : (log (quiet self) message w).2 = w.
Proof. reflexivity. Qed.

Lemma sendData_world `{KeyOrder} self kwargs payload w :
  createPayLoad dumps kwargs = Return payload ->
  (sendData post dumps loads self kwargs w).2 =
  (makeRequest post loads self payload true
     (log self "Sending data to devices" w).2).2.
Proof.
  intros Hp. unfold sendData, mbind, Py_bind, lift, raise. rewrite Hp.
  destruct (log self _ w) as [[[]|e] w1] eqn:Hlog;
    [|by unfold log in Hlog; destruct (logger self)].
  cbn [snd]. destruct (makeRequest _ _ _ _ _ _) as [[j|e] w2]; [|done].
  by case_bool_decide.
Qed.

Lemma sendPlainText_world self kwargs payload w :
  kwargs !! "is_json" = None ->
  createPayLoad dumps (<["is_json" := VBool false]> kwargs) =
    Return payload ->
  (sendPlainText post dumps loads self kwargs w).2 =
  (makeRequest post loads self payload false w).2.
Proof.
  intros Hj Hp. unfold sendPlainText, mbind, Py_bind, lift.
  rewrite bool_decide_false by (rewrite Hj; by intros [? [=]]).
  rewrite Hp. by destruct (makeRequest _ _ _ _ _ _) as [[r|e] w2].
Qed.

(** X2: a send posts a request exactly when its payload could be built,
    and then exactly one, whatever the answer: [sendData] posts the
    payload with the JSON content type (also when [is_json] made the
    payload a form), [sendPlainText] posts it with the form content type;
    when the payload cannot be built the exception of the builder is that
    of the send and nothing is posted. *)
Theorem sends_post_once_or_never `{KeyOrder} self kwargs w :
  match createPayLoad dumps kwargs with
  | Return payload =>
      posted (sendData post dumps loads self kwargs w).2 =
        (posted w ++ [request_of self payload true])%list
  | Raise e =>
      (sendData post dumps loads self kwargs w).1 = Raise e /\
      posted (sendData post dumps loads self kwargs w).2 = posted w
  end /\
  match kwargs !! "is_json" with
  | Some _ =>
      sendPlainText post dumps loads self kwargs w = (Raise TypeError, w)
  | None =>
      match createPayLoad dumps (<["is_json" := VBool false]> kwargs) with
      | Return payload =>
          posted (sendPlainText post dumps loads self kwargs w).2 =
            (posted w ++ [request_of self payload false])%list
      | Raise e =>
          sendPlainText post dumps loads self kwargs w = (Raise e, w)
      end
  end.
Proof.
  split.
  - destruct (createPayLoad dumps kwargs) as [payload|e] eqn:Hp.
    + by rewrite (sendData_world _ _ payload), makeRequest_posted,
        log_posted.
    + destruct (sendData_payload_error post dumps loads self kwargs e w Hp)
        as [-> Hposted]. by split.
  - destruct (kwargs !! "is_json") as [j|] eqn:Hj.
    { apply sendPlainText_keyword_clash. by rewrite Hj. }
    destruct (createPayLoad dumps _) as [payload|e] eqn:Hp.
    + by rewrite (sendPlainText_world _ _ payload), makeRequest_posted.
    + by apply sendPlainText_payload_error.
Qed.

(** X3: logging only observes: with logging switched off a send returns
    or raises the same and posts the same requests as with logging on, and
    writes no log line. *)
Theorem logging_only_observes `{KeyOrder} self kwargs w :
  (sendData post dumps loads (quiet self) kwargs w).1 =
    (sendData post dumps loads self kwargs w).1 /\
  posted (sendData post dumps loads (quiet self) kwargs w).2 =
    posted (sendData post dumps loads self kwargs w).2 /\
  logged (sendData post dumps loads (quiet self) kwargs w).2 = logged w /\
  (sendPlainText post dumps loads (quiet self) kwargs w).1 =
    (sendPlainText post dumps loads self kwargs w).1 /\
  posted (sendPlainText post dumps loads (quiet self) kwargs w).2 =
    posted (sendPlainText post dumps loads self kwargs w).2 /\
  logged (sendPlainText post dumps loads (quiet self) kwargs w).2 =
    logged w.
Proof.
  assert (Hdata :
    (sendData post dumps loads (quiet self) kwargs w).1 =
      (sendData post dumps loads self kwargs w).1 /\
    posted (sendData post dumps loads (quiet self) kwargs w).2 =
      posted (sendData post dumps loads self kwargs w).2 /\
    logged (sendData post dumps loads (quiet self) kwargs w).2 = logged w).
  { destruct (createPayLoad dumps kwargs) as [payload|e] eqn:Hp.
    - rewrite !(sendData_result _ _ _ _ _ payload) by done.
      rewrite !(sendData_world _ _ payload) by done.
      rewrite makeRequest_outcome_quiet, !makeRequest_posted,
        makeRequest_logged_quiet, !log_posted, log_quiet.
      split; [|done].
      by rewrite (makeRequest_outcome_world _ _ _ _ _ w
                    (log self "Sending data to devices" w).2).
    - destruct (sendData_payload_error post dumps loads self kwargs e w Hp)
        as [-> Hposted].
      destruct (sendData_payload_error post dumps loads (quiet self)
                  kwargs e w Hp) as [-> _].
      cbn [fst snd]. by rewrite Hposted, log_quiet. }
  destruct Hdata as (H1 & H2 & H3). do 3 (split; [done|]).
  destruct (kwargs !! "is_json") as [j|] eqn:Hj.
  { rewrite !sendPlainText_keyword_clash by (by rewrite Hj). done. }
  destruct (createPayLoad dumps (<["is_json" := VBool false]> kwargs))
    as [payload|e] eqn:Hp.
  - rewrite !(sendPlainText_result _ _ _ _ _ payload) by done.
    rewrite !(sendPlainText_world _ _ payload) by done.
    by rewrite makeRequest_outcome_quiet, !makeRequest_posted,
      makeRequest_logged_quiet.
  - by rewrite !(sendPlainText_payload_error _ _ _ _ _ e).
Qed.

End SendWorld.

Section StatusFacts.

Variable dumps : PyVal -> string.
Variable loads : string -> option PyVal.

(** X4: status 400 makes the request, and with it every send whose
    payload was built, fail with [FCMMalformedJsonException], whatever the
    body of the response. *)
Theorem status_400_malformed `{KeyOrder} (self : FirebaseMessaging)
    (response : Response) :
  status_code response = 400 ->
  sends_fail_with (fun _ => response) dumps loads self
    (FCMMalformedJsonException
       "Error 400: The request could not be parsed as JSON, or it contained invalid fields.").
Proof.
  intros Hs. apply sends_fail_with_intro. intros payload is_json w.
  by rewrite makeRequest_result, Hs.
Qed.

(** X5: when the payload was built and the answer has status 200,
    [sendData] fails with [ValueError] when the body does not decode as
    JSON, with [TypeError] when the body decodes and the options have a
    field named [response] (it clashes with the parameter of
    [handleJSONResponse]), and otherwise reconciles the decoded body
    against its own options. *)
Theorem sendData_200 `{KeyOrder} (self : FirebaseMessaging)
    (kwargs : gmap string PyVal) (payload : Body) (response : Response)
    (w : World) :
  status_code response = 200 ->
  createPayLoad dumps kwargs = Return payload ->
  (sendData (fun _ => response) dumps loads self kwargs w).1 =
  match loads (content response) with
  | Some j =>
      match kwargs !! "response" with
      | Some _ => Raise TypeError
      | None => handleJSONResponse j kwargs
      end
  | None => Raise ValueError
  end.
Proof.
  intros Hs Hp. rewrite (sendData_result _ _ _ _ _ payload) by done.
  rewrite makeRequest_result, Hs. cbn. destruct (loads _); [|done].
  destruct (kwargs !! "response") eqn:Hr.
  - by rewrite bool_decide_true.
  - by rewrite bool_decide_false by (by intros [? [=]]).
Qed.

End StatusFacts.

Lemma status_400_malformed_witness :
  (sendData (provider 400 "Bad Request") Json.dumps Json.loads client
     {[ "to" := VStr "R1" ]} fresh_world).1 =
  Raise (FCMMalformedJsonException
    "Error 400: The request could not be parsed as JSON, or it contained invalid fields.").
Proof.
  destruct (status_400_malformed Json.dumps Json.loads client
              {| status_code := 400; content := "Bad Request" |} eq_refl)
    as (_ & Hsend & _).
  apply (Hsend {[ "to" := VStr "R1" ]}
           (JsonText (Json.dumps (VDict {[ "to" := VStr "R1" ]})))
           fresh_world).
  reflexivity.
Defined.

Lemma sendData_200_witness :
  (sendData (provider 200 "<html>") Json.dumps Json.loads client
     {[ "to" := VStr "R1" ]} fresh_world).1 = Raise ValueError /\
  (sendData (provider 200 (Json.dumps (response_of ∅ []))) Json.dumps
     Json.loads client {[ "to" := VStr "R1"; "response" := VStr "x" ]}
     fresh_world).1 = Raise TypeError.
Proof.
  split.
  - assert (Hp : createPayLoad Json.dumps {[ "to" := VStr "R1" ]} =
                 Return (JsonText (Json.dumps (VDict {[ "to" := VStr "R1" ]}))))
      by reflexivity.
    etransitivity;
      [exact (sendData_200 Json.dumps Json.loads client _ _
                {| status_code := 200; content := "<html>" |} fresh_world
                eq_refl Hp)|].
    reflexivity.
  - assert (Hp : createPayLoad Json.dumps
                   {[ "to" := VStr "R1"; "response" := VStr "x" ]} =
                 Return (JsonText (Json.dumps
                   (VDict {[ "to" := VStr "R1"; "response" := VStr "x" ]}))))
      by reflexivity.
    etransitivity;
      [exact (sendData_200 Json.dumps Json.loads client _ _
                {| status_code := 200;
                   content := Json.dumps (response_of ∅ []) |} fresh_world
                eq_refl Hp)|].
    reflexivity.
Defined.

(** ** More on the payload builder *)

Section BuilderFacts.

Variable post : Request -> Response.
Variable dumps : PyVal -> string.
Variable loads : string -> option PyVal.

Lemma validate_unsized (kwargs : gmap string PyVal) v :
  kwargs !! "registration_ids" = Some v -> is_sized v = false ->
  validate kwargs = Raise TypeError.
Proof.
  intros Hv Hs. rewrite validate_spec, Hv. by destruct v.
Qed.

Lemma createPayLoad_validate (kwargs : gmap string PyVal) e :
  validate (delete "is_json" kwargs) = Raise e ->
  createPayLoad dumps kwargs = Raise e.
Proof.
  intros Hval.
  destruct (truthy (dict_get "is_json" (VBool true) kwargs)) eqn:Hj.
  - by rewrite createPayLoad_json, Hval.
  - by rewrite createPayLoad_plain, Hval.
Qed.

(** X6: fields other than [registration_ids] are not validated: when the
    options have no [registration_ids], the payload object is constructed
    with exactly the options as its fields, and in JSON mode the payload
    is the encoding of all of them. *)
Theorem fields_pass_unvalidated (kwargs : gmap string PyVal) :
  kwargs !! "registration_ids" = None ->
  Payload_init kwargs = Return {| __dict__ := kwargs |} /\
  (truthy (dict_get "is_json" (VBool true) kwargs) = true ->
     createPayLoad dumps kwargs =
       Return (JsonText (dumps (VDict (delete "is_json" kwargs))))).
Proof.
  intros Hreg. split.
  - by rewrite Payload_init_spec, validate_spec, Hreg.
  - intros Hj. rewrite createPayLoad_json by done.
    by rewrite validate_spec, lookup_delete_ne, Hreg.
Qed.

(** X7: a [registration_ids] that has no length ([None], a number, a
    boolean) makes the constructor of the payload raise [TypeError]; the
    send fails with it and posts nothing. *)
Theorem registration_ids_unsized `{KeyOrder} (self : FirebaseMessaging)
    (kwargs : gmap string PyVal) (v : PyVal) (w : World) :
  kwargs !! "registration_ids" = Some v ->
  is_sized v = false ->
  Payload_init kwargs = Raise TypeError /\
  createPayLoad dumps kwargs = Raise TypeError /\
  (sendData post dumps loads self kwargs w).1 = Raise TypeError /\
  posted (sendData post dumps loads self kwargs w).2 = posted w /\
  (kwargs !! "is_json" = None ->
     sendPlainText post dumps loads self kwargs w = (Raise TypeError, w)).
Proof.
  intros Hv Hs.
  assert (Hcreate : forall kw, delete "is_json" kw = delete "is_json" kwargs ->
            createPayLoad dumps kw = Raise TypeError).
  { intros kw Hkw. apply createPayLoad_validate. rewrite Hkw.
    apply (validate_unsized _ v); [|done]. by rewrite lookup_delete_ne. }
  split; [|split; [|split; [|split]]].
  - by rewrite Payload_init_spec, (validate_unsized kwargs v).
  - by apply Hcreate.
  - by destruct (sendData_payload_error post dumps loads self kwargs
                   TypeError w (Hcreate kwargs eq_refl)) as [-> _].
  - destruct (sendData_payload_error post dumps loads self kwargs
                TypeError w (Hcreate kwargs eq_refl)) as [Hsend Hposted].
    by rewrite Hsend.
  - intros Hj. apply sendPlainText_payload_error; [done|].
    apply Hcreate. by rewrite delete_insert_eq.
Qed.

(** X8: the limit of 1000 is on [len(registration_ids)] whatever the
    value is: the characters of a string and the keys of a dictionary are
    counted like the elements of a list. In JSON mode the payload is built
    when the length is at most 1000 and [FCMTooManyRegIdsException] is
    raised when it is more. *)
Theorem registration_ids_length_counts (kwargs : gmap string PyVal)
    (v : PyVal) (n : nat) :
  kwargs !! "registration_ids" = Some v ->
  py_len v = Return n ->
  truthy (dict_get "is_json" (VBool true) kwargs) = true ->
  createPayLoad dumps kwargs =
    if (n <=? 1000)%nat
    then Return (JsonText (dumps (VDict (delete "is_json" kwargs))))
    else Raise too_many_ids.
Proof.
  intros Hv Hn Hj. rewrite createPayLoad_json by done.
  rewrite validate_spec, lookup_delete_ne, Hv by done.
  unfold validate_registration_ids. rewrite Hn. cbn [mbind Result_bind].
  destruct (Nat.leb_spec n 1000) as [Hle|Hgt].
  - by rewrite (proj2 (Z.ltb_ge 1000 (Z.of_nat n))) by lia.
  - by rewrite (proj2 (Z.ltb_lt 1000 (Z.of_nat n))) by lia.
Qed.

(** X9: a [data] field that is not a mapping makes the body of the
    plain-text payload raise [AttributeError]; a [sendPlainText] whose
    options pass validation fails with it and posts nothing. *)
Theorem data_not_a_mapping (self : FirebaseMessaging)
    (kwargs : gmap string PyVal) (v : PyVal) (w : World) :
  kwargs !! "data" = Some v ->
  is_dict v = false ->
  PlainTextPayload_body {| __dict__ := kwargs |} = Raise AttributeError /\
  (kwargs !! "is_json" = None -> validate kwargs = Return tt ->
     sendPlainText post dumps loads self kwargs w =
       (Raise AttributeError, w)).
Proof.
  intros Hv Hd.
  assert (Hbody : PlainTextPayload_body {| __dict__ := kwargs |} =
                  Raise AttributeError).
  { rewrite PlainTextPayload_body_spec. cbn.
    destruct (kwargs !! "registration_ids");
      rewrite ?lookup_insert_ne by done; rewrite Hv; by destruct v. }
  split; [done|]. intros Hj Hval.
  apply sendPlainText_payload_error; [done|].
  rewrite createPayLoad_plain
    by (unfold dict_get; by rewrite lookup_insert_eq).
  by rewrite delete_insert_eq, delete_id, Hval.
Qed.

(** X10: what the builder returns never carries the mode keyword: the
    JSON text is the encoding of the options without [is_json]; the form
    body has no [is_json] key, no [data] key, and always a
    [registration_ids] key. *)
Theorem createPayLoad_drops_keywords (kwargs : gmap string PyVal) :
  match createPayLoad dumps kwargs with
  | Return (JsonText text) =>
      text = dumps (VDict (delete "is_json" kwargs))
  | Return (FormFields body) =>
      body !! "is_json" = None /\ body !! "data" = None /\
      is_Some (body !! "registration_ids")
  | Raise _ => True
  end.
Proof.
  destruct (truthy (dict_get "is_json" (VBool true) kwargs)) eqn:Hj.
  - rewrite createPayLoad_json by done. by destruct (validate _).
  - rewrite createPayLoad_plain by done.
    destruct (validate _); [|done].
    rewrite PlainTextPayload_body_spec. cbn.
    set (d := match delete "is_json" kwargs !! "registration_ids" with
              | Some _ => delete "is_json" kwargs
              | None => <["registration_ids" := VNone]>
                          (delete "is_json" kwargs)
              end).
    assert (Hj' : d !! "is_json" = None).
    { subst d. destruct (_ !! "registration_ids");
        rewrite ?lookup_insert_ne by done; apply lookup_delete_eq. }
    assert (Hreg : is_Some (d !! "registration_ids")).
    { subst d. destruct (_ !! "registration_ids") eqn:Hr; [by rewrite Hr|].
      rewrite lookup_insert_eq. by eexists. }
    destruct (d !! "data") as [[| | | | |data]|]; try done.
    rewrite !flatten_other by (by intros k _ [=]).
    rewrite lookup_delete_eq, !lookup_delete_ne by done. done.
Qed.

End BuilderFacts.

Lemma fields_pass_unvalidated_witness :
  Payload_init {[ "to" := VStr "R1"; "priority" := VInt 10 ]} =
  Return {| __dict__ := {[ "to" := VStr "R1"; "priority" := VInt 10 ]} |}.
Proof.
  apply (fields_pass_unvalidated Json.dumps
           {[ "to" := VStr "R1"; "priority" := VInt 10 ]}).
  reflexivity.
Defined.

Lemma registration_ids_unsized_witness :
  (sendData (provider 200 "{}") Json.dumps Json.loads client
     {[ "to" := VStr "R1"; "registration_ids" := VNone ]} fresh_world).1 =
  Raise TypeError.
Proof.
  apply (registration_ids_unsized (provider 200 "{}") Json.dumps Json.loads
           client {[ "to" := VStr "R1"; "registration_ids" := VNone ]}
           VNone fresh_world); reflexivity.
Defined.

Lemma registration_ids_length_counts_witness :
  createPayLoad Json.dumps {[ "registration_ids" := VStr "R1" ]} =
  Return (JsonText (Json.dumps (VDict {[ "registration_ids" := VStr "R1" ]}))).
Proof.
  rewrite (registration_ids_length_counts Json.dumps
             {[ "registration_ids" := VStr "R1" ]} (VStr "R1") 2);
    reflexivity.
Defined.

Lemma data_not_a_mapping_witness :
  sendPlainText (provider 200 "id=0:1") Json.dumps Json.loads client
    {[ "to" := VStr "R1"; "data" := VStr "hello" ]} fresh_world =
  (Raise AttributeError, fresh_world).
Proof.
  apply (data_not_a_mapping (provider 200 "id=0:1") Json.dumps Json.loads
           client {[ "to" := VStr "R1"; "data" := VStr "hello" ]}
           (VStr "hello") fresh_world); reflexivity.
Defined.

(** ** The recipient sequence of a reconciliation *)

Lemma recipients_insert_list kwargs (ids : list PyVal) :
  ids ≠ [] ->
  recipients (<["registration_ids" := VList ids]> kwargs) = VList ids.
Proof.
  intros Hne. apply recipients_list; [apply lookup_insert_eq|done].
Qed.

(** X11: a send addressed by [to] alone (no [registration_ids], or an
    empty or otherwise false one) is reconciled as a send to the one-element
    list of that recipient. *)
Theorem to_is_single_recipient `{KeyOrder} (response : PyVal)
    (kwargs : gmap string PyVal) (to : PyVal) :
  kwargs !! "to" = Some to ->
  truthy to = true ->
  truthy (dict_get "registration_ids" VNone kwargs) = false ->
  handleJSONResponse response kwargs =
  handleJSONResponse response (<["registration_ids" := VList [to]]> kwargs).
Proof.
  intros Hto Ht Hreg. rewrite !handleJSONResponse_unfold.
  rewrite recipients_insert_list by done.
  assert (recipients kwargs = VList [to]) as ->; [|done].
  unfold recipients, dict_get in *. rewrite Hreg, Hto. cbn. by rewrite Ht.
Qed.

Lemma to_is_single_recipient_witness :
  handleJSONResponse (response_of ∅ [VDict {[ "message_id" := VStr "0:a" ]}])
    {[ "to" := VStr "R1"; "registration_ids" := VList [] ]} =
  Return {[ "success" := Mapping [(VStr "R1", VStr "0:a")] ]}.
Proof.
  rewrite (to_is_single_recipient _ _ (VStr "R1")); reflexivity.
Defined.

(** X12: a [registration_ids] that is true (a non-empty list) decides the
    recipients alone: [to] is not looked at. *)
Theorem registration_ids_precede_to `{KeyOrder} (response : PyVal)
    (kwargs : gmap string PyVal) :
  truthy (dict_get "registration_ids" VNone kwargs) = true ->
  handleJSONResponse response kwargs =
  handleJSONResponse response (delete "to" kwargs).
Proof.
  intros Hreg. rewrite !handleJSONResponse_unfold.
  assert (recipients kwargs = recipients (delete "to" kwargs)) as ->;
    [|done].
  unfold recipients, dict_get.
  rewrite lookup_delete_eq, (lookup_delete_ne kwargs "to") by done.
  unfold dict_get in Hreg. rewrite Hreg. cbn. by rewrite andb_false_r.
Qed.

Lemma registration_ids_precede_to_witness :
  handleJSONResponse (response_of ∅ [VDict {[ "message_id" := VStr "0:a" ]}])
    {[ "to" := VStr "R9"; "registration_ids" := VList [VStr "R1"] ]} =
  Return {[ "success" := Mapping [(VStr "R1", VStr "0:a")] ]}.
Proof.
  rewrite registration_ids_precede_to; reflexivity.
Defined.

Lemma groupResponseResult_string `{KeyOrder} response s key :
  groupResponseResult response (VStr s) key =
  groupResponseResult response (VList (chars_of s)) key.
Proof. reflexivity. Qed.

Lemma truthy_chars_of s : truthy (VList (chars_of s)) = truthy (VStr s).
Proof. by destruct s. Qed.

(** X13: a [registration_ids] given as one string is taken for the
    sequence of its characters: the reconciliation pairs each character
    with a result entry. *)
Theorem registration_ids_string_is_iterated `{KeyOrder} (response : PyVal)
    (kwargs : gmap string PyVal) (s : string) :
  kwargs !! "registration_ids" = Some (VStr s) ->
  handleJSONResponse response kwargs =
  handleJSONResponse response
    (<["registration_ids" := VList (chars_of s)]> kwargs).
Proof.
  intros Hreg. rewrite !handleJSONResponse_unfold. unfold recipients, dict_get.
  rewrite Hreg, lookup_insert_eq, lookup_insert_ne by done.
  cbn [default from_option id]. rewrite truthy_chars_of.
  destruct (truthy _ && negb _); [done|].
  by rewrite !groupResponseResult_string.
Qed.

Lemma registration_ids_string_is_iterated_witness :
  handleJSONResponse
    (response_of ∅ [VDict {[ "message_id" := VStr "0:a" ]};
                    VDict {[ "message_id" := VStr "0:b" ]}])
    {[ "registration_ids" := VStr "R1" ]} =
  Return {[ "success" := Mapping [(VStr "R", VStr "0:a");
                                  (VStr "1", VStr "0:b")] ]}.
Proof.
  rewrite (registration_ids_string_is_iterated _ _ "R1"); reflexivity.
Defined.

(** ** Malformed responses *)

Lemma filtered_TypeError key mapping e :
  filtered key mapping = Raise e -> e = TypeError.
Proof.
  induction mapping as [|[r res] mapping IH]; [done|].
  cbn [filtered]. destruct res as [| | | | |d]; cbn; try (by intros [= <-]).
  - destruct (is_substring key s); [by intros [= <-]|exact IH].
  - destruct (existsb _ l); [by intros [= <-]|exact IH].
  - case_bool_decide as Hk; [|exact IH].
    destruct Hk as [v ->]. cbn. destruct (filtered key mapping); [done|].
    intros [= <-]. by apply IH.
Qed.

Lemma filtered_scalar key mapping i r res :
  mapping !! i = Some (r, res) -> is_scalar res = true ->
  filtered key mapping = Raise TypeError.
Proof.
  revert i. induction mapping as [|[r0 res0] mapping IH]; intros i; [done|].
  destruct i as [|i]; cbn [lookup list_lookup].
  - intros [= -> ->] Hs. by destruct res.
  - intros Hi Hs. specialize (IH i Hi Hs).
    destruct (filtered key ((r0, res0) :: mapping)) as [pairs|e] eqn:Hf.
    + exfalso. cbn [filtered] in Hf.
      destruct (contains key res0) as [[]|]; cbn in Hf; [|congruence|done].
      destruct (getitem res0 key); cbn in Hf; [|done].
      by rewrite IH in Hf.
    + by rewrite (filtered_TypeError _ _ _ Hf).
Qed.

(** X14: a response that is not a JSON object makes the reconciliation
    raise [TypeError], and an object without [results] makes it raise
    [KeyError] for that key, whatever the recipients are. *)
Theorem response_without_results `{KeyOrder} (response : PyVal)
    (d kwargs : gmap string PyVal) :
  (is_dict response = false ->
     handleJSONResponse response kwargs = Raise TypeError) /\
  (d !! "results" = None ->
     handleJSONResponse (VDict d) kwargs = Raise (KeyError "results")).
Proof.
  split.
  - intros Hd. rewrite handleJSONResponse_unfold.
    unfold groupResponseResult at 1. by destruct response.
  - intros Hd. rewrite handleJSONResponse_unfold.
    unfold groupResponseResult at 1. cbn. by rewrite Hd.
Qed.

Lemma response_without_results_witness :
  handleJSONResponse (VList []) {[ "to" := VStr "R1" ]} = Raise TypeError /\
  handleJSONResponse (VDict {[ "failure" := VInt 1 ]})
    {[ "to" := VStr "R1" ]} = Raise (KeyError "results").
Proof.
  split.
  - apply (proj1 (response_without_results (VList []) ∅
                    {[ "to" := VStr "R1" ]})).
    reflexivity.
  - apply (proj2 (response_without_results VNone {[ "failure" := VInt 1 ]}
                    {[ "to" := VStr "R1" ]})).
    reflexivity.
Defined.

Lemma groupResponseResult_scalar `{KeyOrder} other ids entries key i r res :
  ids !! i = Some r -> entries !! i = Some res -> is_scalar res = true ->
  groupResponseResult (response_of other entries) (VList ids) key =
    Raise TypeError.
Proof.
  intros Hr Hres Hs. rewrite groupResponseResult_lists.
  rewrite (filtered_scalar key (zip ids entries) i r res); [done| |done].
  apply lookup_zip_with_Some. by exists r, res.
Qed.

(** X15: a result entry that is [null], a number or a boolean, at a
    position that has a recipient, makes the reconciliation raise
    [TypeError]. *)
Theorem scalar_entry_is_TypeError `{KeyOrder} (kwargs other : gmap string PyVal)
    (ids entries : list PyVal) (i : nat) (r res : PyVal) :
  kwargs !! "registration_ids" = Some (VList ids) ->
  kwargs !! "to" = None ->
  ids !! i = Some r ->
  entries !! i = Some res ->
  is_scalar res = true ->
  handleJSONResponse (response_of other entries) kwargs = Raise TypeError.
Proof.
  intros Hids Hto Hr Hres Hs. rewrite handleJSONResponse_unfold.
  rewrite (recipients_given kwargs (VList ids)) by done.
  by rewrite (groupResponseResult_scalar other ids entries "error" i r res).
Qed.

Lemma scalar_entry_is_TypeError_witness :
  handleJSONResponse
    (response_of ∅ [VDict {[ "message_id" := VStr "0:a" ]}; VNone])
    {[ "registration_ids" := VList [VStr "R1"; VStr "R2"] ]} =
  Raise TypeError.
Proof.
  apply (scalar_entry_is_TypeError _ ∅ [VStr "R1"; VStr "R2"]
           [VDict {[ "message_id" := VStr "0:a" ]}; VNone] 1
           (VStr "R2") VNone); reflexivity.
Defined.

(** ** Invariants of the groupings *)

Lemma grouping_append_keys_any v k g :
  map fst (grouping_append v k g) =
    if key_in v (map fst g) then map fst g else (map fst g ++ [v])%list.
Proof.
  induction g as [|[r ks] g IH]; [done|].
  cbn [grouping_append map fst]. rewrite key_in_cons.
  destruct (key_eqb r v); cbn [map fst orb]; [done|].
  rewrite IH. by destruct (key_in v (map fst g)).
Qed.

Lemma grouping_append_total v k g :
  concat (map snd (grouping_append v k g)) ≡ₚ
    (concat (map snd g) ++ [k])%list.
Proof.
  induction g as [|[r ks] g IH]; [done|].
  cbn [grouping_append]. destruct (key_eqb r v); cbn [map snd concat].
  - rewrite <- !app_assoc. apply Permutation_app_head, Permutation_app_comm.
  - by rewrite IH, app_assoc.
Qed.

Lemma grouping_append_nonempty v k g :
  Forall (fun p => p.2 ≠ []) g ->
  Forall (fun p : PyVal * list PyVal => p.2 ≠ []) (grouping_append v k g).
Proof.
  induction 1 as [|[r ks] g Hks Hg IH]; cbn [grouping_append].
  - by repeat constructor.
  - destruct (key_eqb r v); constructor; try done.
    cbn. by destruct ks.
Qed.

Lemma group_by_value_invariants pairs : forall acc g,
  group_by_value pairs acc = Return g ->
  (distinct_keys (map fst acc) -> distinct_keys (map fst g)) /\
  (Forall (fun p => p.2 ≠ []) acc -> Forall (fun p => p.2 ≠ []) g) /\
  concat (map snd g) ≡ₚ (concat (map snd acc) ++ map fst pairs)%list /\
  (forall x, key_in x (map fst acc) = true \/ In x (map snd pairs) ->
     key_in x (map fst g) = true).
Proof.
  induction pairs as [|[k v] pairs IH]; intros acc g.
  - cbn. intros [= <-]. rewrite app_nil_r. repeat split; try done.
    by intros x [?|[]].
  - cbn [group_by_value]. destruct (hashable v) eqn:Hv; [|done].
    intros Hg. destruct (IH _ _ Hg) as (Hd & Hne & Hperm & Hcov).
    repeat split.
    + intros Hacc. by apply Hd, grouping_append_distinct.
    + intros Hacc. by apply Hne, grouping_append_nonempty.
    + rewrite Hperm, grouping_append_total. cbn [map fst].
      by rewrite <- app_assoc.
    + intros x Hx. apply Hcov. rewrite grouping_append_keys_any.
      cbn [map snd] in Hx.
      destruct (key_in v (map fst acc)) eqn:Hin.
      * destruct Hx as [Hx|[<-|Hx]]; auto.
      * rewrite key_in_app. destruct Hx as [Hx|[<-|Hx]]; auto.
        -- left. by rewrite Hx.
        -- left. cbn. by rewrite key_eqb_refl, orb_true_r.
Qed.

(** X16: the groups built for ['error'] partition the failing recipients:
    no two groups have equal reasons, no group is empty, every reason that
    occurs has its group, and the recipients of all groups together are
    the failing recipients, each as often as it failed. *)
Theorem error_groups_partition (pairs : list (PyVal * PyVal))
    (g : list (PyVal * list PyVal)) :
  group_by_value pairs [] = Return g ->
  distinct_keys (map fst g) /\
  Forall (fun p => p.2 ≠ []) g /\
  concat (map snd g) ≡ₚ map fst pairs /\
  (forall reason, In reason (map snd pairs) ->
     key_in reason (map fst g) = true).
Proof.
  intros Hg. destruct (group_by_value_invariants pairs [] g Hg)
    as (Hd & Hne & Hperm & Hcov).
  split; [by apply Hd|]. split; [by apply Hne|]. split; [exact Hperm|].
  intros reason Hin. apply Hcov. by right.
Qed.

Lemma error_groups_partition_witness :
  distinct_keys [VStr "Unavailable"; VStr "NotRegistered"] /\
  [VStr "A"; VStr "C"; VStr "B"] ≡ₚ [VStr "A"; VStr "B"; VStr "C"].
Proof.
  destruct (error_groups_partition
              [(VStr "A", VStr "Unavailable"); (VStr "B", VStr "NotRegistered");
               (VStr "C", VStr "Unavailable")]
              [(VStr "Unavailable", [VStr "A"; VStr "C"]);
               (VStr "NotRegistered", [VStr "B"])] eq_refl)
    as (Hd & _ & Hperm & _).
  split; [exact Hd|exact Hperm].
Defined.

Lemma dict_set_keys k v d :
  map fst (dict_set k v d) =
    if key_in k (map fst d) then map fst d else (map fst d ++ [k])%list.
Proof.
  induction d as [|[k0 v0] d IH]; [done|].
  cbn [dict_set map fst]. rewrite key_in_cons.
  destruct (key_eqb k0 k); cbn [map fst orb]; [done|].
  rewrite IH. by destruct (key_in k (map fst d)).
Qed.

Lemma dict_writes_keys_distinct pairs : forall acc,
  distinct_keys (map fst acc) ->
  distinct_keys (map fst (dict_writes pairs acc)).
Proof.
  induction pairs as [|[k v] pairs IH]; intros acc Hd; [done|].
  cbn [dict_writes foldl fst snd].
  fold (dict_writes pairs (dict_set k v acc)). apply IH.
  rewrite dict_set_keys. destruct (key_in k (map fst acc)) eqn:Hin; [done|].
  by apply distinct_keys_snoc.
Qed.

(** X17: in the dictionaries built for ['registration_id'] and
    ['message_id'] no two keys are equal, and a recipient that occurs
    several times is bound to the value of its last occurrence. *)
Theorem mapping_last_write_wins `{KeyOrder} (other : gmap string PyVal)
    (ids entries : list PyVal) (key : string) :
  key ∈ ["registration_id"; "message_id"] ->
  forallb hashable ids = true ->
  forallb is_dict entries = true ->
  exists d,
    groupResponseResult (response_of other entries) (VList ids) key =
      Return (or_None (Mapping d)) /\
    distinct_keys (map fst d) /\
    forall r, dict_lookup r d =
              dict_lookup r (rev (pairs_with key (zip ids entries))).
Proof.
  intros Hkey Hh Hd. eexists. split; [by apply groupResponseResult_mapping|].
  split.
  - by apply dict_writes_keys_distinct.
  - intros r. rewrite dict_writes_lookup. by destruct (dict_lookup r _).
Qed.

Lemma mapping_last_write_wins_witness :
  groupResponseResult
    (response_of ∅ [VDict {[ "message_id" := VStr "0:a" ]};
                    VDict {[ "message_id" := VStr "0:b" ]};
                    VDict {[ "message_id" := VStr "0:c" ]}])
    (VList [VStr "R1"; VStr "R2"; VStr "R1"]) "message_id" =
  Return (Some (Mapping [(VStr "R1", VStr "0:c"); (VStr "R2", VStr "0:b")])).
Proof.
  destruct (mapping_last_write_wins ∅ [VStr "R1"; VStr "R2"; VStr "R1"]
              [VDict {[ "message_id" := VStr "0:a" ]};
               VDict {[ "message_id" := VStr "0:b" ]};
               VDict {[ "message_id" := VStr "0:c" ]}] "message_id")
    as (d & Hres & _ & _); [repeat constructor|reflexivity|reflexivity|].
  reflexivity.
Defined.

(** ** The reconciled result of well-formed responses *)

(** X18: with recipients that are hashable and all different and entries
    that are well formed, the reconciled result is read off the pairs of
    recipient and entry: [errors] are the pairs with an [error], grouped;
    [canonical] and [success] are the pairs with a [registration_id] and
    with a [message_id], in the order of the recipients; a key whose pairs
    are none is absent, and there is no other key. *)
Theorem reconcile_distinct_recipients `{KeyOrder}
    (kwargs other : gmap string PyVal)
    (ids entries : list PyVal) :
  kwargs !! "registration_ids" = Some (VList ids) ->
  kwargs !! "to" = None ->
  forallb hashable ids = true ->
  distinct_keys ids ->
  forallb entry_ok entries = true ->
  exists result,
    handleJSONResponse (response_of other entries) kwargs = Return result /\
    result !! "errors" =
      or_None (Items (grouped (pairs_with "error" (zip ids entries)))) /\
    result !! "canonical" =
      or_None (Mapping (pairs_with "registration_id" (zip ids entries))) /\
    result !! "success" =
      or_None (Mapping (pairs_with "message_id" (zip ids entries))) /\
    forall name, name ∉ ["errors"; "canonical"; "success"] ->
      result !! name = None.
Proof.
  intros Hids Hto Hh Hd Hok. rewrite handleJSONResponse_unfold.
  rewrite (recipients_given kwargs (VList ids)) by done.
  rewrite groupResponseResult_error
    by auto using entry_ok_is_dict, pairs_with_error_hashable.
  rewrite !groupResponseResult_mapping
    by first [done | by apply entry_ok_is_dict | repeat constructor].
  rewrite !dict_writes_distinct by (by apply pairs_with_distinct).
  eexists. split; [reflexivity|].
  match goal with
  | |- context [assemble ?e ?c ?s] =>
      destruct (assemble_lookup e c s) as (He & Hc & Hs & Hother)
  end.
  rewrite He, Hc, Hs, !kept_or_None. by repeat split.
Qed.

Lemma reconcile_distinct_recipients_witness :
  exists result,
    handleJSONResponse
      (response_of ∅
         [VDict {[ "message_id" := VStr "0:a";
                   "registration_id" := VStr "N1" ]};
          VDict {[ "error" := VStr "NotRegistered" ]}])
      {[ "registration_ids" := VList [VStr "R1"; VStr "R2"] ]} =
      Return result /\
    result !! "errors" =
      Some (Items [(VStr "NotRegistered", [VStr "R2"])]) /\
    result !! "canonical" = Some (Mapping [(VStr "R1", VStr "N1")]) /\
    result !! "success" = Some (Mapping [(VStr "R1", VStr "0:a")]).
Proof.
  destruct (reconcile_distinct_recipients
              {[ "registration_ids" := VList [VStr "R1"; VStr "R2"] ]} ∅
              [VStr "R1"; VStr "R2"]
              [VDict {[ "message_id" := VStr "0:a";
                        "registration_id" := VStr "N1" ]};
               VDict {[ "error" := VStr "NotRegistered" ]}])
    as (result & Hres & He & Hc & Hs & _);
    [reflexivity|reflexivity|reflexivity|cbn; by repeat split|reflexivity|].
  exists result. split; [exact Hres|]. split; [|split].
  - rewrite He. reflexivity.
  - rewrite Hc. reflexivity.
  - rewrite Hs. reflexivity.
Defined.

(** X19: when every recipient has an entry and every entry carries an
    [error] and no [message_id], the reconciled result has no [success]
    key and its [errors] are not empty: every reason of an entry has its
    group, no group is empty, and the groups together hold exactly the
    recipients. *)
Theorem reconcile_all_failures `{KeyOrder} (kwargs other : gmap string PyVal)
    (ids entries : list PyVal) :
  kwargs !! "registration_ids" = Some (VList ids) ->
  kwargs !! "to" = None ->
  ids ≠ [] ->
  forallb hashable ids = true ->
  length entries = length ids ->
  forallb entry_ok entries = true ->
  forallb (carries "error") entries = true ->
  forallb (fun e => negb (carries "message_id" e)) entries = true ->
  exists result groups,
    handleJSONResponse (response_of other entries) kwargs = Return result /\
    result !! "errors" = Some (Items groups) /\
    result !! "success" = None /\
    groups ≠ [] /\
    Forall (fun p => p.2 ≠ []) groups /\
    concat (map snd groups) ≡ₚ ids /\
    forall e reason, In e entries -> entry_get "error" e = Some reason ->
      key_in reason (map fst groups) = true.
Proof.
  intros Hids Hto Hne Hh Hlen Hok Herr Hmsg.
  rewrite handleJSONResponse_unfold.
  rewrite (recipients_given kwargs (VList ids)) by done.
  set (pairs := pairs_with "error" (zip ids entries)).
  assert (Hhash : forallb hashable (map snd pairs) = true)
    by (by apply pairs_with_error_hashable).
  rewrite groupResponseResult_error by auto using entry_ok_is_dict.
  rewrite !groupResponseResult_mapping
    by first [done | by apply entry_ok_is_dict | repeat constructor].
  rewrite (pairs_with_none "message_id") by done.
  fold pairs.
  destruct (group_by_value_invariants pairs [] (grouped pairs)
              (group_by_value_grouped pairs Hhash))
    as (_ & Hnonempty & Hperm & Hcov).
  assert (Hkeys : map fst pairs = ids) by (by apply pairs_with_all).
  cbn [map concat app] in Hperm. rewrite Hkeys in Hperm.
  assert (Hgroups : grouped pairs ≠ []).
  { intros Hnil. rewrite Hnil in Hperm. cbn in Hperm.
    apply Permutation_nil_l in Hperm. done. }
  eexists _, (grouped pairs). split; [reflexivity|].
  match goal with
  | |- context [assemble ?e ?c ?s] =>
      destruct (assemble_lookup e c s) as (He & _ & Hs & _)
  end.
  rewrite He, Hs, !kept_or_None. repeat split.
  - unfold or_None. cbn. by destruct (grouped pairs).
  - done.
  - by apply Hnonempty.
  - done.
  - intros e reason Hin He'. apply Hcov. right.
    by apply (pairs_with_values "error" ids entries e).
Qed.

Lemma reconcile_all_failures_witness :
  exists result,
    handleJSONResponse
      (response_of ∅ [VDict {[ "error" := VStr "Unavailable" ]};
                      VDict {[ "error" := VStr "NotRegistered" ]};
                      VDict {[ "error" := VStr "Unavailable" ]}])
      {[ "registration_ids" := VList [VStr "A"; VStr "B"; VStr "C"] ]} =
      Return result /\
    result !! "success" = None.
Proof.
  destruct (reconcile_all_failures
              {[ "registration_ids" := VList [VStr "A"; VStr "B"; VStr "C"] ]}
              ∅ [VStr "A"; VStr "B"; VStr "C"]
              [VDict {[ "error" := VStr "Unavailable" ]};
               VDict {[ "error" := VStr "NotRegistered" ]};
               VDict {[ "error" := VStr "Unavailable" ]}])
    as (result & groups & Hres & _ & Hs & _); try reflexivity; [done|].
  exists result. split; [exact Hres|exact Hs].
Defined.

Section EndToEnd.

Variable dumps : PyVal -> string.
Variable loads : string -> option PyVal.

(** X20: a [sendData] addressed by [to], answered with status 200 and a
    body that decodes to one result entry carrying a [message_id] alone,
    returns the reconciled result whose only key is [success], binding
    the recipient to that message id (the options must not have a field
    named [response], which the call of [handleJSONResponse] refuses). *)
Theorem sendData_to_delivers `{KeyOrder} (self : FirebaseMessaging)
    (kwargs other entry : gmap string PyVal) (to m : PyVal)
    (response : Response) (w : World) :
  kwargs !! "to" = Some to ->
  truthy to = true ->
  hashable to = true ->
  kwargs !! "registration_ids" = None ->
  kwargs !! "response" = None ->
  truthy (dict_get "is_json" (VBool true) kwargs) = true ->
  status_code response = 200 ->
  loads (content response) = Some (response_of other [VDict entry]) ->
  entry !! "message_id" = Some m ->
  entry !! "error" = None ->
  entry !! "registration_id" = None ->
  (sendData (fun _ => response) dumps loads self kwargs w).1 =
    Return {[ "success" := Mapping [(to, m)] ]}.
Proof.
  intros Hto Ht Hh Hreg Hresp Hj Hs Hbody Hm He Hr.
  assert (Hp : createPayLoad dumps kwargs =
               Return (JsonText (dumps (VDict (delete "is_json" kwargs))))).
  { rewrite createPayLoad_json by done.
    by rewrite validate_spec, lookup_delete_ne, Hreg. }
  rewrite (sendData_result _ _ _ _ _ _ _ Hp), makeRequest_result, Hs.
  cbn [Z.eqb Pos.eqb]. rewrite Hbody.
  rewrite bool_decide_false by (rewrite Hresp; by intros [? [=]]).
  rewrite handleJSONResponse_unfold.
  assert (recipients kwargs = VList [to]) as ->.
  { unfold recipients, dict_get. rewrite Hreg, Hto. cbn. by rewrite Ht. }
  rewrite groupResponseResult_error;
    [|done|by rewrite pairs_with_cons; cbn; rewrite He].
  rewrite !groupResponseResult_mapping
    by first [done | by cbn; rewrite Hh | repeat constructor].
  rewrite !pairs_with_cons. cbn [entry_get]. rewrite He, Hr, Hm.
  reflexivity.
Qed.

End EndToEnd.

Lemma sendData_to_delivers_witness :
  (sendData
     (provider 200
        (Json.dumps (response_of ∅ [VDict {[ "message_id" := VStr "0:abc" ]}])))
     Json.dumps Json.loads client
     {[ "to" := VStr "R1"; "data" := VDict {[ "k" := VStr "v" ]} ]}
     fresh_world).1 =
  Return {[ "success" := Mapping [(VStr "R1", VStr "0:abc")] ]}.
Proof.
  apply (sendData_to_delivers Json.dumps Json.loads client
           {[ "to" := VStr "R1"; "data" := VDict {[ "k" := VStr "v" ]} ]}
           ∅ {[ "message_id" := VStr "0:abc" ]} (VStr "R1") (VStr "0:abc")
           {| status_code := 200;
              content := Json.dumps (response_of ∅
                           [VDict {[ "message_id" := VStr "0:abc" ]}]) |}
           fresh_world); reflexivity.
Defined.

(** ** The debug log of a send *)

Section LogFacts.

Variable post : Request -> Response.
Variable dumps : PyVal -> string.
Variable loads : string -> option PyVal.

Lemma makeRequest_logged self payload is_json w :
  logger self = true ->
  exists line,
    logged (makeRequest post loads self payload is_json w).2 =
      (logged w ++ [line])%list.
Proof.
  intros Hl. unfold makeRequest, mbind, Py_bind, requests_post, log, raise,
    response_json.
  cbn -[String.append str_of_int]. rewrite Hl.
  repeat (destruct (_ =? _)); cbn -[String.append str_of_int];
    try (by eexists);
    destruct is_json; try (by eexists); destruct (loads _); by eexists.
Qed.

(** X21: with logging on, [sendData] first writes the line "Sending data
    to devices"; it writes nothing more when the payload cannot be built,
    and exactly one more line, for the status of the response, when the
    request was made. [sendPlainText] writes that one line only, and
    nothing when its payload cannot be built. *)
Theorem send_log_lines `{KeyOrder} (self : FirebaseMessaging)
    (kwargs : gmap string PyVal) (w : World) :
  logger self = true ->
  match createPayLoad dumps kwargs with
  | Return _ =>
      exists line,
        logged (sendData post dumps loads self kwargs w).2 =
          (logged w ++ ["Sending data to devices"; line])%list
  | Raise _ =>
      logged (sendData post dumps loads self kwargs w).2 =
        (logged w ++ ["Sending data to devices"])%list
  end /\
  (kwargs !! "is_json" = None ->
   match createPayLoad dumps (<["is_json" := VBool false]> kwargs) with
   | Return _ =>
       exists line,
         logged (sendPlainText post dumps loads self kwargs w).2 =
           (logged w ++ [line])%list
   | Raise _ =>
       logged (sendPlainText post dumps loads self kwargs w).2 = logged w
   end).
Proof.
  intros Hl. split.
  - destruct (createPayLoad dumps kwargs) as [payload|e] eqn:Hp.
    + rewrite (sendData_world post dumps loads self kwargs payload w Hp).
      destruct (makeRequest_logged self payload true
                  (log self "Sending data to devices" w).2 Hl)
        as [line Hline].
      exists line. rewrite Hline. unfold log. rewrite Hl. cbn.
      by rewrite <- app_assoc.
    + destruct (sendData_payload_error post dumps loads self kwargs e w Hp)
        as [-> _]. unfold log. by rewrite Hl.
  - intros Hj.
    destruct (createPayLoad dumps _) as [payload|e] eqn:Hp.
    + rewrite (sendPlainText_world post dumps loads self kwargs payload w Hj Hp).
      by apply makeRequest_logged.
    + by rewrite (sendPlainText_payload_error post dumps loads self kwargs e
                    w Hj Hp).
Qed.

End LogFacts.

Lemma send_log_lines_witness :
  exists line,
    logged (sendData (provider 200 "{}") Json.dumps Json.loads client
              {[ "registration_ids" := VList [] ]} fresh_world).2 =
    (logged fresh_world ++ ["Sending data to devices"; line])%list.
Proof.
  exact (proj1 (send_log_lines (provider 200 "{}") Json.dumps Json.loads
                  client {[ "registration_ids" := VList [] ]} fresh_world
                  eq_refl)).
Defined.

(** ** An option named [response] *)

(** X22: [sendData] hands its options to [handleJSONResponse] as keyword
    arguments beside the decoded body, the parameter [response]. When the
    options have a field named [response], the payload was built and the
    answer has status 200 and decodes, the call (and [sendNotification],
    which is the same call) posts its one request and then raises
    [TypeError]: nothing is reconciled. *)
Theorem sendData_response_option `{KeyOrder} (dumps : PyVal -> string)
    (loads : string -> option PyVal) (self : FirebaseMessaging)
    (kwargs : gmap string PyVal) (payload : Body) (response : Response)
    (j : PyVal) (w : World) :
  is_Some (kwargs !! "response") ->
  createPayLoad dumps kwargs = Return payload ->
  status_code response = 200 ->
  loads (content response) = Some j ->
  exists w',
    sendData (fun _ => response) dumps loads self kwargs w =
      (Raise TypeError, w') /\
    sendNotification (fun _ => response) dumps loads self kwargs w =
      (Raise TypeError, w') /\
    length (posted w') = S (length (posted w)).
Proof.
  intros Hresp Hp Hs Hj.
  destruct (sendData_200_run dumps loads self kwargs payload response j w
              Hp Hs Hj) as (w' & Hrun & Hlen).
  rewrite bool_decide_true in Hrun by done.
  exists w'. by repeat split.
Qed.

Lemma sendData_response_option_witness :
  exists w',
    sendData
      (provider 200
         (Json.dumps (response_of ∅ [VDict {[ "message_id" := VStr "0:a" ]}])))
      Json.dumps Json.loads client
      {[ "to" := VStr "R1"; "response" := VStr "x" ]} fresh_world =
      (Raise TypeError, w') /\
    length (posted w') = 1%nat.
Proof.
  destruct (sendData_response_option Json.dumps Json.loads client
              {[ "to" := VStr "R1"; "response" := VStr "x" ]}
              (JsonText (Json.dumps
                 (VDict {[ "to" := VStr "R1"; "response" := VStr "x" ]})))
              {| status_code := 200;
                 content := Json.dumps (response_of ∅
                              [VDict {[ "message_id" := VStr "0:a" ]}]) |}
              (response_of ∅ [VDict {[ "message_id" := VStr "0:a" ]}])
              fresh_world)
    as (w' & Hsend & _ & Hlen).
  - assert (H : ({[ "to" := VStr "R1"; "response" := VStr "x" ]}
                 : gmap string PyVal) !! "response" = Some (VStr "x"))
      by reflexivity.
    rewrite H. by eexists.
  - reflexivity.
  - reflexivity.
  - reflexivity.
  - exists w'. split; [exact Hsend|exact Hlen].
Defined.
